(** * The malicious-UE detection xApp: buffer, feature engineering, cascade

    A shallow embedding of [malicious_detector_ml.py] (class [KpmStyle5Xapp]):
    the telemetry buffer kept by [subscription_callback], the pandas pipeline
    of [_feature_engineer_network_data], and the two-stage classifier with its
    per-UE aggregation in [predict_cascaded].

    Python exceptions are values of [exn] carried by [result]; a pandas
    [DataFrame] is a list of column names with rows of cells; objects that the
    code updates in place live in a store of frames. Floating-point columns
    are written once over an interface [Numeric] and read at two instances:
    IEEE binary64 (what numpy computes with) and exact reals with an
    undefined value (for laws that rounding would blur). *)

From Stdlib Require Import ZArith List String Ascii Bool Lia.
From Stdlib Require Import Reals Lra.
From Stdlib Require Import Floats.
From Stdlib Require Import Permutation Sorted.
Import ListNotations.

Local Open Scope string_scope.
Local Open Scope list_scope.
Local Open Scope Z_scope.

Set Implicit Arguments.

(** ** Exceptions and results *)

Inductive exn : Type :=
| KeyError (key : string)
| AttributeError (msg : string)
| IndexError
| TypeError
| ValueError
| RuntimeError.

Inductive result (A : Type) : Type :=
| Ok (a : A)
| Raise (e : exn).

Arguments Ok {A} a.
Arguments Raise {A} e.

Definition rbind {A B : Type} (r : result A) (k : A -> result B) : result B :=
  match r with
  | Ok a => k a
  | Raise e => Raise e
  end.

Declare Scope result_scope.
Delimit Scope result_scope with result.
Notation "x <- c ;; k" := (rbind c (fun x => k))
  (at level 61, c at next level, right associativity) : result_scope.

Fixpoint mapM {A B : Type} (f : A -> result B) (l : list A) : result (list B) :=
  match l with
  | [] => Ok []
  | a :: l' =>
      (b <- f a ;;
       bs <- mapM f l' ;;
       Ok (b :: bs))%result
  end.

Definition is_ok {A : Type} (r : result A) : bool :=
  match r with Ok _ => true | Raise _ => false end.

(** ** Numbers

    The arithmetic the pipeline performs on float64 columns. [of_Z] is the
    int-to-float conversion, [epsilon] the literal [1e-5], [nan] the missing
    value of pandas. *)

Class Numeric (num : Type) : Type := {
  of_Z : Z -> num;
  epsilon : num;
  nan : num;
  isnan : num -> bool;
  isfinite : num -> bool;
  add : num -> num -> num;
  sub : num -> num -> num;
  mul : num -> num -> num;
  div : num -> num -> num;
  absn : num -> num;
  sqrtn : num -> num;
  eqbn : num -> num -> bool;
  ltbn : num -> num -> bool;
  isnan_nan : isnan nan = true
}.

(** IEEE 754 binary64, the float64 of numpy and the [float] of Python. *)
Module Binary64.

Definition b64_of_Z (z : Z) : float :=
  if (z <? 0)%Z
  then PrimFloat.opp (PrimFloat.of_uint63 (Uint63.of_Z (- z)))
  else PrimFloat.of_uint63 (Uint63.of_Z z).

Definition b64_isnan (x : float) : bool := negb (PrimFloat.eqb x x).

Definition b64_isfinite (x : float) : bool :=
  PrimFloat.ltb (PrimFloat.abs x) PrimFloat.infinity.

(** [1e-5] is not representable; this is the double Python reads it as. *)
Definition b64_epsilon : float := 0x1.4f8b588e368f1p-17%float.

#[global] Instance binary64 : Numeric float := {|
  of_Z := b64_of_Z;
  epsilon := b64_epsilon;
  nan := PrimFloat.nan;
  isnan := b64_isnan;
  isfinite := b64_isfinite;
  add := PrimFloat.add;
  sub := PrimFloat.sub;
  mul := PrimFloat.mul;
  div := PrimFloat.div;
  absn := PrimFloat.abs;
  sqrtn := PrimFloat.sqrt;
  eqbn := PrimFloat.eqb;
  ltbn := PrimFloat.ltb;
  isnan_nan := eq_refl
|}.

End Binary64.

(** Exact arithmetic: a real number, or [None] where binary64 would hold a
    NaN or an infinity (a missing value, a division by zero, the root of a
    negative number). *)
Module Exact.

Definition xnum : Type := option R.

Definition lift2 (f : R -> R -> R) (a b : xnum) : xnum :=
  match a, b with
  | Some x, Some y => Some (f x y)
  | _, _ => None
  end.

Definition x_div (a b : xnum) : xnum :=
  match a, b with
  | Some x, Some y => if Req_dec_T y 0 then None else Some (x / y)%R
  | _, _ => None
  end.

Definition x_sqrt (a : xnum) : xnum :=
  match a with
  | Some x => if Rlt_dec x 0 then None else Some (R_sqrt.sqrt x)
  | None => None
  end.

Definition x_abs (a : xnum) : xnum :=
  match a with
  | Some x => Some (Rabs x)
  | None => None
  end.

Definition x_eqb (a b : xnum) : bool :=
  match a, b with
  | Some x, Some y => if Req_dec_T x y then true else false
  | _, _ => false
  end.

Definition x_ltb (a b : xnum) : bool :=
  match a, b with
  | Some x, Some y => if Rlt_dec x y then true else false
  | _, _ => false
  end.

Definition x_isnan (a : xnum) : bool :=
  match a with Some _ => false | None => true end.

Definition x_isfinite (a : xnum) : bool :=
  match a with Some _ => true | None => false end.

#[global] Instance exact : Numeric xnum := {|
  of_Z := fun z => Some (IZR z);
  epsilon := Some (1 / 100000)%R;
  nan := None;
  isnan := x_isnan;
  isfinite := x_isfinite;
  add := lift2 Rplus;
  sub := lift2 Rminus;
  mul := lift2 Rmult;
  div := x_div;
  absn := x_abs;
  sqrtn := x_sqrt;
  eqbn := x_eqb;
  ltbn := x_ltb;
  isnan_nan := eq_refl
|}.

End Exact.

(** ** Python values: strings, list indexing, [collections.Counter] *)

(** [s.split("-", 1)[1]]: what follows the first dash. *)
Fixpoint after_dash (s : string) : result string :=
  match s with
  | EmptyString => Raise IndexError
  | String c s' => if Ascii.eqb c "-" then Ok s' else after_dash s'
  end.

Definition startswith (s p : string) : bool := String.prefix p s.

(** [l[i]] with Python's negative indices. *)
Definition py_index {A : Type} (l : list A) (i : Z) : result A :=
  let n := Z.of_nat (List.length l) in
  let j := if i <? 0 then i + n else i in
  if (0 <=? j) && (j <? n)
  then match nth_error l (Z.to_nat j) with
       | Some a => Ok a
       | None => Raise IndexError
       end
  else Raise IndexError.

Section Counter.

Variable K : Type.
Variable keq : K -> K -> bool.

(** A [Counter] is a dict: keys in first-seen order, each with its count. *)
Fixpoint counter_add (k : K) (c : list (K * nat)) : list (K * nat) :=
  match c with
  | [] => [(k, 1%nat)]
  | (k', n) :: c' =>
      if keq k' k then (k', S n) :: c' else (k', n) :: counter_add k c'
  end.

Definition Counter (l : list K) : list (K * nat) :=
  fold_left (fun c k => counter_add k c) l [].

(** [max(items, key=count)]: the first item holding the largest count. *)
Fixpoint max_item (best : K * nat) (c : list (K * nat)) : K * nat :=
  match c with
  | [] => best
  | kn :: c' =>
      if (snd best <? snd kn)%nat then max_item kn c' else max_item best c'
  end.

(** [Counter(l).most_common(1)[0][0]]. *)
Definition most_common (l : list K) : result K :=
  match Counter l with
  | [] => Raise IndexError
  | kn :: c => Ok (fst (max_item kn c))
  end.

End Counter.

(** Stable insertion sort, and the sorted list of distinct keys. *)
Section Sorting.

Variable A : Type.
Variable lt : A -> A -> bool.

Fixpoint insert_sorted (x : A) (l : list A) : list A :=
  match l with
  | [] => [x]
  | y :: l' => if lt y x then y :: insert_sorted x l' else x :: l
  end.

Definition sort_stable (l : list A) : list A :=
  fold_right insert_sorted [] l.

Fixpoint insert_unique (x : A) (l : list A) : list A :=
  match l with
  | [] => [x]
  | y :: l' =>
      if lt y x then y :: insert_unique x l'
      else if lt x y then x :: l
      else l
  end.

Definition sorted_unique (l : list A) : list A :=
  fold_right insert_unique [] l.

End Sorting.

(** ** Data frames *)

Section Frames.

Context {num : Type} {NUM : Numeric num}.

Inductive cell : Type :=
| Num (x : num)
| Int (z : Z)
| Str (s : string)
| Time (ns : Z).

(** The missing value: NaN, and NaT for a timestamp that failed to parse. *)
Definition NA : cell := Num nan.

Definition isna (c : cell) : bool :=
  match c with
  | Num x => isnan x
  | _ => false
  end.

Definition cell_eqb (a b : cell) : bool :=
  match a, b with
  | Num x, Num y => eqbn x y
  | Int x, Int y => (x =? y)%Z
  | Str x, Str y => String.eqb x y
  | Time x, Time y => (x =? y)%Z
  | _, _ => false
  end.

Definition cell_rank (a : cell) : nat :=
  match a with
  | Num _ => 0%nat
  | Int _ => 1%nat
  | Str _ => 2%nat
  | Time _ => 3%nat
  end.

Definition cell_ltb (a b : cell) : bool :=
  match a, b with
  | Num x, Num y => ltbn x y
  | Int x, Int y => (x <? y)%Z
  | Str x, Str y =>
      match String.compare x y with Lt => true | _ => false end
  | Time x, Time y => (x <? y)%Z
  | _, _ => (cell_rank a <? cell_rank b)%nat
  end.

(** Lexicographic order on the key tuples of [sort_values] and [groupby]. *)
Fixpoint key_ltb (a b : list cell) : bool :=
  match a, b with
  | x :: a', y :: b' =>
      if cell_ltb x y then true
      else if cell_ltb y x then false
      else key_ltb a' b'
  | _, _ => false
  end.

Fixpoint key_eqb (a b : list cell) : bool :=
  match a, b with
  | [], [] => true
  | x :: a', y :: b' => cell_eqb x y && key_eqb a' b'
  | _, _ => false
  end.

Record DataFrame : Type := mkDF {
  columns : list string;
  rows : list (list cell)
}.

(** [pd.DataFrame()]. *)
Definition empty_frame : DataFrame := mkDF [] [].

(** [df.empty]: an axis of length zero. *)
Definition empty (df : DataFrame) : bool :=
  match columns df, rows df with
  | [], _ => true
  | _, [] => true
  | _, _ => false
  end.

Fixpoint index_of (c : string) (cols : list string) : option nat :=
  match cols with
  | [] => None
  | c' :: cols' =>
      if String.eqb c' c then Some 0%nat
      else option_map S (index_of c cols')
  end.

(** [df[c]]. *)
Definition getitem (df : DataFrame) (c : string) : result (list cell) :=
  match index_of c (columns df) with
  | Some i => Ok (map (fun r => nth i r NA) (rows df))
  | None => Raise (KeyError c)
  end.

Fixpoint set_nth (i : nat) (v : cell) (r : list cell) : list cell :=
  match i, r with
  | O, _ :: r' => v :: r'
  | S i', x :: r' => x :: set_nth i' v r'
  | _, [] => []
  end.

(** [df[c] = values], on a frame whose rows line up with [values]: an
    existing column is overwritten, a new one is added on the right. *)
Definition setitem (df : DataFrame) (c : string) (values : list cell) : DataFrame :=
  match index_of c (columns df) with
  | Some i =>
      mkDF (columns df)
           (map (fun rv => set_nth i (snd rv) (fst rv)) (combine (rows df) values))
  | None =>
      mkDF (columns df ++ [c])
           (map (fun rv => fst rv ++ [snd rv]) (combine (rows df) values))
  end.

(** [df.fillna(0)]. *)
Definition fillna_cell (fill : cell) (c : cell) : cell :=
  if isna c then fill else c.

Definition fillna (fill : cell) (df : DataFrame) : DataFrame :=
  mkDF (columns df) (map (map (fillna_cell fill)) (rows df)).

(** A row dict of [data_buffer], keys in insertion order. *)
Definition row_dict : Type := list (string * cell).

Fixpoint dict_get (d : row_dict) (k : string) : option cell :=
  match d with
  | [] => None
  | (k', v) :: d' => if String.eqb k' k then Some v else dict_get d' k
  end.

(** [d[k] = v]: a key the dict has keeps its place and takes the new value,
    a new key goes to the end. *)
Fixpoint dict_set (d : row_dict) (k : string) (v : cell) : row_dict :=
  match d with
  | [] => [(k, v)]
  | (k', v') :: d' =>
      if String.eqb k' k then (k', v) :: d' else (k', v') :: dict_set d' k v
  end.

Fixpoint add_new (seen : list string) (ks : list string) : list string :=
  match ks with
  | [] => seen
  | k :: ks' =>
      if existsb (String.eqb k) seen then add_new seen ks'
      else add_new (seen ++ [k]) ks'
  end.

(** [pd.DataFrame(list_of_dicts)]: the columns are the keys in first-seen
    order (none at all for an empty list), a key a row lacks reads NaN. *)
Definition from_records (buf : list row_dict) : DataFrame :=
  let cols := fold_left (fun seen d => add_new seen (map fst d)) buf [] in
  mkDF cols
       (map (fun d => map (fun c => match dict_get d c with
                                    | Some v => v
                                    | None => NA
                                    end) cols) buf).

(** [pd.to_datetime(col, errors='coerce')]: the buffer holds ISO strings
    written by [datetime.now().isoformat()], kept here as the instant they
    denote; anything else is coerced to the missing value. *)
Definition to_datetime (c : cell) : cell :=
  match c with
  | Time t => Time t
  | _ => NA
  end.

(** [pd.to_numeric(col, errors='coerce')] on the cells [_extract_value]
    writes (floats); a timestamp reads as its nanoseconds. *)
Definition to_numeric (c : cell) : cell :=
  match c with
  | Num x => Num x
  | Int z => Num (of_Z z)
  | Time t => Num (of_Z t)
  | Str _ => NA
  end.

(** The number in a cell of a numeric column; arithmetic on a string or a
    timestamp column raises. *)
Definition as_num (c : cell) : result num :=
  match c with
  | Num x => Ok x
  | Int z => Ok (of_Z z)
  | _ => Raise TypeError
  end.

Definition numcol (df : DataFrame) (c : string) : result (list num) :=
  (cs <- getitem df c ;; mapM as_num cs)%result.

(** [col.astype('int64') // 10**9] on a datetime column. *)
Definition epoch_seconds (c : cell) : result cell :=
  match c with
  | Time t => Ok (Int (t / 1000000000))
  | Int z => Ok (Int (z / 1000000000))
  | _ => Raise TypeError
  end.

(** The position of a column, as [df[c]] looks it up. *)
Definition column_index (df : DataFrame) (c : string) : result nat :=
  match index_of c (columns df) with
  | Some i => Ok i
  | None => Raise (KeyError c)
  end.

(** The key tuple of every row, for the columns [by]. *)
Definition row_keys (df : DataFrame) (by_ : list string) : result (list (list cell)) :=
  (idx <- mapM (column_index df) by_ ;;
   Ok (map (fun r => map (fun i => nth i r NA) idx) (rows df)))%result.

(** [df.sort_values(by=...)]: a new frame, rows in key order, ties in their
    old order. *)
Definition sort_values (df : DataFrame) (by_ : list string) : result DataFrame :=
  (keys <- row_keys df by_ ;;
   Ok (mkDF (columns df)
            (map snd (sort_stable (fun a b => key_ltb (fst a) (fst b))
                                  (combine keys (rows df))))))%result.

(** [df.groupby(by)]: the groups in key order, each with its rows in frame
    order. *)
Definition groupby (df : DataFrame) (by_ : list string)
  : result (list (list cell * DataFrame)) :=
  (keys <- row_keys df by_ ;;
   Ok (map (fun k =>
              (k, mkDF (columns df)
                       (map snd (filter (fun kr => key_eqb (fst kr) k)
                                        (combine keys (rows df))))))
           (sorted_unique key_ltb keys)))%result.

(** [df.reindex(columns=cols, fill_value=fill)]: with [columns=None] the
    frame comes back as it is. *)
Definition reindex (cols : option (list string)) (fill : cell) (df : DataFrame)
  : DataFrame :=
  match cols with
  | None => df
  | Some cs =>
      mkDF cs
           (map (fun r => map (fun c => match index_of c (columns df) with
                                        | Some i => nth i r NA
                                        | None => fill
                                        end) cs)
                (rows df))
  end.

(** [df.drop(columns=cs, errors='ignore')]. *)
Definition drop (df : DataFrame) (cs : list string) : DataFrame :=
  let keep := filter (fun c => negb (existsb (String.eqb c) cs)) (columns df) in
  reindex (Some keep) NA df.

End Frames.

Arguments cell num : clear implicits.
Arguments DataFrame num : clear implicits.
Arguments row_dict num : clear implicits.

(** ** The store of frames

    [df.copy()] and [sort_values] make a new object; [df[c] = ...] and
    [df.fillna(0, inplace=True)] update the object a name refers to. A
    reference is the position of a frame in the store. *)

Section Store.

Context {num : Type} {NUM : Numeric num}.

Definition ref : Type := nat.
Definition store : Type := list (DataFrame num).

Definition M (A : Type) : Type := store -> result A * store.

Definition ret {A : Type} (a : A) : M A := fun h => (Ok a, h).

Definition bind {A B : Type} (m : M A) (k : A -> M B) : M B :=
  fun h =>
    match m h with
    | (Ok a, h') => k a h'
    | (Raise e, h') => (Raise e, h')
    end.

Definition lift {A : Type} (r : result A) : M A := fun h => (r, h).

Definition alloc (df : DataFrame num) : M ref :=
  fun h => (Ok (List.length h), h ++ [df]).

Definition load (r : ref) : M (DataFrame num) :=
  fun h =>
    match nth_error h r with
    | Some df => (Ok df, h)
    | None => (Raise RuntimeError, h)
    end.

Fixpoint update (h : store) (r : ref) (df : DataFrame num) : store :=
  match h, r with
  | [], _ => []
  | _ :: h', O => df :: h'
  | d :: h', S r' => d :: update h' r' df
  end.

Definition save (r : ref) (df : DataFrame num) : M unit :=
  fun h => (Ok tt, update h r df).

Fixpoint for_each {A : Type} (l : list A) (body : A -> M unit) : M unit :=
  match l with
  | [] => ret tt
  | a :: l' => bind (body a) (fun _ => for_each l' body)
  end.

End Store.

Declare Scope store_scope.
Delimit Scope store_scope with store.
Notation "x <- c ;; k" := (bind c (fun x => k))
  (at level 61, c at next level, right associativity) : store_scope.
Notation "c ;;; k" := (bind c (fun _ => k))
  (at level 61, right associativity) : store_scope.

(** ** Feature engineering: [_feature_engineer_network_data] *)

Section FeatureEngineering.

Context {num : Type} {NUM : Numeric num}.

Definition map2 {A B C : Type} (f : A -> B -> C) (a : list A) (b : list B) : list C :=
  map (fun p => f (fst p) (snd p)) (combine a b).

(** [a / (b + epsilon)], the guarded quotient of two columns. *)
Definition guarded_ratio (a b : list num) : list num :=
  map2 div a (map (fun y => add y epsilon) b).

Definition flag (b : bool) : cell num := Int (if b then 1 else 0).

Definition zero : num := of_Z 0.

Fixpoint last_seen (k : list (cell num)) (seen : list (list (cell num) * num))
  : option num :=
  match seen with
  | [] => None
  | (k', v) :: seen' => if key_eqb k' k then Some v else last_seen k seen'
  end.

(** [df.groupby(keys)[col].diff()]: each value minus the previous one of its
    group, missing on the first row of a group. *)
Fixpoint group_diff (seen : list (list (cell num) * num))
                    (kvs : list (list (cell num) * num)) : list num :=
  match kvs with
  | [] => []
  | (k, v) :: rest =>
      match last_seen k seen with
      | Some p => sub v p
      | None => nan
      end :: group_diff ((k, v) :: seen) rest
  end.

Definition fillna_num (fill : num) (x : num) : num :=
  if isnan x then fill else x.

Definition nums (l : list num) : list (cell num) := map Num l.

(** Lines 104-122: the dict [new_features], in insertion order. *)
Definition derive_features (df : DataFrame num)
  : result (list (string * list (cell num))) :=
  (PrbUsedDl <- numcol df "RRU.PrbUsedDl" ;;
   PrbAvailDl <- numcol df "RRU.PrbAvailDl" ;;
   PrbUsedUl <- numcol df "RRU.PrbUsedUl" ;;
   PrbAvailUl <- numcol df "RRU.PrbAvailUl" ;;
   UEThpUl <- numcol df "DRB.UEThpUl" ;;
   UEThpDl <- numcol df "DRB.UEThpDl" ;;
   RSRP <- numcol df "RSRP" ;;
   RSRQ <- numcol df "RSRQ" ;;
   CQI <- numcol df "CQI" ;;
   VolUL <- numcol df "DRB.RlcSduTransmittedVolumeUL" ;;
   VolDL <- numcol df "DRB.RlcSduTransmittedVolumeDL" ;;
   DelayDl <- numcol df "DRB.RlcSduDelayDl" ;;
   DelayUl <- numcol df "DRB.RlcDelayUl" ;;
   keys <- row_keys df ["E2AgentID"; "UE_ID"] ;;
   Timestamp <- getitem df "Timestamp" ;;
   epoch <- mapM epoch_seconds Timestamp ;;
   let ratio_dl := guarded_ratio PrbUsedDl PrbAvailDl in
   let ratio_ul := guarded_ratio PrbUsedUl PrbAvailUl in
   Ok [ ("PRB_Utilization_Ratio_DL", nums ratio_dl);
        ("PRB_Utilization_Ratio_UL", nums ratio_ul);
        ("UL_PRB_Efficiency", nums (guarded_ratio UEThpUl PrbUsedUl));
        ("DL_PRB_Efficiency", nums (guarded_ratio UEThpDl PrbUsedDl));
        ("Resource_Imbalance", nums (map absn (map2 sub ratio_dl ratio_ul)));
        ("Signal_Quality_Index",
         nums (map (fun s => div s (of_Z 3)) (map2 add (map2 add RSRP RSRQ) CQI)));
        ("Throughput_Asymmetry", nums (guarded_ratio UEThpDl UEThpUl));
        ("UL_Throughput_per_Volume", nums (guarded_ratio UEThpUl VolUL));
        ("DL_Throughput_per_Volume", nums (guarded_ratio UEThpDl VolDL));
        ("Avg_RlcDelay", nums (map (fun s => div s (of_Z 2)) (map2 add DelayDl DelayUl)));
        ("Delay_Imbalance", nums (map2 sub DelayDl DelayUl));
        ("CQI_Normalized", nums (map (fun c => div c (of_Z 15)) CQI));
        ("DelayJitterDl",
         nums (map (fillna_num zero) (group_diff [] (combine keys DelayDl))));
        ("DelayJitterUl",
         nums (map (fillna_num zero) (group_diff [] (combine keys DelayUl))));
        ("Zero_PRB_Flag",
         map2 (fun d u => flag (eqbn d zero && eqbn u zero)) PrbUsedDl PrbUsedUl);
        ("Zero_Throughput_Flag",
         map2 (fun d u => flag (eqbn d zero && eqbn u zero)) UEThpDl UEThpUl);
        ("Poor_Signal_Flag",
         map2 (fun c pq => flag (ltbn c (of_Z 5) || ltbn (fst pq) (of_Z (-110))
                                 || ltbn (snd pq) (of_Z (-15))))
              CQI (combine RSRP RSRQ));
        ("Timestamp_epoch", epoch) ])%result.

(** Rows of a frame, each extended by the next value of every new column. *)
Fixpoint append_cells (rs : list (list (cell num))) (cols : list (list (cell num)))
  : list (list (cell num)) :=
  match rs with
  | [] => []
  | r :: rs' => (r ++ map (hd NA) cols) :: append_cells rs' (map (@tl (cell num)) cols)
  end.

(** [pd.concat([df, pd.DataFrame(feats)], axis=1)]. *)
Definition concat_columns (df : DataFrame num) (feats : list (string * list (cell num)))
  : DataFrame num :=
  mkDF (columns df ++ map fst feats) (append_cells (rows df) (map snd feats)).

Definition rolling_features_to_calculate : list string :=
  [ "RRU.PrbUsedUl"; "DRB.UEThpUl"; "DRB.UEThpDl"; "DRB.RlcSduTransmittedVolumeUL";
    "DRB.RlcSduTransmittedVolumeDL"; "DRB.RlcSduDelayDl"; "DRB.RlcDelayUl"; "CQI"; "RSRP";
    "UL_PRB_Efficiency"; "DL_PRB_Efficiency"; "UL_Throughput_per_Volume";
    "DL_Throughput_per_Volume"; "Avg_RlcDelay"; "Delay_Imbalance"; "CQI_Normalized";
    "PRB_Utilization_Ratio_DL"; "PRB_Utilization_Ratio_UL"; "Resource_Imbalance";
    "Signal_Quality_Index"; "Throughput_Asymmetry"; "DelayJitterDl"; "DelayJitterUl" ].

Definition flag_features : list string :=
  [ "Zero_PRB_Flag"; "Zero_Throughput_Flag"; "Poor_Signal_Flag" ].

Definition all_features_to_roll : list string :=
  rolling_features_to_calculate ++ flag_features.

Definition window_size : nat := 5.
Definition min_periods : nat := 1.

(** pandas' [std] divides by [n - ddof] with [ddof = 1]. *)
Definition ddof : nat := 1.

(** The causal window ending at row [i]: at most [w] rows, fewer early on. *)
Definition window (w : nat) (xs : list num) (i : nat) : list num :=
  skipn (S i - w) (firstn (S i) xs).

(** Missing values do not count as observations, and neither do
    infinities: the rolling window reads them as missing before it
    aggregates. *)
Definition observations (win : list num) : list num :=
  filter isfinite win.

Definition total (l : list num) : num := fold_left add l zero.

Definition of_nat (n : nat) : num := of_Z (Z.of_nat n).

Definition mean_of (win : list num) : num :=
  let obs := observations win in
  let n := List.length obs in
  if (min_periods <=? n)%nat && (0 <? n)%nat
  then div (total obs) (of_nat n)
  else nan.

Definition std_of (win : list num) : num :=
  let obs := observations win in
  let n := List.length obs in
  if (min_periods <=? n)%nat && (ddof <? n)%nat
  then let m := div (total obs) (of_nat n) in
       sqrtn (div (total (map (fun x => mul (sub x m) (sub x m)) obs))
                  (of_nat (n - ddof)))
  else nan.

Definition rolled_columns : list string :=
  flat_map (fun f => [(f ++ "_mean")%string; (f ++ "_std")%string])
           all_features_to_roll.

(** The body of the loop over groups, lines 141-148. Rows with equal
    timestamps keep their order here; pandas promises none for them. *)
Definition roll_group (run ue : cell num) (group : DataFrame num)
  : result (DataFrame num) :=
  (group <- sort_values group ["Timestamp"] ;;
   series <- mapM (numcol group) all_features_to_roll ;;
   Timestamp <- getitem group "Timestamp" ;;
   epoch <- mapM epoch_seconds Timestamp ;;
   Ok (mkDF (rolled_columns ++ ["E2AgentID"; "UE_ID"; "Timestamp"; "Timestamp_epoch"])
            (map (fun i =>
                    flat_map (fun s => [Num (mean_of (window window_size s i));
                                        Num (std_of (window window_size s i))])
                             series
                    ++ [run; ue; nth i Timestamp NA; nth i epoch NA])
                 (seq 0 (List.length (rows group))))))%result.

(** Lines 104-184, which only read the frame prepared above them. *)
Definition engineer (selected_features : option (list string)) (df : DataFrame num)
  : result (DataFrame num) :=
  (feats <- derive_features df ;;
   let df := concat_columns df feats in
   grouped <- groupby df ["E2AgentID"; "UE_ID"] ;;
   final_dfs <- mapM (fun g => roll_group (nth 0 (fst g) NA) (nth 1 (fst g) NA) (snd g))
                     grouped ;;
   match final_dfs with
   | [] => Ok empty_frame
   | d :: _ =>
       Ok (reindex selected_features (Num zero)
                   (mkDF (columns d) (flat_map (@rows num) final_dfs)))
   end)%result.

End FeatureEngineering.

(** ** Models

    A loaded artifact is either a torch [nn.Module], called on a tensor and
    answering with a tensor of one or two dimensions, or an estimator with a
    [predict] method answering class labels. A score is the real number its
    float32 entry denotes. *)

Inductive tensor : Type :=
| Tensor1 (v : list R)
| Tensor2 (m : list (list R)).

(** A numpy array of labels: zero-dimensional after [squeeze] of a single
    element, else one-dimensional. *)
Inductive ndarray : Type :=
| Arr0 (v : Z)
| Arr1 (l : list Z).

(** The logistic function. *)
Definition sigmoid (x : R) : R := (1 / (1 + exp (- x)))%R.

(** [torch.sigmoid] on a float32 tensor, as a function on the reals the
    entries denote. The kernel rounds, so it is not the logistic function:
    a positive logit small enough has the value 0.5 exactly. Two things
    hold of it: a value above one half is only given to a positive logit,
    and every logit above [slack] is given a value above one half. *)
Class Sigmoid : Type := {
  torch_sigmoid : R -> R;
  slack : R;
  sigmoid_sign : forall x : R, (1 / 2 < torch_sigmoid x)%R -> (0 < x)%R;
  sigmoid_slack : forall x : R, (slack < x)%R -> (1 / 2 < torch_sigmoid x)%R
}.

(** Exact arithmetic: the kernel is the logistic function, which exceeds
    one half exactly on the positive logits, so there is no slack. *)
#[global, refine] Instance exact_sigmoid : Sigmoid := {|
  torch_sigmoid := sigmoid;
  slack := 0%R
|}.
Proof.
  - intros x H. unfold sigmoid in H.
    pose proof (exp_pos (- x)) as He.
    destruct (Rlt_dec 0 x) as [Hx|Hx]; [exact Hx|exfalso].
    assert (H1 : (1 <= exp (- x))%R).
    { destruct (Req_dec x 0) as [->|Hne].
      - rewrite Ropp_0, exp_0. lra.
      - rewrite <- exp_0. left. apply exp_increasing. lra. }
    assert (H2 : (1 / (1 + exp (- x)) <= 1 / 2)%R).
    { unfold Rdiv. rewrite !Rmult_1_l. apply Rinv_le_contravar; lra. }
    lra.
  - intros x Hx. unfold sigmoid.
    pose proof (exp_pos (- x)) as He.
    assert (H1 : (exp (- x) < 1)%R).
    { rewrite <- exp_0. apply exp_increasing. lra. }
    unfold Rdiv. rewrite !Rmult_1_l. apply Rinv_lt_contravar; nra.
Defined.

(** [(torch.sigmoid(x) > 0.5).long()]. *)
Definition threshold {SG : Sigmoid} (x : R) : Z :=
  if Rlt_dec (1 / 2) (torch_sigmoid x) then 1 else 0.

(** [(torch.sigmoid(out.squeeze()) > 0.5).long().cpu().numpy()]. *)
Definition squeeze_threshold {SG : Sigmoid} (v : list R) : ndarray :=
  match v with
  | [x] => Arr0 (threshold x)
  | _ => Arr1 (map threshold v)
  end.

Fixpoint argmax_from (best : R) (bi i : nat) (l : list R) : nat :=
  match l with
  | [] => bi
  | x :: l' =>
      if Rlt_dec best x then argmax_from x i (S i) l'
      else argmax_from best bi (S i) l'
  end.

(** [row.argmax()]: the first index holding the largest score. *)
Definition argmax (row : list R) : result Z :=
  match row with
  | [] => Raise RuntimeError
  | x :: l => Ok (Z.of_nat (argmax_from x 0 1 l))
  end.

Section App.

Context {num : Type} {NUM : Numeric num}.

Definition matrix : Type := list (list num).

Inductive model : Type :=
| TorchModule (forward : matrix -> tensor)
| Estimator (predict : matrix -> list Z).

(** What [joblib.load(path)] finds: a pair (model, feature names), no file,
    or a file it cannot read. *)
Inductive artifact : Type :=
| Artifact (m : model) (features : list string)
| NotFound
| Corrupt.

Record KpmStyle5Xapp : Type := mkXapp {
  metric_names : list string;
  data_buffer : list (row_dict num);
  buffer_size : Z;
  selected_features : option (list string);
  s1_model : option model;
  s1_features : option (list string);
  s2_ben_model : option model;
  s2_ben_features : option (list string);
  s2_mal_model : option model;
  s2_mal_features : option (list string);
  le_malicious : list string;
  le_benign : list string
}.

Definition malicious_labels : list string :=
  [ "parallel_tcp_flood"; "udp_fragmentation_flood"; "udp_flood";
    "small_packet_flood"; "pulsing_udp_flood"; "parallel_udp_flood";
    "parallel_tcp_flood" ].

Definition benign_labels : list string := [ "embb"; "mtc"; "urllc"; "voip" ].

(** The attributes set before the [try] of [__init__]. *)
Definition fresh_xapp (buffer_size : Z) : KpmStyle5Xapp :=
  mkXapp [] [] buffer_size None None None None None None None
         malicious_labels benign_labels.

Definition set_s1 (self : KpmStyle5Xapp) (m : model) (f : list string) : KpmStyle5Xapp :=
  mkXapp (metric_names self) (data_buffer self) (buffer_size self)
         (selected_features self) (Some m) (Some f)
         (s2_ben_model self) (s2_ben_features self)
         (s2_mal_model self) (s2_mal_features self)
         (le_malicious self) (le_benign self).

Definition set_s2_ben (self : KpmStyle5Xapp) (m : model) (f : list string) : KpmStyle5Xapp :=
  mkXapp (metric_names self) (data_buffer self) (buffer_size self)
         (selected_features self) (s1_model self) (s1_features self)
         (Some m) (Some f)
         (s2_mal_model self) (s2_mal_features self)
         (le_malicious self) (le_benign self).

Definition set_s2_mal (self : KpmStyle5Xapp) (m : model) (f : list string) : KpmStyle5Xapp :=
  mkXapp (metric_names self) (data_buffer self) (buffer_size self)
         (selected_features self) (s1_model self) (s1_features self)
         (s2_ben_model self) (s2_ben_features self)
         (Some m) (Some f)
         (le_malicious self) (le_benign self).

(** [__init__]: the three loads run in order inside one [try]; the first
    that fails ends the block, its message is printed and construction
    goes on. *)
Definition __init__ (buffer_size : Z) (s1 s2_ben s2_mal : artifact) : KpmStyle5Xapp :=
  let self := fresh_xapp buffer_size in
  match s1 with
  | Artifact m1 f1 =>
      let self := set_s1 self m1 f1 in
      match s2_ben with
      | Artifact m2 f2 =>
          let self := set_s2_ben self m2 f2 in
          match s2_mal with
          | Artifact m3 f3 => set_s2_mal self m3 f3
          | _ => self
          end
      | _ => self
      end
  | _ => self
  end.

(** [start] stores the metric names of the subscription. *)
Definition set_metric_names (self : KpmStyle5Xapp) (names : list string) : KpmStyle5Xapp :=
  mkXapp names (data_buffer self) (buffer_size self)
         (selected_features self) (s1_model self) (s1_features self)
         (s2_ben_model self) (s2_ben_features self)
         (s2_mal_model self) (s2_mal_features self)
         (le_malicious self) (le_benign self).

Definition set_data_buffer (self : KpmStyle5Xapp) (buf : list (row_dict num)) : KpmStyle5Xapp :=
  mkXapp (metric_names self) buf (buffer_size self)
         (selected_features self) (s1_model self) (s1_features self)
         (s2_ben_model self) (s2_ben_features self)
         (s2_mal_model self) (s2_mal_features self)
         (le_malicious self) (le_benign self).

(** A measurement as the indication carries it: a number, text that
    [float] rejects, [None], or something [float] cannot take (a nested
    list); possibly wrapped in a list. *)
Inductive scalar : Type :=
| SFloat (x : num)
| SText
| SNone
| SNested.

Inductive raw : Type :=
| RawScalar (v : scalar)
| RawList (l : list scalar).

(** [float(v)]. *)
Definition to_float (v : scalar) : result num :=
  match v with
  | SFloat x => Ok x
  | SText => Raise ValueError
  | SNone => Raise TypeError
  | SNested => Raise TypeError
  end.

Definition _extract_value (value : raw) : num :=
  match value with
  | RawList [] => zero
  | RawList (v0 :: _) =>
      match to_float v0 with Ok x => x | Raise _ => zero end
  | RawScalar SNone => zero
  | RawScalar v => match to_float v with Ok x => x | Raise _ => zero end
  end.

(** [_feature_engineer_network_data(self, cleaned_dataset)]. *)
Definition _feature_engineer_network_data (self : KpmStyle5Xapp) (cleaned_dataset : ref)
  : M (DataFrame num) :=
  (d <- load cleaned_dataset ;;
   df <- alloc d ;;
   d <- load df ;;
   Timestamp <- lift (getitem d "Timestamp") ;;
   save df (setitem d "Timestamp" (map to_datetime Timestamp)) ;;;
   d <- load df ;;
   sorted <- lift (sort_values d ["E2AgentID"; "UE_ID"; "Timestamp"]) ;;
   df <- alloc sorted ;;
   for_each (metric_names self)
            (fun col =>
               d <- load df ;;
               values <- lift (getitem d col) ;;
               save df (setitem d col (map to_numeric values))) ;;;
   d <- load df ;;
   save df (fillna (Num zero) d) ;;;
   d <- load df ;;
   lift (engineer (selected_features self) d))%store.

(** The transform on a buffer of records: [pd.DataFrame(records)] and then
    the method. *)
Definition transform (self : KpmStyle5Xapp) (records : list (row_dict num))
  : result (DataFrame num) :=
  fst ((df <- alloc (from_records records) ;;
        _feature_engineer_network_data self df)%store []).

End App.

(** ** The cascade: [predict_cascaded] *)

Section Cascade.

Context {num : Type} {NUM : Numeric num} {SG : Sigmoid}.

Definition no_predict : exn :=
  AttributeError "'NoneType' object has no attribute 'predict'".

(** Lines 215-225. A module's output of one dimension, or of shape (n, 1),
    is squeezed, passed through the sigmoid and cut at 0.5; any other
    output is reduced by [argmax(dim=1)]. *)
Definition stage1 (m : option (@model num)) (X_np : matrix) : result ndarray :=
  match m with
  | None => Raise no_predict
  | Some (Estimator predict) => Ok (Arr1 (predict X_np))
  | Some (TorchModule forward) =>
      match forward X_np with
      | Tensor1 v => Ok (squeeze_threshold v)
      | Tensor2 m =>
          match m with
          | [_] :: _ => Ok (squeeze_threshold (map (fun r => hd 0%R r) m))
          | _ => (l <- mapM argmax m ;; Ok (Arr1 l))%result
          end
      end
  end.

(** [binary_preds[i]]. *)
Definition arr_index (a : ndarray) (i : nat) : result Z :=
  match a with
  | Arr0 _ => Raise IndexError
  | Arr1 l => py_index l (Z.of_nat i)
  end.

(** [enumerate(binary_preds)]. *)
Definition arr_iter (a : ndarray) : result (list (nat * Z)) :=
  match a with
  | Arr0 _ => Raise TypeError
  | Arr1 l => Ok (combine (seq 0 (List.length l)) l)
  end.

(** [pred_enc[0]] of lines 246-252: the class a Stage-2 model gives to the
    one-row sample. *)
Definition class_index (m : option (@model num)) (x_sample : matrix) : result Z :=
  match m with
  | None => Raise no_predict
  | Some (Estimator predict) => py_index (predict x_sample) 0
  | Some (TorchModule forward) =>
      match forward x_sample with
      | Tensor1 _ => Raise IndexError
      | Tensor2 m => (pred_enc <- mapM argmax m ;; py_index pred_enc 0)%result
      end
  end.

(** One branch of lines 245-269: run a Stage-2 model on one row and decode
    the class index against its label list. *)
Definition stage2 (m : option (@model num)) (labels : list string) (x_sample : matrix)
  : result string :=
  (enc <- class_index m x_sample ;; py_index labels enc)%result.

(** The body of the loop of lines 242-269 for row [i] with Stage-1 label
    [pred]. *)
Definition cascade_row (self : @KpmStyle5Xapp num) (X_np : matrix) (i : nat) (pred : Z)
  : result string :=
  match nth_error X_np i with
  | None => Raise IndexError
  | Some x =>
      if pred =? 0
      then (pred_label <- stage2 (s2_ben_model self) (le_benign self) [x] ;;
            Ok ("Benign-" ++ pred_label)%string)%result
      else (pred_label <- stage2 (s2_mal_model self) (le_malicious self) [x] ;;
            Ok ("Malicious-" ++ pred_label)%string)%result
  end.

(** The rows of one UE: [col[ue_ids == ue]]. *)
Definition rows_of {A : Type} (ue : Z) (ue_ids : list Z) (col : list A) : list A :=
  map snd (filter (fun p => fst p =? ue) (combine ue_ids col)).

(** Lines 227-233: the Stage-1 majority per UE (printed only). *)
Definition per_ue_stage1 (ue_ids : list Z) (binary_preds : ndarray)
  : result (list (Z * string)) :=
  mapM (fun ue =>
          (ue_preds <- mapM (arr_index binary_preds)
                            (rows_of ue ue_ids (seq 0 (List.length ue_ids))) ;;
           most_common_ <- most_common Z.eqb ue_preds ;;
           Ok (ue, if most_common_ =? 0 then "Benign" else "Malicious"))%result)
       (sorted_unique Z.ltb ue_ids).

(** The body of the loop of lines 277-292 on the labels of one UE. *)
Definition ue_status (ue_preds : list string) : result string :=
  let malicious_preds := filter (fun p => startswith p "Malicious-") ue_preds in
  match malicious_preds with
  | _ :: _ =>
      (subtypes <- mapM after_dash malicious_preds ;;
       chosen <- most_common String.eqb subtypes ;;
       Ok ("Malicious-" ++ chosen)%string)%result
  | [] =>
      let benign_preds := filter (fun p => startswith p "Benign-") ue_preds in
      match benign_preds with
      | _ :: _ =>
          (subtypes <- mapM after_dash benign_preds ;;
           chosen <- most_common String.eqb subtypes ;;
           Ok ("Benign-" ++ chosen)%string)%result
      | [] => Ok "Unknown-NA"
      end
  end.

(** Lines 276-292: the dict [per_ue_status], one entry per distinct UE in
    increasing order ([np.unique]). *)
Definition per_ue_status (ue_ids : list Z) (cascade_prediction : list string)
  : result (list (Z * string)) :=
  mapM (fun ue =>
          (status <- ue_status (rows_of ue ue_ids cascade_prediction) ;;
           Ok (ue, status))%result)
       (sorted_unique Z.ltb ue_ids).

Definition as_int (c : cell num) : result Z :=
  match c with
  | Int z => Ok z
  | _ => Raise TypeError
  end.

Definition identifiers : list string := ["E2AgentID"; "UE_ID"; "Timestamp"].

(** Lines 203-212: the float matrix handed to the models. *)
Definition feature_matrix (self : @KpmStyle5Xapp num) (feature_data : DataFrame num)
  : matrix :=
  let X_df := drop feature_data identifiers in
  let X_df :=
    match selected_features self with
    | Some (f :: fs) =>
        reindex (Some (filter (fun c => negb (existsb (String.eqb c) identifiers))
                              (f :: fs)))
                (Num zero) X_df
    | _ => X_df
    end in
  map (map (fun c => match fillna_cell (Num zero) (to_numeric c) with
                     | Num x => x
                     | _ => zero
                     end))
      (rows X_df).

(** What one call prints: the Stage-1 summary, the label of every row, and
    the verdict of every UE. *)
Record report : Type := mkReport {
  stage1_summary : list (Z * string);
  cascade_prediction : list string;
  verdicts : list (Z * string)
}.

(** [predict_cascaded(self, feature_data)]; [None] is the early return on
    an empty frame. *)
Definition predict_cascaded (self : @KpmStyle5Xapp num) (feature_data : DataFrame num)
  : result (option report) :=
  if empty feature_data then Ok None
  else
    (ue_cells <- getitem feature_data "UE_ID" ;;
     ue_ids <- mapM as_int ue_cells ;;
     let X_np := feature_matrix self feature_data in
     binary_preds <- stage1 (s1_model self) X_np ;;
     summary <- per_ue_stage1 ue_ids binary_preds ;;
     indexed <- arr_iter binary_preds ;;
     final_preds <- mapM (fun ip => cascade_row self X_np (fst ip) (snd ip)) indexed ;;
     if (List.length final_preds =? List.length (rows feature_data))%nat
     then (status <- per_ue_status ue_ids final_preds ;;
           Ok (Some (mkReport summary final_preds status)))
     else Raise ValueError)%result.

(** ** The buffer: [subscription_callback] *)

Definition hard_cap : Z := 1440.

(** The row built for one UE of an indication, lines 426-434: the dict
    starts with the three identifiers, and every metric is assigned in
    turn, so a metric named like an identifier (or named twice) overwrites
    the entry that is there. *)
Definition make_row (self : @KpmStyle5Xapp num) (timestamp : Z) (e2_agent_id : string)
           (ue_id : Z) (meas_values : list (string * @raw num)) : row_dict num :=
  fold_left
    (fun row_dict metric =>
       dict_set row_dict metric
                (Num (_extract_value
                        match find (fun kv => String.eqb (fst kv) metric) meas_values with
                        | Some kv => snd kv
                        | None => RawScalar SNone
                        end)))
    (metric_names self)
    [("Timestamp", Time timestamp); ("E2AgentID", Str e2_agent_id); ("UE_ID", Int ue_id)].

Definition len (self : @KpmStyle5Xapp num) : Z := Z.of_nat (List.length (data_buffer self)).

(** Lines 440-454, after the rows have been appended. The outcome is paired
    with the object as the call leaves it, also when it raises. *)
Definition process_buffer (self : @KpmStyle5Xapp num)
  : result (option report) * @KpmStyle5Xapp num :=
  if buffer_size self <=? len self
  then
    match transform self (data_buffer self) with
    | Raise e => (Raise e, self)
    | Ok _ =>
        let r :=
          if buffer_size self <=? len self
          then (features_df <- transform self (data_buffer self) ;;
                predict_cascaded self features_df)%result
          else Ok None in
        match r with
        | Raise e => (Raise e, self)
        | Ok out =>
            if hard_cap <=? len self
            then (Ok out, set_data_buffer self [])
            else (Ok out, self)
        end
    end
  else (Ok None, self).

(** [subscription_callback]: [timestamp] is the clock reading, [meas_data]
    the items of [ueMeasData] with their [measData]. *)
Definition subscription_callback (self : @KpmStyle5Xapp num) (timestamp : Z)
           (e2_agent_id : string) (meas_data : list (Z * list (string * @raw num)))
  : result (option report) * @KpmStyle5Xapp num :=
  let new_rows :=
    map (fun um => make_row self timestamp e2_agent_id (fst um) (snd um)) meas_data in
  process_buffer (set_data_buffer self (data_buffer self ++ new_rows)).

End Cascade.

(** ** Scenarios

    The configuration the command line gives by default, and small inputs
    on which the code is run below: in binary64 where the code is
    evaluated, in exact arithmetic where a law of arithmetic is used. *)

Module Scenario.

Import Binary64.

(** The default of [--metrics]. *)
Definition default_metrics : list string :=
  [ "RRU.PrbAvailDl"; "RRU.PrbAvailUl"; "RRU.PrbUsedDl"; "RRU.PrbUsedUl";
    "RACH.PreambleDedCell"; "DRB.UEThpDl"; "DRB.UEThpUl"; "DRB.RlcPacketDropRateDl";
    "DRB.RlcSduTransmittedVolumeDL"; "DRB.RlcSduTransmittedVolumeUL"; "CQI"; "RSRP";
    "RSRQ"; "DRB.RlcSduDelayDl"; "DRB.RlcDelayUl" ].

(** An estimator that answers class 0 for every row. *)
Definition always0 : @model float := Estimator (fun X => map (fun _ => 0) X).

(** An estimator that answers class 1 for every row. *)
Definition always1 : @model float := Estimator (fun X => map (fun _ => 1) X).

(** An indication in which every metric of a UE reads [v]. *)
Definition meas (v : float) : list (string * @raw float) :=
  map (fun m => (m, RawList [SFloat v])) default_metrics.

(** All three artifacts load; Stage 1 was trained on one feature. *)
Definition loaded (buffer_size : Z) : @KpmStyle5Xapp float :=
  set_metric_names
    (__init__ buffer_size (Artifact always0 ["CQI_mean"])
              (Artifact always0 ["CQI_mean"]) (Artifact always1 ["CQI_mean"]))
    default_metrics.

(** One record: UE 7 on agent gnb1, every metric equal to 1. *)
Definition one_record : list (row_dict float) :=
  [make_row (loaded 1) 1000000000 "gnb1" 7 (meas 1%float)].

(** Its feature table. *)
Definition one_features : DataFrame float :=
  match transform (loaded 1) one_record with
  | Ok out => out
  | Raise _ => empty_frame
  end.

(** A torch module whose single output per row is the logit 0.3. *)
Definition logit_model : @model float :=
  TorchModule (fun X => Tensor1 (map (fun _ => (3 / 10)%R) X)).

(** Stage 1 is that module; the Stage-2 models are the estimators. *)
Definition logit_app : @KpmStyle5Xapp float :=
  set_metric_names
    (__init__ 2 (Artifact logit_model []) (Artifact always0 []) (Artifact always1 []))
    default_metrics.

(** Two records of one indication: UE 7 and UE 8. *)
Definition two_records : list (row_dict float) :=
  [ make_row (loaded 2) 1000000000 "gnb1" 7 (meas 1%float);
    make_row (loaded 2) 1000000000 "gnb1" 8 (meas 2%float) ].

(** Their feature table. *)
Definition two_features : DataFrame float :=
  match transform (loaded 2) two_records with
  | Ok out => out
  | Raise _ => empty_frame
  end.

(** A buffer one record short of the hard cap: UEs 0 to 287 with five
    records each, one second apart, but for the last record of UE 287. *)
Definition almost_full : @KpmStyle5Xapp float :=
  set_data_buffer
    (loaded 30)
    (map (fun i => make_row (loaded 30) (Z.of_nat (i mod 5) * 1000000000) "gnb1"
                            (Z.of_nat (i / 5)) (meas 1%float))
         (seq 0 1439)).

(** One row in exact arithmetic: every metric equal to 1. *)
Definition exact_frame : DataFrame Exact.xnum :=
  mkDF (["Timestamp"; "E2AgentID"; "UE_ID"] ++ default_metrics)
       [ [Time 1000000000; Str "gnb1"; Int 7]
         ++ map (fun _ => Num (Some 1%R)) default_metrics ].

(** Its derived features. *)
Definition exact_features : list (string * list (cell Exact.xnum)) :=
  match derive_features exact_frame with
  | Ok feats => feats
  | Raise _ => []
  end.

(** The table lines 104-184 make of that row. *)
Definition exact_table : DataFrame Exact.xnum :=
  match engineer None exact_frame with
  | Ok out => out
  | Raise _ => empty_frame
  end.

(** One record in binary64: an uplink throughput of 1e308 with no uplink
    resource block in use; every other metric is 0. *)
Definition huge_throughput : list (row_dict float) :=
  [ [("Timestamp", Time 1000000000); ("E2AgentID", Str "gnb1"); ("UE_ID", Int 7)]
    ++ map (fun m => (m, Num (if String.eqb m "DRB.UEThpUl"
                              then 0x1.1ccf385ebc8ap+1023%float else 0%float)))
           default_metrics ].

(** A frame that has every column the buffer would give it, and no row. *)
Definition no_rows : DataFrame float :=
  mkDF (["Timestamp"; "E2AgentID"; "UE_ID"] ++ default_metrics) [].

End Scenario.

(** ** Vocabulary of the statements *)

Section Occurrences.

Variable K : Type.
Variable keq : K -> K -> bool.

(** How often [k] occurs in [l]. *)
Fixpoint occ (k : K) (l : list K) : nat :=
  match l with
  | [] => 0%nat
  | x :: l' => if keq x k then S (occ k l') else occ k l'
  end.

(** The count a [Counter] holds for [k], zero when [k] is not a key. *)
Fixpoint held (k : K) (c : list (K * nat)) : nat :=
  match c with
  | [] => 0%nat
  | (k', n) :: c' => if keq k' k then n else held k c'
  end.

End Occurrences.

(** [strip_prefix p s = Some t] when [s] is [p] followed by [t]. *)
Fixpoint strip_prefix (p s : string) : option string :=
  match p, s with
  | EmptyString, _ => Some s
  | String a p', String b s' => if Ascii.eqb a b then strip_prefix p' s' else None
  | String _ _, EmptyString => None
  end.

(** The subtypes of the labels that carry the prefix, in row order. *)
Definition subtypes_of (prefix : string) (labels : list string) : list string :=
  flat_map (fun l => match strip_prefix prefix l with
                     | Some t => [t]
                     | None => []
                     end) labels.

(** [chosen] occurs in [l] at least as often as any other string. *)
Definition most_frequent (chosen : string) (l : list string) : Prop :=
  In chosen l
  /\ forall s, (count_occ string_dec l s <= count_occ string_dec l chosen)%nat.

(** The rule of the aggregation on the labels of one UE: malicious rows
    decide when there are any, benign rows otherwise. *)
Definition verdict_rule (mine : list string) (v : string) : Prop :=
  let mal := subtypes_of "Malicious-" mine in
  let ben := subtypes_of "Benign-" mine in
  (mal <> [] ->
   exists chosen, v = ("Malicious-" ++ chosen)%string /\ most_frequent chosen mal)
  /\ (mal = [] -> ben <> [] ->
      exists chosen, v = ("Benign-" ++ chosen)%string /\ most_frequent chosen ben)
  /\ (mal = [] -> ben = [] -> v = "Unknown-NA").

(** The label of a logit in exact arithmetic: 1 when it is positive. *)
Definition positive_logit (x : R) : Z := if Rlt_dec 0 x then 1 else 0.

(** The label of a logit under a kernel: 1 only when the logit is
    positive, 0 only when it is at most the kernel's [slack]. A logit that
    is not positive is labelled 0 and one above [slack] is labelled 1. *)
Definition logit_label {SG : Sigmoid} (x : R) (label : Z) : Prop :=
  (label = 1 /\ (0 < x)%R) \/ (label = 0 /\ (x <= slack)%R).

(** [i] is the first position of [row] that holds its largest score. *)
Definition is_argmax (row : list R) (i : Z) : Prop :=
  0 <= i < Z.of_nat (List.length row)
  /\ (forall j, (j < List.length row)%nat ->
                (nth j row 0 <= nth (Z.to_nat i) row 0)%R)
  /\ (forall j, (j < Z.to_nat i)%nat ->
                (nth j row 0 < nth (Z.to_nat i) row 0)%R).

(** What the Stage-1 labels of a batch are, by the kind of model. *)
Definition stage1_rule {num : Type} {SG : Sigmoid} (m : @model num)
           (X_np : list (list num)) (labels : list Z) : Prop :=
  match m with
  | Estimator predict => labels = predict X_np
  | TorchModule forward =>
      match forward X_np with
      | Tensor1 v => Forall2 logit_label v labels
      | Tensor2 ([x] :: rest) =>
          Forall2 logit_label (map (fun r => hd 0%R r) ([x] :: rest)) labels
      | Tensor2 scores => Forall2 is_argmax scores labels
      end
  end.

(** The label of row [x] whose Stage-1 label is [pred]: the branch's model
    gives a class index, the branch's list decodes it. *)
Definition row_rule {num : Type} (self : @KpmStyle5Xapp num) (x : list num) (pred : Z)
           (label : string) : Prop :=
  if pred =? 0
  then exists enc s, class_index (s2_ben_model self) [x] = Ok enc
                     /\ py_index (le_benign self) enc = Ok s
                     /\ label = ("Benign-" ++ s)%string
  else exists enc s, class_index (s2_mal_model self) [x] = Ok enc
                     /\ py_index (le_malicious self) enc = Ok s
                     /\ label = ("Malicious-" ++ s)%string.

(** A value of the exact instance that is a number, and not negative. *)
Definition nonneg (v : Exact.xnum) : Prop := exists x, v = Some x /\ (0 <= x)%R.

(** The quotients guarded by [epsilon], and the columns they divide. *)
Definition ratio_features : list string :=
  [ "PRB_Utilization_Ratio_DL"; "PRB_Utilization_Ratio_UL"; "UL_PRB_Efficiency";
    "DL_PRB_Efficiency"; "Throughput_Asymmetry"; "UL_Throughput_per_Volume";
    "DL_Throughput_per_Volume" ].

Definition ratio_inputs : list string :=
  [ "RRU.PrbUsedDl"; "RRU.PrbAvailDl"; "RRU.PrbUsedUl"; "RRU.PrbAvailUl";
    "DRB.UEThpUl"; "DRB.UEThpDl"; "DRB.RlcSduTransmittedVolumeUL";
    "DRB.RlcSduTransmittedVolumeDL" ].

Section At.
Context {num : Type} {NUM : Numeric num}.
(** The cell of column [c] in row [i]. *)
Definition cell_at (df : DataFrame num) (c : string) (i : nat) : result (cell num) :=
  (cs <- getitem df c ;;
   match nth_error cs i with
   | Some x => Ok x
   | None => Raise IndexError
   end)%result.

(** The number of column [c] in row [i]. *)
Definition num_at (df : DataFrame num) (c : string) (i : nat) : result num :=
  (s <- numcol df c ;;
   match nth_error s i with
   | Some x => Ok x
   | None => Raise IndexError
   end)%result.
End At.

(** The first row of a rolled group against the first row of the group in
    time order: every [_mean] column holds the feature's own value, every
    [_std] column the missing value. *)
Definition first_row_rule (group rolled : DataFrame Exact.xnum) : Prop :=
  exists sorted,
    sort_values group ["Timestamp"] = Ok sorted
    /\ forall f, In f all_features_to_roll ->
         exists v, num_at sorted f 0 = Ok v
                   /\ cell_at rolled (f ++ "_mean") 0 = Ok (Num v)
                   /\ cell_at rolled (f ++ "_std") 0 = Ok (Num None).

(** A label written by the Stage-2 loop. *)
Definition prefixed (label : string) : Prop :=
  (exists s, label = ("Benign-" ++ s)%string)
  \/ (exists s, label = ("Malicious-" ++ s)%string).

(** ** Vocabulary and code for the further properties *)

Unset Implicit Arguments.

(** The distinct elements of a list, in the order they are first seen. *)
Definition first_seen {K : Type} (keq : K -> K -> bool) (l : list K) : list K :=
  fold_left (fun seen k => if existsb (keq k) seen then seen else seen ++ [k]) l [].

(** The ten labels a row can get from the two label lists. *)
Definition all_labels : list string :=
  map (fun s => ("Benign-" ++ s)%string) benign_labels
  ++ map (fun s => ("Malicious-" ++ s)%string) malicious_labels.
Module Scenarios.
(** Stage 1 answers 1 for every row. *)
Definition always_malicious : @KpmStyle5Xapp float :=
  set_metric_names
    (__init__ 2 (Artifact Scenario.always1 []) (Artifact Scenario.always0 [])
              (Artifact Scenario.always1 []))
    Scenario.default_metrics.
End Scenarios.

(** A value of the exact instance that is a number between two bounds. *)
Definition between (lo hi : R) (v : Exact.xnum) : Prop :=
  exists x, v = Some x /\ (lo <= x <= hi)%R.

Section JitterRule.
Context {num : Type} {NUM : Numeric num}.

(** The jitter of a delay column against the rows' group keys: zero on the
    first row of a group, elsewhere the delay minus the delay of the
    group's previous row (zero again when that difference is NaN). *)
Definition jitter_rule (keys : list (list (cell num))) (delays jitter : list num) : Prop :=
  forall i k v,
    nth_error keys i = Some k -> nth_error delays i = Some v ->
    ((forall j k', (j < i)%nat -> nth_error keys j = Some k' -> key_eqb k' k = false) ->
     nth_error jitter i = Some zero)
    /\ (forall j k' p,
          (j < i)%nat -> nth_error keys j = Some k' -> nth_error delays j = Some p ->
          key_eqb k' k = true ->
          (forall m km, (j < m < i)%nat -> nth_error keys m = Some km ->
                        key_eqb km k = false) ->
          nth_error jitter i = Some (fillna_num zero (sub v p))).

(** Every row has one cell per column. *)
Definition well_formed (df : DataFrame num) : Prop :=
  Forall (fun r => List.length r = List.length (columns df)) (rows df).

End JitterRule.

(** ** The entry point: [start] and the command line *)

(** [s.split(sep)] for a separator of one character: every occurrence
    splits, empty pieces are kept, the empty string gives one empty piece. *)
Fixpoint split (sep : ascii) (s : string) : list string :=
  match s with
  | EmptyString => [EmptyString]
  | String c s' =>
      if Ascii.eqb c sep then EmptyString :: split sep s'
      else match split sep s' with
           | piece :: rest => String c piece :: rest
           | [] => [String c EmptyString]
           end
  end.

Section Main.

Context {num : Type} {NUM : Numeric num}.

(** [start]: the metric names are stored, and a list of fewer than two UE
    ids gets one more id appended before the subscription is made. The
    result is the object and the list handed to
    [subscribe_report_service_style_5]. *)
Definition start (self : @KpmStyle5Xapp num) (ue_ids : list Z) (metric_names : list string)
  : @KpmStyle5Xapp num * list Z :=
  let self := set_metric_names self metric_names in
  let ue_ids :=
    if Z.of_nat (List.length ue_ids) <? 2
    then ue_ids ++ [match ue_ids with
                    | u :: _ => u + 1
                    | [] => 1
                    end]
    else ue_ids in
  (self, ue_ids).

(** Python's [int] on a string: an integer, or [ValueError]. *)
Variable int : string -> result Z.

(** The [__main__] block, from the parsed arguments to the subscription. *)
Definition main (ue_ids metrics : string) (buffer_size : Z)
           (s1 s2_ben s2_mal : @artifact num)
  : result (@KpmStyle5Xapp num * list Z) :=
  (ue_ids <- mapM int (split "," ue_ids) ;;
   let metric_names := split "," metrics in
   let kpmXapp := __init__ buffer_size s1 s2_ben s2_mal in
   Ok (start kpmXapp ue_ids metric_names))%result.

End Main.

(** ** The preparation without the store

    Lines 93-103 read and write one frame after the other; since no frame
    is shared, they amount to a function from the input frame to the frame
    the feature code reads. *)

Section Prepared.

Context {num : Type} {NUM : Numeric num}.

(** The loop of lines 97-99. *)
Fixpoint to_numeric_columns (names : list string) (d : DataFrame num)
  : result (DataFrame num) :=
  match names with
  | [] => Ok d
  | col :: names' =>
      (values <- getitem d col ;;
       to_numeric_columns names' (setitem d col (map to_numeric values)))%result
  end.

(** Lines 93-103. *)
Definition prepare (self : @KpmStyle5Xapp num) (d : DataFrame num)
  : result (DataFrame num) :=
  (Timestamp <- getitem d "Timestamp" ;;
   sorted <- sort_values (setitem d "Timestamp" (map to_datetime Timestamp))
                         ["E2AgentID"; "UE_ID"; "Timestamp"] ;;
   cur <- to_numeric_columns (metric_names self) sorted ;;
   Ok (fillna (Num zero) cur))%result.

End Prepared.

Section Typed.

Context {num : Type} {NUM : Numeric num}.

(** Column [c] exists and every cell of it satisfies [P]. *)
Definition column_holds (d : DataFrame num) (c : string) (P : cell num -> Prop) : Prop :=
  exists cells, getitem d c = Ok cells /\ Forall P cells.

Definition is_number (c : cell num) : Prop :=
  match c with Num _ | Int _ => True | _ => False end.

Definition is_time (c : cell num) : Prop :=
  match c with Time _ => True | _ => False end.

Definition is_text (c : cell num) : Prop :=
  match c with Str _ => True | _ => False end.

Definition is_int (c : cell num) : Prop :=
  match c with Int _ => True | _ => False end.

(** Every record of the buffer was written by [subscription_callback] of
    this object. *)
Definition callback_rows (self : @KpmStyle5Xapp num) (buf : list (row_dict num)) : Prop :=
  Forall (fun row => exists timestamp e2_agent_id ue_id meas_values,
                       row = make_row self timestamp e2_agent_id ue_id meas_values)
         buf.

(** The metrics that lines 104-148 read. *)
Definition required_metrics : list string :=
  [ "RRU.PrbUsedDl"; "RRU.PrbAvailDl"; "RRU.PrbUsedUl"; "RRU.PrbAvailUl";
    "DRB.UEThpUl"; "DRB.UEThpDl"; "RSRP"; "RSRQ"; "CQI";
    "DRB.RlcSduTransmittedVolumeUL"; "DRB.RlcSduTransmittedVolumeDL";
    "DRB.RlcSduDelayDl"; "DRB.RlcDelayUl" ].

(** The keys of the dict [new_features], in insertion order. *)
Definition derived_features : list string :=
  [ "PRB_Utilization_Ratio_DL"; "PRB_Utilization_Ratio_UL"; "UL_PRB_Efficiency";
    "DL_PRB_Efficiency"; "Resource_Imbalance"; "Signal_Quality_Index";
    "Throughput_Asymmetry"; "UL_Throughput_per_Volume"; "DL_Throughput_per_Volume";
    "Avg_RlcDelay"; "Delay_Imbalance"; "CQI_Normalized"; "DelayJitterDl";
    "DelayJitterUl"; "Zero_PRB_Flag"; "Zero_Throughput_Flag"; "Poor_Signal_Flag";
    "Timestamp_epoch" ].

(** The subscription names every metric the feature code reads, and no
    metric is called like an identifier column or a derived feature. *)
Definition compatible (metrics : list string) : bool :=
  forallb (fun r => existsb (String.eqb r) metrics) required_metrics
  && forallb (fun m => negb (existsb (String.eqb m)
                                     (["Timestamp"; "E2AgentID"; "UE_ID"]
                                        ++ derived_features)))
             metrics.

(** The frame has its identifier columns, a numeric column for every
    metric, and no other column. *)
Definition typed (metrics : list string) (d : DataFrame num) : Prop :=
  well_formed d
  /\ column_holds d "Timestamp" is_time
  /\ column_holds d "E2AgentID" is_text
  /\ column_holds d "UE_ID" is_int
  /\ (forall m, In m metrics -> column_holds d m is_number)
  /\ incl (columns d) (["Timestamp"; "E2AgentID"; "UE_ID"] ++ metrics).

End Typed.

Section GroupKeys.

Context {num : Type}.

(** A key of the grouping: an agent name and a UE id. *)
Definition group_key (k : list (cell num)) : Prop :=
  exists s z, k = [Str s; Int z].

End GroupKeys.

Section Indications.

Context {num : Type} {NUM : Numeric num} {SG : Sigmoid}.

(** What one RIC indication brings to the callback: the clock reading, the
    agent, and the measurements of each UE. *)
Definition indication : Type := Z * string * list (Z * list (string * @raw num)).

(** The rows one indication appends to the buffer. *)
Definition rows_of_indication (self : @KpmStyle5Xapp num) (ind : indication)
  : list (row_dict num) :=
  let '(timestamp, e2_agent_id, meas_data) := ind in
  map (fun um => make_row self timestamp e2_agent_id (fst um) (snd um)) meas_data.

(** The object after a sequence of indications, each handled by
    [subscription_callback]; an exception raised by one call is the
    caller's to deal with and the next indication meets the object as the
    call left it. *)
Fixpoint feed (self : @KpmStyle5Xapp num) (inds : list indication) : @KpmStyle5Xapp num :=
  match inds with
  | [] => self
  | (timestamp, e2_agent_id, meas_data) :: rest =>
      feed (snd (subscription_callback self timestamp e2_agent_id meas_data)) rest
  end.

End Indications.

Section Readings.

Context {num : Type} {NUM : Numeric num}.

(** The number a measurement stands for, if it is one: a float, or a list
    whose first element is a float. *)
Definition reading (value : option (@raw num)) : option num :=
  match value with
  | Some (RawScalar (SFloat x)) => Some x
  | Some (RawList (SFloat x :: _)) => Some x
  | _ => None
  end.

End Readings.

Set Implicit Arguments.

(** * Properties *)

Unset Implicit Arguments.

(** ** Schema alignment (C1) *)

Section SchemaAlignment.

Context {num : Type} {NUM : Numeric num}.

(** No path through [__init__] assigns [selected_features]: the feature
    lists of the artifacts go to [s1_features], [s2_ben_features] and
    [s2_mal_features]. *)
Lemma init_selected_features (buffer_size : Z) (s1 s2_ben s2_mal : @artifact num) :
  selected_features (__init__ buffer_size s1 s2_ben s2_mal) = None.
Proof.
  destruct s1, s2_ben, s2_mal; reflexivity.
Qed.

(** Reindexing onto a list of names yields exactly those columns, in that
    order, every row as wide as the list. *)
Lemma reindex_columns (fs : list string) (fill : cell num) (df : DataFrame num) :
  columns (reindex (Some fs) fill df) = fs
  /\ Forall (fun r => List.length r = List.length fs) (rows (reindex (Some fs) fill df)).
Proof.
  split; [reflexivity|].
  cbn. apply Forall_forall. intros r Hr.
  apply in_map_iff in Hr. destruct Hr as [r0 [<- _]].
  apply length_map.
Qed.

(** A column the frame lacks is filled; one it has is carried over. *)
Lemma reindex_cell (fs : list string) (fill : cell num) (df : DataFrame num)
      (r : list (cell num)) (c : string) :
  In r (rows df) ->
  In c fs ->
  exists r', In r' (rows (reindex (Some fs) fill df))
             /\ forall k, nth_error fs k = Some c ->
                  nth_error r' k = Some match index_of c (columns df) with
                                        | Some i => nth i r NA
                                        | None => fill
                                        end.
Proof.
  intros Hr _. eexists. split.
  - cbn. apply in_map. exact Hr.
  - intros k Hk. rewrite nth_error_map, Hk. reflexivity.
Qed.

(** With [columns=None] nothing is aligned. *)
Lemma reindex_None (fill : cell num) (df : DataFrame num) :
  reindex None fill df = df.
Proof. reflexivity. Qed.

End SchemaAlignment.

(** C1. The xApp built by [__init__] from three artifacts that load, with
    Stage 1 trained on the single feature [CQI_mean], keeps
    [selected_features = None]; its transform of one record returns the
    fifty-two rolling columns and the four identifier columns, not the
    classifier's feature list. *)
Theorem transform_ignores_loaded_features :
  s1_features (Scenario.loaded 1) = Some ["CQI_mean"]
  /\ selected_features (Scenario.loaded 1) = None
  /\ (out <- transform (Scenario.loaded 1) Scenario.one_record ;; Ok (columns out))%result
     = Ok (rolled_columns ++ ["E2AgentID"; "UE_ID"; "Timestamp"; "Timestamp_epoch"]).
Proof.
  repeat split; vm_compute; reflexivity.
Qed.

(** ** Empty input (C8) *)

Section EmptyInput.

Context {num : Type} {NUM : Numeric num}.

(** The guard of lines 150-151 is reached by a frame that has its columns
    and no rows: the result is [pd.DataFrame()]. *)
Lemma no_groups_empty_frame (self : @KpmStyle5Xapp num) :
  engineer (selected_features self)
           (mkDF (["Timestamp"; "E2AgentID"; "UE_ID"] ++ Scenario.default_metrics) [])
  = Ok empty_frame.
Proof. reflexivity. Qed.

End EmptyInput.

(** C8. On an empty sequence of records the frame [pd.DataFrame([])] has no
    column, and line 94 raises [KeyError: 'Timestamp'] before the guard for
    an empty result is reached. *)
Theorem transform_empty_raises (num : Type) (NUM : Numeric num) (self : @KpmStyle5Xapp num) :
  transform self [] = Raise (KeyError "Timestamp").
Proof. reflexivity. Qed.

(** The same method on a frame with the columns and no rows returns the
    empty frame. *)
Lemma transform_no_rows :
  fst (_feature_engineer_network_data (Scenario.loaded 1) 0%nat [Scenario.no_rows])
  = Ok empty_frame.
Proof. vm_compute. reflexivity. Qed.

(** ** Model loading (C4) *)

(** C4. Stage 1 fails to load (no such file); the first indication that
    fills the buffer reaches [self.s1_model.predict] with [s1_model = None],
    and the call raises [AttributeError] to its caller. *)
Theorem predict_raises_after_failed_load (SG : Sigmoid) (s2_ben s2_mal : @artifact float) :
  fst (subscription_callback
         (set_metric_names (__init__ 1 NotFound s2_ben s2_mal) Scenario.default_metrics)
         1000000000 "gnb1" [(7, Scenario.meas 1%float)])
  = Raise no_predict.
Proof. vm_compute. reflexivity. Qed.

(** When only the last artifact fails to load, the models loaded before it
    stay in place and a batch that Stage 1 calls benign gets its verdicts. *)
Lemma verdicts_after_partial_load (SG : Sigmoid) :
  fst (subscription_callback
         (set_metric_names
            (__init__ 1 (Artifact Scenario.always0 []) (Artifact Scenario.always0 []) Corrupt)
            Scenario.default_metrics)
         1000000000 "gnb1" [(7, Scenario.meas 1%float)])
  = Ok (Some (mkReport [(7, "Benign")] ["Benign-embb"] [(7, "Benign-embb")])).
Proof. vm_compute. reflexivity. Qed.

(** ** Counting and majority *)

Section CounterFacts.

Variable K : Type.
Variable keq : K -> K -> bool.
Hypothesis keq_spec : forall a b, keq a b = true <-> a = b.

Lemma keq_refl (a : K) : keq a a = true.
Proof. apply keq_spec. reflexivity. Qed.

Lemma keq_sym (a b : K) : keq a b = keq b a.
Proof.
  destruct (keq a b) eqn:E1, (keq b a) eqn:E2; try reflexivity.
  - apply keq_spec in E1. subst. rewrite keq_refl in E2. discriminate.
  - apply keq_spec in E2. subst. rewrite keq_refl in E1. discriminate.
Qed.

Lemma keq_dec (a b : K) : {a = b} + {a <> b}.
Proof.
  destruct (keq a b) eqn:E.
  - left. apply keq_spec. exact E.
  - right. intros H. apply keq_spec in H. congruence.
Qed.

Lemma held_counter_add (k k' : K) (c : list (K * nat)) :
  held keq k (counter_add keq k' c)
  = if keq k' k then S (held keq k c) else held keq k c.
Proof.
  induction c as [|[k0 n] c IH]; cbn.
  - reflexivity.
  - destruct (keq k0 k') eqn:E0; cbn.
    + apply keq_spec in E0. subst k0.
      destruct (keq k' k); reflexivity.
    + rewrite IH. destruct (keq k0 k) eqn:E1; [|reflexivity].
      apply keq_spec in E1. subst k0.
      rewrite keq_sym, E0. reflexivity.
Qed.

Lemma occ_app (k : K) (l1 l2 : list K) :
  occ keq k (l1 ++ l2) = (occ keq k l1 + occ keq k l2)%nat.
Proof.
  induction l1 as [|x l1 IH]; cbn; [reflexivity|].
  rewrite IH. destruct (keq x k); reflexivity.
Qed.

Lemma held_fold (l : list K) :
  forall (c : list (K * nat)) (l0 : list K),
    (forall k, held keq k c = occ keq k l0) ->
    forall k, held keq k (fold_left (fun c k => counter_add keq k c) l c)
              = occ keq k (l0 ++ l).
Proof.
  induction l as [|x l IH]; intros c l0 Hc k; cbn.
  - rewrite app_nil_r. apply Hc.
  - replace (l0 ++ x :: l) with ((l0 ++ [x]) ++ l) by (rewrite <- app_assoc; reflexivity).
    apply IH. intros k0. rewrite held_counter_add, occ_app, Hc. cbn.
    destruct (keq x k0); lia.
Qed.

(** A [Counter] holds for every key the number of its occurrences. *)
Lemma held_Counter (l : list K) (k : K) :
  held keq k (Counter keq l) = occ keq k l.
Proof.
  unfold Counter. apply (held_fold l [] []). reflexivity.
Qed.

Lemma keys_counter_add (k : K) (c : list (K * nat)) :
  NoDup (map fst c) ->
  (forall kn, In kn c -> (0 < snd kn)%nat) ->
  NoDup (map fst (counter_add keq k c))
  /\ (forall kn, In kn (counter_add keq k c) -> (0 < snd kn)%nat)
  /\ (forall k0, In k0 (map fst (counter_add keq k c)) <-> k0 = k \/ In k0 (map fst c)).
Proof.
  induction c as [|[k0 n] c IH]; intros Hnd Hpos; cbn.
  - repeat split.
    + constructor; [intros []|constructor].
    + intros kn [<-|[]]. cbn. lia.
    + intros [H|[]]; left; congruence.
    + intros [H|[]]; left; congruence.
  - inversion Hnd as [|? ? Hnotin Hnd']; subst.
    destruct (keq k0 k) eqn:E.
    + apply keq_spec in E. subst k0. cbn. repeat split.
      * exact Hnd.
      * intros kn [<-|H]; cbn; [lia|]. apply Hpos. right. exact H.
      * intros [H|H]; [left; congruence|right; right; exact H].
      * intros [H|[H|H]]; [left; congruence|left; exact H|right; exact H].
    + destruct IH as [IH1 [IH2 IH3]]; [exact Hnd'| |].
      { intros kn H. apply Hpos. right. exact H. }
      cbn. repeat split.
      * constructor; [|exact IH1].
        intros H. apply IH3 in H. destruct H as [H|H].
        -- subst k0. rewrite keq_refl in E. discriminate.
        -- exact (Hnotin H).
      * intros kn [<-|H]; [apply (Hpos (k0, n)); left; reflexivity|apply IH2; exact H].
      * intros [H|H]; [right; left; exact H|].
        apply IH3 in H. destruct H as [H|H]; [left; exact H|right; right; exact H].
      * intros [H|[H|H]].
        -- right. apply IH3. left. exact H.
        -- left. exact H.
        -- right. apply IH3. right. exact H.
Qed.

Lemma keys_fold (l : list K) :
  forall c : list (K * nat),
    NoDup (map fst c) ->
    (forall kn, In kn c -> (0 < snd kn)%nat) ->
    let c' := fold_left (fun c k => counter_add keq k c) l c in
    NoDup (map fst c')
    /\ (forall kn, In kn c' -> (0 < snd kn)%nat)
    /\ (forall k0, In k0 (map fst c') <-> In k0 l \/ In k0 (map fst c)).
Proof.
  induction l as [|x l IH]; intros c Hnd Hpos; cbn.
  - repeat split; auto. intros [[]|H]; exact H.
  - destruct (keys_counter_add x c Hnd Hpos) as [H1 [H2 H3]].
    destruct (IH _ H1 H2) as [I1 [I2 I3]].
    repeat split; auto.
    + intros H. apply I3 in H. destruct H as [H|H]; [left; right; exact H|].
      apply H3 in H. destruct H as [H|H]; [left; left; congruence|right; exact H].
    + intros [[H|H]|H]; apply I3.
      * right. apply H3. left. congruence.
      * left. exact H.
      * right. apply H3. right. exact H.
Qed.

Lemma held_In (c : list (K * nat)) (k : K) (n : nat) :
  NoDup (map fst c) -> In (k, n) c -> held keq k c = n.
Proof.
  induction c as [|[k0 n0] c IH]; intros Hnd Hin; [destruct Hin|].
  inversion Hnd as [|? ? Hnotin Hnd']; subst. cbn.
  destruct Hin as [Heq|Hin].
  - inversion Heq; subst. rewrite keq_refl. reflexivity.
  - destruct (keq k0 k) eqn:E.
    + apply keq_spec in E. subst k0. exfalso. apply Hnotin.
      apply (in_map fst) in Hin. exact Hin.
    + apply IH; assumption.
Qed.

Lemma max_item_spec (c : list (K * nat)) :
  forall best, In (max_item best c) (best :: c)
               /\ forall kn, In kn (best :: c) -> (snd kn <= snd (max_item best c))%nat.
Proof.
  induction c as [|kn c IH]; intros best; cbn -[Nat.ltb].
  - split; [left; reflexivity|]. intros kn [<-|[]]. lia.
  - destruct (Nat.ltb_spec (snd best) (snd kn)) as [Hlt|Hge].
    + destruct (IH kn) as [H1 H2]. split.
      * destruct H1 as [H1|H1]; [right; left; exact H1|right; right; exact H1].
      * intros kn' [<-|[<-|H]].
        -- specialize (H2 kn (or_introl eq_refl)). lia.
        -- apply H2. left. reflexivity.
        -- apply H2. right. exact H.
    + destruct (IH best) as [H1 H2]. split.
      * destruct H1 as [H1|H1]; [left; exact H1|right; right; exact H1].
      * intros kn' [<-|[<-|H]].
        -- apply H2. left. reflexivity.
        -- specialize (H2 best (or_introl eq_refl)). lia.
        -- apply H2. right. exact H.
Qed.

(** [Counter(l).most_common(1)[0][0]] on a non-empty list: an element of
    [l] that no other element outnumbers. *)
Lemma most_common_spec (l : list K) :
  l <> [] ->
  exists k, most_common keq l = Ok k
            /\ In k l
            /\ forall k', (occ keq k' l <= occ keq k l)%nat.
Proof.
  intros Hne. unfold most_common.
  destruct (keys_fold l [] (NoDup_nil _) (fun kn (H : In kn []) => match H with end))
    as [Hnd [Hpos Hkeys]].
  fold (Counter keq l) in Hnd, Hpos, Hkeys. cbn in Hkeys.
  destruct (Counter keq l) as [|kn c] eqn:EC.
  - exfalso. destruct l as [|x l]; [apply Hne; reflexivity|].
    assert (In x (map fst (@nil (K * nat)))) as [].
    apply Hkeys. left. left. reflexivity.
  - destruct (max_item_spec c kn) as [Hin Hmax].
    destruct (max_item kn c) as [k n] eqn:EM. cbn.
    exists k. split; [reflexivity|].
    assert (Hk : held keq k (Counter keq l) = n).
    { rewrite EC. apply held_In; [exact Hnd|exact Hin]. }
    rewrite held_Counter in Hk.
    split.
    + assert (In k (map fst (kn :: c))) as Hk'.
      { apply (in_map fst) in Hin. exact Hin. }
      apply Hkeys in Hk'. destruct Hk' as [Hk'|[]]. exact Hk'.
    + intros k'. rewrite Hk.
      destruct (in_dec keq_dec k' (map fst (kn :: c))) as [Hin'|Hnin].
      * apply in_map_iff in Hin'. destruct Hin' as [[k0 n'] [Hfst Hin']]. cbn in Hfst. subst k0.
        specialize (Hmax _ Hin'). cbn in Hmax.
        assert (held keq k' (Counter keq l) = n') as Hh.
        { rewrite EC. apply held_In; [exact Hnd|exact Hin']. }
        rewrite held_Counter in Hh. lia.
      * assert (occ keq k' l = 0%nat) as ->; [|lia].
        rewrite <- held_Counter, EC.
        clear - Hnin keq_spec. induction (kn :: c) as [|[k0 n0] c' IH]; [reflexivity|].
        cbn. destruct (keq k0 k') eqn:E.
        -- exfalso. apply Hnin. left. cbn. apply keq_spec. exact E.
        -- apply IH. intros H. apply Hnin. right. exact H.
Qed.

End CounterFacts.

(** ** Lists, strings and results *)

Lemma mapM_total {A B : Type} (f : A -> result B) (P : A -> B -> Prop) (l : list A) :
  (forall a, In a l -> exists b, f a = Ok b /\ P a b) ->
  exists bs, mapM f l = Ok bs /\ Forall2 P l bs.
Proof.
  induction l as [|a l IH]; intros H; cbn.
  - exists []. split; [reflexivity|constructor].
  - destruct (H a (or_introl eq_refl)) as [b [Hb HP]].
    destruct IH as [bs [Hbs HF]]; [intros a' Ha'; apply H; right; exact Ha'|].
    exists (b :: bs). rewrite Hb, Hbs. split; [reflexivity|constructor; assumption].
Qed.

Lemma mapM_Ok {A B : Type} (f : A -> result B) (l : list A) (bs : list B) :
  mapM f l = Ok bs -> Forall2 (fun a b => f a = Ok b) l bs.
Proof.
  revert bs. induction l as [|a l IH]; intros bs H; cbn in H.
  - inversion H. constructor.
  - destruct (f a) as [b|e] eqn:Ea; cbn in H; [|discriminate].
    destruct (mapM f l) as [bs'|e] eqn:El; cbn in H; [|discriminate].
    inversion H. subst. constructor; [exact Ea|apply IH; reflexivity].
Qed.

Lemma Forall2_In_l {A B : Type} (P : A -> B -> Prop) (l : list A) (bs : list B) (a : A) :
  Forall2 P l bs -> In a l -> exists b, In b bs /\ P a b.
Proof.
  induction 1 as [|x y l bs Hxy _ IH]; intros Hin; [destruct Hin|].
  destruct Hin as [<-|Hin].
  - exists y. split; [left; reflexivity|exact Hxy].
  - destruct (IH Hin) as [b [Hb HP]]. exists b. split; [right; exact Hb|exact HP].
Qed.

Lemma Forall2_In_r {A B : Type} (P : A -> B -> Prop) (l : list A) (bs : list B) (b : B) :
  Forall2 P l bs -> In b bs -> exists a, In a l /\ P a b.
Proof.
  induction 1 as [|x y l bs Hxy _ IH]; intros Hin; [destruct Hin|].
  destruct Hin as [<-|Hin].
  - exists x. split; [left; reflexivity|exact Hxy].
  - destruct (IH Hin) as [a [Ha HP]]. exists a. split; [right; exact Ha|exact HP].
Qed.

Lemma Forall2_length_eq {A B : Type} (P : A -> B -> Prop) (l : list A) (bs : list B) :
  Forall2 P l bs -> List.length l = List.length bs.
Proof. induction 1; cbn; congruence. Qed.

Lemma startswith_strip (p s : string) :
  startswith s p = match strip_prefix p s with Some _ => true | None => false end.
Proof.
  unfold startswith. revert s. induction p as [|a p IH]; intros s.
  - destruct s; reflexivity.
  - destruct s as [|b s]; cbn; [reflexivity|].
    destruct (ascii_dec a b) as [->|Hne].
    + rewrite Ascii.eqb_refl. apply IH.
    + destruct (Ascii.eqb_spec a b); [contradiction|reflexivity].
Qed.

Lemma strip_prefix_app (p s t : string) :
  strip_prefix p s = Some t -> s = (p ++ t)%string.
Proof.
  revert s. induction p as [|a p IH]; intros s H; cbn in H.
  - inversion H. reflexivity.
  - destruct s as [|b s]; [discriminate|].
    destruct (Ascii.eqb_spec a b) as [->|]; [|discriminate].
    cbn. f_equal. apply IH. exact H.
Qed.

Lemma strip_prefix_self (p t : string) : strip_prefix p (p ++ t) = Some t.
Proof.
  induction p as [|a p IH]; cbn; [reflexivity|].
  rewrite Ascii.eqb_refl. exact IH.
Qed.

Lemma startswith_app (p t : string) : startswith (p ++ t) p = true.
Proof. rewrite startswith_strip, strip_prefix_self. reflexivity. Qed.

Lemma occ_count_occ (k : string) (l : list string) :
  occ String.eqb k l = count_occ string_dec l k.
Proof.
  induction l as [|x l IH]; cbn; [reflexivity|].
  destruct (String.eqb_spec x k), (string_dec x k); congruence.
Qed.

(** ** The distinct UE identifiers *)

Lemma insert_unique_In (x y : Z) (l : list Z) :
  In y (insert_unique Z.ltb x l) <-> y = x \/ In y l.
Proof.
  induction l as [|z l IH]; cbn.
  - split; intros [H|H]; auto.
  - destruct (Z.ltb_spec z x).
    + cbn. rewrite IH. tauto.
    + destruct (Z.ltb_spec x z).
      * cbn. intuition.
      * assert (x = z) by lia. subst. cbn. intuition.
Qed.

Lemma sorted_unique_In (y : Z) (l : list Z) :
  In y (sorted_unique Z.ltb l) <-> In y l.
Proof.
  induction l as [|x l IH]; cbn; [tauto|].
  rewrite insert_unique_In, IH. intuition.
Qed.

Lemma insert_unique_increasing (x : Z) (l : list Z) :
  NoDup l /\ (forall i j a b, nth_error l i = Some a -> nth_error l j = Some b ->
                              (i < j)%nat -> a < b) ->
  let l2 := insert_unique Z.ltb x l in
  NoDup l2 /\ (forall i j a b, nth_error l2 i = Some a -> nth_error l2 j = Some b ->
                               (i < j)%nat -> a < b).
Proof.
  revert x. induction l as [|z l IH]; intros x [Hnd Hinc]; cbn.
  - split; [constructor; [intros []|constructor]|].
    intros [|i] [|j] a b Ha Hb Hij; try lia; cbn in *;
      destruct j; discriminate.
  - assert (Htail : NoDup l /\ (forall i j a b, nth_error l i = Some a ->
                                   nth_error l j = Some b -> (i < j)%nat -> a < b)).
    { inversion Hnd; subst. split; [assumption|].
      intros i j a b Ha Hb Hij. apply (Hinc (S i) (S j) a b); cbn; auto. lia. }
    assert (Hhead : forall b, In b l -> z < b).
    { intros b Hb. apply In_nth_error in Hb. destruct Hb as [j Hj].
      apply (Hinc 0%nat (S j) z b); cbn; auto. lia. }
    destruct (Z.ltb_spec z x) as [Hzx|Hzx].
    + destruct (IH x Htail) as [Hnd2 Hinc2].
      assert (Hhead2 : forall b, In b (insert_unique Z.ltb x l) -> z < b).
      { intros b Hb. apply insert_unique_In in Hb. destruct Hb as [->|Hb]; auto. }
      split.
      * constructor; [|exact Hnd2]. intros Hin. apply Hhead2 in Hin. lia.
      * intros [|i] [|j] a b Ha Hb Hij; try lia; cbn in *.
        -- inversion Ha; subst. apply Hhead2. eapply nth_error_In. exact Hb.
        -- apply (Hinc2 i j a b); auto. lia.
    + destruct (Z.ltb_spec x z) as [Hxz|Hxz].
      * split.
        -- constructor; [|exact Hnd]. intros [H|H]; [lia|]. apply Hhead in H. lia.
        -- intros [|i] [|j] a b Ha Hb Hij; try lia; cbn in *.
           ++ inversion Ha; subst. destruct j as [|j]; cbn in Hb.
              ** inversion Hb; subst. exact Hxz.
              ** apply nth_error_In in Hb. apply Hhead in Hb. lia.
           ++ apply (Hinc i j a b); auto. lia.
      * split; assumption.
Qed.

(** [np.unique]: every identifier once. *)
Lemma sorted_unique_NoDup (l : list Z) : NoDup (sorted_unique Z.ltb l).
Proof.
  assert (H : NoDup (sorted_unique Z.ltb l)
              /\ (forall i j a b, nth_error (sorted_unique Z.ltb l) i = Some a ->
                                  nth_error (sorted_unique Z.ltb l) j = Some b ->
                                  (i < j)%nat -> a < b)).
  { induction l as [|x l IH]; cbn.
    - split; [constructor|]. intros [|i] j a b Ha; discriminate.
    - apply insert_unique_increasing. exact IH. }
  apply H.
Qed.

(** ** Per-UE aggregation (C3) *)

(** The list comprehension followed by [split("-", 1)[1]] collects the
    subtypes of the rows carrying the prefix. *)
Lemma split_subtypes (prefix : string) (labels : list string) :
  (forall t, after_dash (prefix ++ t) = Ok t) ->
  mapM after_dash (filter (fun p => startswith p prefix) labels)
  = Ok (subtypes_of prefix labels).
Proof.
  intros Hdash. induction labels as [|l labels IH]; cbn; [reflexivity|].
  rewrite startswith_strip.
  destruct (strip_prefix prefix l) as [t|] eqn:E; cbn.
  - apply strip_prefix_app in E. subst l. rewrite Hdash, IH. reflexivity.
  - exact IH.
Qed.

Lemma most_common_frequent (l : list string) :
  l <> [] ->
  exists chosen, most_common String.eqb l = Ok chosen /\ most_frequent chosen l.
Proof.
  intros Hne.
  destruct (most_common_spec string String.eqb String.eqb_eq l Hne) as [k [Hk [Hin Hmax]]].
  exists k. split; [exact Hk|]. split; [exact Hin|].
  intros s. rewrite <- !occ_count_occ. apply Hmax.
Qed.

(** The loop body never raises, and its answer follows the rule. *)
Lemma ue_status_rule (mine : list string) :
  exists v, ue_status mine = Ok v /\ verdict_rule mine v.
Proof.
  unfold ue_status, verdict_rule.
  pose proof (split_subtypes "Malicious-" mine (fun t => eq_refl)) as HM.
  pose proof (split_subtypes "Benign-" mine (fun t => eq_refl)) as HB.
  destruct (filter (fun p => startswith p "Malicious-") mine) as [|m ms] eqn:EM.
  - cbn in HM. inversion HM as [HM']. clear HM.
    destruct (filter (fun p => startswith p "Benign-") mine) as [|b bs] eqn:EB.
    + cbn in HB. inversion HB as [HB']. clear HB.
      exists "Unknown-NA". split; [reflexivity|].
      repeat split; intros; try contradiction; reflexivity.
    + rewrite HB.
      assert (Hne : subtypes_of "Benign-" mine <> []).
      { intros E. rewrite E in HB. cbn in HB.
        destruct (after_dash b); cbn in HB; [|discriminate].
        destruct (mapM after_dash bs); cbn in HB; discriminate. }
      destruct (most_common_frequent _ Hne) as [chosen [Hc Hf]].
      exists ("Benign-" ++ chosen)%string. cbn [rbind]. rewrite Hc. cbn [rbind].
      split; [reflexivity|].
      repeat split; intros; try contradiction.
      exists chosen. split; [reflexivity|exact Hf].
  - rewrite HM.
    assert (Hne : subtypes_of "Malicious-" mine <> []).
    { intros E. rewrite E in HM. cbn in HM.
      destruct (after_dash m); cbn in HM; [|discriminate].
      destruct (mapM after_dash ms); cbn in HM; discriminate. }
    destruct (most_common_frequent _ Hne) as [chosen [Hc Hf]].
    exists ("Malicious-" ++ chosen)%string. cbn [rbind]. rewrite Hc. cbn [rbind].
    split; [reflexivity|].
    repeat split; intros; try contradiction.
    exists chosen. split; [reflexivity|exact Hf].
Qed.

(** The dict [per_ue_status]: one entry per distinct UE, each following the
    rule on the rows of that UE. *)
Lemma per_ue_status_rule (ue_ids : list Z) (cascade_prediction : list string) :
  exists status,
    per_ue_status ue_ids cascade_prediction = Ok status
    /\ NoDup (map fst status)
    /\ forall ue, In ue ue_ids ->
         exists v, In (ue, v) status
                   /\ verdict_rule (rows_of ue ue_ids cascade_prediction) v.
Proof.
  unfold per_ue_status.
  destruct (mapM_total
              (fun ue => (status <- ue_status (rows_of ue ue_ids cascade_prediction) ;;
                          Ok (ue, status))%result)
              (fun ue entry => fst entry = ue
                               /\ verdict_rule (rows_of ue ue_ids cascade_prediction) (snd entry))
              (sorted_unique Z.ltb ue_ids)) as [status [Hs HF]].
  { intros ue _. destruct (ue_status_rule (rows_of ue ue_ids cascade_prediction)) as [v [Hv Hr]].
    exists (ue, v). rewrite Hv. cbn. auto. }
  exists status. split; [exact Hs|]. split.
  - assert (map fst status = sorted_unique Z.ltb ue_ids) as ->.
    { clear Hs. induction HF as [|ue e l st [He _] _ IH]; cbn; [reflexivity|].
      rewrite He, IH. reflexivity. }
    apply sorted_unique_NoDup.
  - intros ue Hin. apply sorted_unique_In in Hin.
    destruct (Forall2_In_l _ _ _ ue HF Hin) as [[ue' v] [Hin' [Hfst Hr]]].
    cbn in Hfst, Hr. subst ue'. exists v. split; assumption.
Qed.

(** C3. The aggregation always returns; it holds one verdict per distinct
    UE, and the verdict of a UE follows the rule on that UE's own rows:
    Malicious with a most frequent subtype of its malicious rows when it has
    any, else Benign with a most frequent subtype of its benign rows. *)
Theorem aggregation_rule (ue_ids : list Z) (cascade_prediction : list string) :
  exists status,
    per_ue_status ue_ids cascade_prediction = Ok status
    /\ NoDup (map fst status)
    /\ forall ue, In ue ue_ids ->
         exists v, In (ue, v) status
                   /\ verdict_rule (rows_of ue ue_ids cascade_prediction) v.
Proof. exact (per_ue_status_rule ue_ids cascade_prediction). Qed.

(** Three rows of UE 1, one of them malicious, and one row of UE 2. *)
Example mixed_rows_are_malicious :
  per_ue_status [1; 1; 1; 2]
                ["Benign-embb"; "Malicious-udp_flood"; "Benign-embb"; "Benign-voip"]
  = Ok [(1, "Malicious-udp_flood"); (2, "Benign-voip")].
Proof. reflexivity. Qed.

(** ** Every UE of a batch gets a verdict (C10) *)

Lemma rows_of_In {A : Type} (ue : Z) (ue_ids : list Z) (col : list A) (a : A) :
  In a (rows_of ue ue_ids col) -> In a col.
Proof.
  unfold rows_of. intros H. apply in_map_iff in H. destruct H as [[u a'] [<- H]].
  apply filter_In in H. destruct H as [H _]. apply in_combine_r in H. exact H.
Qed.

Lemma rows_of_nonempty {A : Type} (ue : Z) (ue_ids : list Z) (col : list A) :
  In ue ue_ids -> (List.length ue_ids <= List.length col)%nat ->
  rows_of ue ue_ids col <> [].
Proof.
  unfold rows_of. revert col. induction ue_ids as [|u ids IH]; intros col Hin Hlen.
  - destruct Hin.
  - destruct col as [|a col]; [cbn in Hlen; lia|]. cbn.
    destruct (Z.eqb_spec u ue) as [->|Hne]; cbn; [discriminate|].
    destruct Hin as [H|H]; [contradiction|].
    apply IH; [exact H|cbn in Hlen; lia].
Qed.

Lemma py_index_nat {A : Type} (l : list A) (i : nat) :
  (i < List.length l)%nat ->
  exists a, py_index l (Z.of_nat i) = Ok a /\ nth_error l i = Some a.
Proof.
  intros Hi. unfold py_index.
  destruct (Z.ltb_spec (Z.of_nat i) 0) as [H|_]; [lia|].
  destruct (Z.leb_spec 0 (Z.of_nat i)) as [_|H]; [|lia].
  destruct (Z.ltb_spec (Z.of_nat i) (Z.of_nat (List.length l))) as [_|H]; [|lia].
  cbn. rewrite Nat2Z.id.
  destruct (nth_error l i) as [a|] eqn:E.
  - exists a. split; reflexivity.
  - apply nth_error_None in E. lia.
Qed.

Lemma In_combine_seq {A : Type} (l : list A) (k i : nat) (a : A) :
  In (i, a) (combine (seq k (List.length l)) l) ->
  (k <= i)%nat /\ nth_error l (i - k) = Some a.
Proof.
  revert k. induction l as [|b l IH]; intros k H; [destruct H|].
  cbn in H. destruct H as [H|H].
  - inversion H; subst. rewrite Nat.sub_diag. split; [lia|reflexivity].
  - destruct (IH _ H) as [Hk Hn]. split; [lia|].
    replace (i - k)%nat with (S (i - S k)) by lia. exact Hn.
Qed.

Lemma py_index_In {A : Type} (l : list A) (i : Z) (a : A) :
  py_index l i = Ok a -> In a l.
Proof.
  unfold py_index. intros H.
  destruct (_ && _); [|discriminate].
  destruct (nth_error l _) as [b|] eqn:E; [|discriminate].
  inversion H. subst. eapply nth_error_In. exact E.
Qed.

Section Verdicts.

Context {num : Type} {NUM : Numeric num} {SG : Sigmoid}.

Lemma length_feature_matrix (self : @KpmStyle5Xapp num) (fd : DataFrame num) :
  List.length (feature_matrix self fd) = List.length (rows fd).
Proof.
  unfold feature_matrix, drop.
  destruct (selected_features self) as [[|f fs]|]; cbn; rewrite ?length_map; reflexivity.
Qed.

Lemma length_getitem (df : DataFrame num) (c : string) (cells : list (cell num)) :
  getitem df c = Ok cells -> List.length cells = List.length (rows df).
Proof.
  unfold getitem. destruct (index_of c (columns df)); [|discriminate].
  intros H. inversion H. apply length_map.
Qed.

Lemma subtypes_of_nonempty (prefix label t : string) (mine : list string) :
  In label mine -> strip_prefix prefix label = Some t -> subtypes_of prefix mine <> [].
Proof.
  intros Hin Hs. induction mine as [|l mine IH]; [destruct Hin|].
  unfold subtypes_of. cbn. destruct Hin as [->|Hin].
  - rewrite Hs. discriminate.
  - destruct (strip_prefix prefix l); [discriminate|]. apply IH. exact Hin.
Qed.

(** Labels that all carry a prefix never aggregate to [Unknown-NA]. *)
Lemma verdict_of_prefixed (mine : list string) (v : string) :
  mine <> [] -> Forall prefixed mine -> verdict_rule mine v ->
  (startswith v "Benign-" = true \/ startswith v "Malicious-" = true)
  /\ v <> "Unknown-NA".
Proof.
  intros Hne Hall [Hmal [Hben _]].
  destruct (subtypes_of "Malicious-" mine) as [|m ms] eqn:EM.
  - destruct mine as [|l mine]; [contradiction|].
    inversion Hall as [|? ? Hl _]; subst.
    assert (Hb : subtypes_of "Benign-" (l :: mine) <> []).
    { destruct Hl as [[s ->]|[s ->]].
      - apply (subtypes_of_nonempty "Benign-" ("Benign-" ++ s) s); [left; reflexivity|].
        apply strip_prefix_self.
      - exfalso.
        apply (subtypes_of_nonempty "Malicious-" ("Malicious-" ++ s) s (("Malicious-" ++ s)%string :: mine));
          [left; reflexivity|apply strip_prefix_self|exact EM]. }
    destruct (Hben eq_refl Hb) as [chosen [-> _]].
    split; [left; apply startswith_app|discriminate].
  - destruct Hmal as [chosen [-> _]]; [discriminate|].
    split; [right; apply startswith_app|discriminate].
Qed.

(** The cascade on a batch whose models answer: Stage 1 gives one label
    per row, and the Stage-2 model of each row's branch gives a class index
    inside its label list. *)
Lemma predict_cascaded_verdicts (self : @KpmStyle5Xapp num) (feature_data : DataFrame num)
      (ue_ids binary_preds : list Z) :
  empty feature_data = false ->
  (ue_cells <- getitem feature_data "UE_ID" ;; mapM as_int ue_cells)%result = Ok ue_ids ->
  stage1 (s1_model self) (feature_matrix self feature_data) = Ok (Arr1 binary_preds) ->
  List.length binary_preds = List.length (rows feature_data) ->
  (forall i pred x,
      nth_error binary_preds i = Some pred ->
      nth_error (feature_matrix self feature_data) i = Some x ->
      exists s, stage2 (if pred =? 0 then s2_ben_model self else s2_mal_model self)
                       (if pred =? 0 then le_benign self else le_malicious self) [x]
                = Ok s) ->
  exists rep,
    predict_cascaded self feature_data = Ok (Some rep)
    /\ Forall prefixed (cascade_prediction rep)
    /\ NoDup (map fst (verdicts rep))
    /\ forall ue, In ue ue_ids ->
         exists v, In (ue, v) (verdicts rep)
                   /\ (startswith v "Benign-" = true \/ startswith v "Malicious-" = true)
                   /\ v <> "Unknown-NA".
Proof.
  intros Hempty Hue Hs1 Hlen Hs2.
  unfold predict_cascaded. rewrite Hempty.
  destruct (getitem feature_data "UE_ID") as [cells|] eqn:EG; cbn in Hue; [|discriminate].
  cbn [rbind]. rewrite Hue. cbn [rbind]. rewrite Hs1. cbn [rbind].
  assert (Hn : List.length ue_ids = List.length (rows feature_data)).
  { rewrite <- (length_getitem _ _ _ EG). symmetry.
    eapply Forall2_length_eq. apply mapM_Ok. exact Hue. }
  (* the Stage-1 summary *)
  destruct (mapM_total
              (fun ue =>
                 (ue_preds <- mapM (arr_index (Arr1 binary_preds))
                                   (rows_of ue ue_ids (seq 0 (List.length ue_ids))) ;;
                  most_common_ <- most_common Z.eqb ue_preds ;;
                  Ok (ue, if most_common_ =? 0 then "Benign" else "Malicious"))%result)
              (fun _ _ => True) (sorted_unique Z.ltb ue_ids)) as [summary [Hsum _]].
  { intros ue Hin. apply (proj1 (sorted_unique_In _ _)) in Hin.
    destruct (mapM_total (arr_index (Arr1 binary_preds)) (fun _ _ => True)
                         (rows_of ue ue_ids (seq 0 (List.length ue_ids)))) as [ps [Hps HF]].
    { intros i Hi. apply rows_of_In in Hi. apply in_seq in Hi.
      destruct (py_index_nat binary_preds i) as [a [Ha _]]; [lia|].
      exists a. split; [exact Ha|exact I]. }
    rewrite Hps. cbn [rbind].
    assert (Hne : ps <> []).
    { apply Forall2_length_eq in HF. intros ->.
      apply (rows_of_nonempty ue ue_ids (seq 0 (List.length ue_ids)) Hin).
      - rewrite length_seq. lia.
      - apply length_zero_iff_nil. exact HF. }
    destruct (most_common_spec Z Z.eqb Z.eqb_eq ps Hne) as [k [Hk _]].
    rewrite Hk. cbn. eexists. split; [reflexivity|exact I]. }
  unfold per_ue_stage1. rewrite Hsum. cbn [rbind arr_iter].
  (* the Stage-2 loop *)
  destruct (mapM_total
              (fun ip => cascade_row self (feature_matrix self feature_data) (fst ip) (snd ip))
              (fun _ label => prefixed label)
              (combine (seq 0 (List.length binary_preds)) binary_preds))
    as [final_preds [Hfinal HF]].
  { intros [i pred] Hin. cbn [fst snd].
    apply In_combine_seq in Hin. destruct Hin as [_ Hi]. rewrite Nat.sub_0_r in Hi.
    assert (Hlt : (i < List.length (feature_matrix self feature_data))%nat).
    { rewrite length_feature_matrix, <- Hlen. apply nth_error_Some. congruence. }
    destruct (nth_error (feature_matrix self feature_data) i) as [x|] eqn:Ex;
      [|apply nth_error_None in Ex; lia].
    destruct (Hs2 i pred x Hi Ex) as [s Hs].
    unfold cascade_row. rewrite Ex.
    destruct (pred =? 0); rewrite Hs; cbn; eexists; (split; [reflexivity|]).
    - left. exists s. reflexivity.
    - right. exists s. reflexivity. }
  rewrite Hfinal. cbn [rbind].
  assert (Hlf : List.length final_preds = List.length (rows feature_data)).
  { apply Forall2_length_eq in HF. rewrite <- HF, length_combine, length_seq. lia. }
  rewrite Hlf, Nat.eqb_refl.
  assert (Hpre : Forall prefixed final_preds).
  { apply Forall_forall. intros label Hl.
    destruct (Forall2_In_r _ _ _ label HF Hl) as [_ [_ H]]. exact H. }
  destruct (per_ue_status_rule ue_ids final_preds) as [status [Hst [Hnd Hrule]]].
  rewrite Hst. cbn [rbind]. eexists. split; [reflexivity|]. cbn.
  split; [exact Hpre|]. split; [exact Hnd|].
  intros ue Hin. destruct (Hrule ue Hin) as [v [Hv Hr]].
  exists v. split; [exact Hv|].
  apply (verdict_of_prefixed (rows_of ue ue_ids final_preds)).
  - apply rows_of_nonempty; [exact Hin|lia].
  - apply Forall_forall. intros label Hl. apply rows_of_In in Hl.
    revert label Hl. apply Forall_forall. exact Hpre.
  - exact Hr.
Qed.

End Verdicts.

(** C10. On a non-empty batch whose models answer (Stage 1 gives one label
    per row, the Stage-2 model of each row's branch gives a class index
    inside its label list), [predict_cascaded] returns a report in which
    every UE of the batch has exactly one verdict, and that verdict starts
    with [Benign-] or [Malicious-]: [Unknown-NA] is not reached. *)
Theorem every_ue_gets_a_verdict (num : Type) (NUM : Numeric num) (SG : Sigmoid)
        (self : @KpmStyle5Xapp num) (feature_data : DataFrame num)
        (ue_ids binary_preds : list Z) :
  empty feature_data = false ->
  (ue_cells <- getitem feature_data "UE_ID" ;; mapM as_int ue_cells)%result = Ok ue_ids ->
  stage1 (s1_model self) (feature_matrix self feature_data) = Ok (Arr1 binary_preds) ->
  List.length binary_preds = List.length (rows feature_data) ->
  (forall i pred x,
      nth_error binary_preds i = Some pred ->
      nth_error (feature_matrix self feature_data) i = Some x ->
      exists s, stage2 (if pred =? 0 then s2_ben_model self else s2_mal_model self)
                       (if pred =? 0 then le_benign self else le_malicious self) [x]
                = Ok s) ->
  exists rep,
    predict_cascaded self feature_data = Ok (Some rep)
    /\ Forall prefixed (cascade_prediction rep)
    /\ NoDup (map fst (verdicts rep))
    /\ forall ue, In ue ue_ids ->
         exists v, In (ue, v) (verdicts rep)
                   /\ (startswith v "Benign-" = true \/ startswith v "Malicious-" = true)
                   /\ v <> "Unknown-NA".
Proof. exact (predict_cascaded_verdicts self feature_data ue_ids binary_preds). Qed.

Lemma every_ue_gets_a_verdict_witness :
  exists rep,
    predict_cascaded (Scenario.loaded 2) Scenario.two_features = Ok (Some rep)
    /\ Forall prefixed (cascade_prediction rep)
    /\ NoDup (map fst (verdicts rep))
    /\ forall ue, In ue [7; 8] ->
         exists v, In (ue, v) (verdicts rep)
                   /\ (startswith v "Benign-" = true \/ startswith v "Malicious-" = true)
                   /\ v <> "Unknown-NA".
Proof.
  apply (every_ue_gets_a_verdict float Binary64.binary64 exact_sigmoid (Scenario.loaded 2) Scenario.two_features
                                 [7; 8] [0; 0]).
  - vm_compute. reflexivity.
  - vm_compute. reflexivity.
  - vm_compute. reflexivity.
  - vm_compute. reflexivity.
  - intros i pred x Hp _.
    destruct i as [|[|i]]; cbn in Hp; [| |destruct i; discriminate];
      inversion Hp; subst; exists "embb"; reflexivity.
Defined.

(** ** The two stages (C2) *)

(** The logistic function exceeds one half exactly on positive logits. *)
Lemma sigmoid_gt_half (x : R) : (1 / 2 < sigmoid x)%R <-> (0 < x)%R.
Proof.
  split.
  - exact (@sigmoid_sign exact_sigmoid x).
  - exact (@sigmoid_slack exact_sigmoid x).
Qed.

(** The label of a logit under any kernel: 1 only on a positive logit, 0
    only on a logit within the slack. *)
Lemma threshold_label {SG : Sigmoid} (x : R) : logit_label x (threshold x).
Proof.
  unfold threshold, logit_label.
  destruct (Rlt_dec (1 / 2) (torch_sigmoid x)) as [H|H].
  - left. split; [reflexivity|]. apply sigmoid_sign. exact H.
  - right. split; [reflexivity|].
    destruct (Rle_dec x slack) as [Hs|Hs]; [exact Hs|].
    exfalso. apply H. apply sigmoid_slack. lra.
Qed.

Lemma Forall2_threshold {SG : Sigmoid} (v : list R) :
  Forall2 logit_label v (map threshold v).
Proof. induction v as [|x v IH]; cbn; constructor; [apply threshold_label|exact IH]. Qed.

(** In exact arithmetic there is no slack: the label is 1 exactly on the
    positive logits. *)
Lemma logit_label_exact (x : R) (label : Z) :
  @logit_label exact_sigmoid x label <-> label = positive_logit x.
Proof.
  unfold logit_label, positive_logit. cbn [slack exact_sigmoid].
  destruct (Rlt_dec 0 x) as [Hx|Hx]; split.
  - intros [[-> _]|[_ H]]; [reflexivity|lra].
  - intros ->. left. split; [reflexivity|exact Hx].
  - intros [[_ H]|[-> _]]; [contradiction|reflexivity].
  - intros ->. right. split; [reflexivity|lra].
Qed.

Lemma threshold_positive (x : R) : @threshold exact_sigmoid x = positive_logit x.
Proof. apply logit_label_exact. apply threshold_label. Qed.

Lemma logit_labels_exact (v : list R) (labels : list Z) :
  Forall2 (@logit_label exact_sigmoid) v labels <-> labels = map positive_logit v.
Proof.
  split.
  - induction 1 as [|x l v labels Hx _ IH]; [reflexivity|].
    cbn [map]. rewrite <- IH. f_equal. apply logit_label_exact. exact Hx.
  - intros ->. induction v as [|x v IH]; cbn [map]; constructor; [|exact IH].
    apply logit_label_exact. reflexivity.
Qed.

Lemma argmax_from_spec (l : list R) :
  forall (pre : list R) (best : R) (bi : nat),
    (bi < List.length pre)%nat ->
    nth bi (pre ++ l) 0%R = best ->
    (forall j, (j < List.length pre)%nat -> (nth j (pre ++ l) 0 <= best)%R) ->
    (forall j, (j < bi)%nat -> (nth j (pre ++ l) 0 < best)%R) ->
    let r := argmax_from best bi (List.length pre) l in
    (r < List.length (pre ++ l))%nat
    /\ (forall j, (j < List.length (pre ++ l))%nat ->
                  (nth j (pre ++ l) 0 <= nth r (pre ++ l) 0)%R)
    /\ (forall j, (j < r)%nat -> (nth j (pre ++ l) 0 < nth r (pre ++ l) 0)%R).
Proof.
  induction l as [|x l IH]; intros pre best bi Hbi Hbest Hle Hlt; cbn.
  - rewrite app_nil_r in *. rewrite Hbest. repeat split; auto.
  - assert (Hx : nth (List.length pre) (pre ++ x :: l) 0%R = x).
    { rewrite app_nth2, Nat.sub_diag; [reflexivity|lia]. }
    assert (Hre : pre ++ x :: l = (pre ++ [x]) ++ l) by (rewrite <- app_assoc; reflexivity).
    assert (Hlen : List.length (pre ++ [x]) = S (List.length pre)).
    { rewrite length_app. cbn. lia. }
    destruct (Rlt_dec best x) as [Hbx|Hbx].
    + specialize (IH (pre ++ [x]) x (List.length pre)).
      rewrite Hlen in IH. rewrite Hre in *. apply IH.
      * lia.
      * exact Hx.
      * intros j Hj. destruct (Nat.eq_dec j (List.length pre)) as [->|Hne].
        -- rewrite Hx. lra.
        -- specialize (Hle j ltac:(lia)). lra.
      * intros j Hj. specialize (Hle j Hj). lra.
    + specialize (IH (pre ++ [x]) best bi).
      rewrite Hlen in IH. rewrite Hre in *. apply IH.
      * lia.
      * exact Hbest.
      * intros j Hj. destruct (Nat.eq_dec j (List.length pre)) as [->|Hne].
        -- rewrite Hx. lra.
        -- apply Hle. lia.
      * exact Hlt.
Qed.

(** [argmax] returns the first position of the largest score. *)
Lemma argmax_spec (row : list R) (i : Z) : argmax row = Ok i -> is_argmax row i.
Proof.
  destruct row as [|x l]; cbn; [discriminate|].
  intros H. inversion H as [Hi]. clear H.
  destruct (argmax_from_spec l [x] x 0%nat) as [H1 [H2 H3]]; cbn; auto.
  - intros j Hj. assert (j = 0%nat) as -> by lia. cbn. lra.
  - intros j Hj. lia.
  - cbn in H1, H2, H3. unfold is_argmax. rewrite Nat2Z.id. cbn [List.length].
    repeat split; auto; lia.
Qed.

Lemma Forall2_combine_seq {A B : Type} (P : nat * A -> B -> Prop) (l : list A) :
  forall (k : nat) (bs : list B),
    Forall2 P (combine (seq k (List.length l)) l) bs ->
    forall i a, nth_error l i = Some a ->
      exists b, nth_error bs i = Some b /\ P ((k + i)%nat, a) b.
Proof.
  induction l as [|x l IH]; intros k bs HF i a Hi.
  - destruct i; discriminate.
  - cbn in HF. inversion HF as [|? b ? bs' Hx HF']; subst.
    destruct i as [|i]; cbn in Hi.
    + inversion Hi; subst. exists b. rewrite Nat.add_0_r. split; [reflexivity|exact Hx].
    + destruct (IH (S k) bs' HF' i a Hi) as [b' [Hb' HP]].
      exists b'. split; [exact Hb'|]. replace (k + S i)%nat with (S k + i)%nat by lia. exact HP.
Qed.

Section Stages.

Context {num : Type} {NUM : Numeric num} {SG : Sigmoid}.

(** What a returned report was computed from. *)
Lemma predict_cascaded_inv (self : @KpmStyle5Xapp num) (feature_data : DataFrame num)
      (rep : report) :
  predict_cascaded self feature_data = Ok (Some rep) ->
  exists ue_ids binary_preds,
    (ue_cells <- getitem feature_data "UE_ID" ;; mapM as_int ue_cells)%result = Ok ue_ids
    /\ stage1 (s1_model self) (feature_matrix self feature_data) = Ok (Arr1 binary_preds)
    /\ mapM (fun ip => cascade_row self (feature_matrix self feature_data) (fst ip) (snd ip))
            (combine (seq 0 (List.length binary_preds)) binary_preds)
       = Ok (cascade_prediction rep)
    /\ List.length (cascade_prediction rep) = List.length (rows feature_data)
    /\ per_ue_status ue_ids (cascade_prediction rep) = Ok (verdicts rep).
Proof.
  unfold predict_cascaded. intros H.
  destruct (empty feature_data); [discriminate|].
  destruct (getitem feature_data "UE_ID") as [cells|]; cbn [rbind] in H; [|discriminate].
  destruct (mapM as_int cells) as [ue_ids|] eqn:Eu; cbn [rbind] in H; [|discriminate].
  destruct (stage1 (s1_model self) (feature_matrix self feature_data)) as [arr|] eqn:E1;
    cbn [rbind] in H; [|discriminate].
  destruct (per_ue_stage1 ue_ids arr) as [summary|]; cbn [rbind] in H; [|discriminate].
  destruct arr as [v|bp]; cbn [arr_iter rbind] in H; [discriminate|].
  destruct (mapM _ (combine _ bp)) as [final_preds|] eqn:Ef; cbn [rbind] in H; [|discriminate].
  destruct (Nat.eqb_spec (List.length final_preds) (List.length (rows feature_data)))
    as [Hl|Hl]; [|discriminate].
  destruct (per_ue_status ue_ids final_preds) as [status|] eqn:Es; cbn [rbind] in H;
    [|discriminate].
  inversion H; subst. cbn.
  exists ue_ids, bp. cbn [rbind]. repeat split; auto.
Qed.

Lemma stage1_labels (m : @model num) (X_np : matrix) (labels : list Z) :
  stage1 (Some m) X_np = Ok (Arr1 labels) -> stage1_rule m X_np labels.
Proof.
  unfold stage1, stage1_rule. destruct m as [forward|predict].
  - destruct (forward X_np) as [v|scores].
    + unfold squeeze_threshold. intros H.
      destruct v as [|x [|y v]]; inversion H; subst.
      * constructor.
      * exact (Forall2_threshold (x :: y :: v)).
    + assert (Harg : (l <- mapM argmax scores ;; Ok (Arr1 l))%result = Ok (Arr1 labels) ->
                     Forall2 is_argmax scores labels).
      { intros H. destruct (mapM argmax scores) as [l|] eqn:E; [|discriminate].
        inversion H; subst. apply mapM_Ok in E.
        clear - E. induction E; constructor; auto. apply argmax_spec. assumption. }
      destruct scores as [|[|x [|y r]] rest]; try exact Harg.
      unfold squeeze_threshold. intros H.
      destruct rest as [|r2 rest]; [discriminate|].
      inversion H; subst.
      exact (Forall2_threshold (map (fun r => hd 0%R r) ([x] :: r2 :: rest))).
  - intros H. inversion H. reflexivity.
Qed.

Lemma cascade_row_rule (self : @KpmStyle5Xapp num) (X_np : matrix) (i : nat) (pred : Z)
      (label : string) :
  cascade_row self X_np i pred = Ok label ->
  exists x, nth_error X_np i = Some x /\ row_rule self x pred label.
Proof.
  unfold cascade_row, row_rule, stage2. intros H.
  destruct (nth_error X_np i) as [x|]; [|discriminate].
  exists x. split; [reflexivity|].
  destruct (pred =? 0).
  - destruct (class_index (s2_ben_model self) [x]) as [enc|]; cbn [rbind] in H; [|discriminate].
    destruct (py_index (le_benign self) enc) as [s|] eqn:Es; cbn [rbind] in H; [|discriminate].
    inversion H. exists enc, s. auto.
  - destruct (class_index (s2_mal_model self) [x]) as [enc|]; cbn [rbind] in H; [|discriminate].
    destruct (py_index (le_malicious self) enc) as [s|] eqn:Es; cbn [rbind] in H; [|discriminate].
    inversion H. exists enc, s. auto.
Qed.

(** A returned report: the Stage-1 labels follow [stage1_rule], and the
    label of every row follows [row_rule]. *)
Lemma predict_cascaded_rows (self : @KpmStyle5Xapp num) (feature_data : DataFrame num)
      (rep : report) :
  predict_cascaded self feature_data = Ok (Some rep) ->
  exists m binary_preds,
    s1_model self = Some m
    /\ stage1 (Some m) (feature_matrix self feature_data) = Ok (Arr1 binary_preds)
    /\ stage1_rule m (feature_matrix self feature_data) binary_preds
    /\ List.length (cascade_prediction rep) = List.length (rows feature_data)
    /\ forall i pred,
         nth_error binary_preds i = Some pred ->
         exists x label,
           nth_error (feature_matrix self feature_data) i = Some x
           /\ nth_error (cascade_prediction rep) i = Some label
           /\ row_rule self x pred label.
Proof.
  intros H. destruct (predict_cascaded_inv _ _ _ H) as [ue_ids [bp [_ [H1 [Hf [Hl _]]]]]].
  destruct (s1_model self) as [m|] eqn:Em; [|discriminate].
  exists m, bp. split; [reflexivity|]. split; [exact H1|].
  split; [apply stage1_labels; exact H1|]. split; [exact Hl|].
  intros i pred Hi. apply mapM_Ok in Hf.
  destruct (Forall2_combine_seq _ _ _ _ Hf i pred Hi) as [label [Hlab Hrow]].
  cbn in Hrow. destruct (cascade_row_rule _ _ _ _ _ Hrow) as [x [Hx Hr]].
  exists x, label. auto.
Qed.

(** [__init__] installs the two label lists. *)
Lemma init_label_lists (buffer_size : Z) (s1 s2_ben s2_mal : @artifact num) :
  le_benign (__init__ buffer_size s1 s2_ben s2_mal) = benign_labels
  /\ le_malicious (__init__ buffer_size s1 s2_ben s2_mal) = malicious_labels.
Proof. destruct s1, s2_ben, s2_mal; split; reflexivity. Qed.

End Stages.

(** The malicious list has a seventh entry, a repeat of the first; every
    entry is one of the six attack names. *)
Lemma malicious_labels_vocabulary (s : string) :
  In s malicious_labels <->
  In s [ "parallel_tcp_flood"; "udp_fragmentation_flood"; "udp_flood";
         "small_packet_flood"; "pulsing_udp_flood"; "parallel_udp_flood" ].
Proof. unfold malicious_labels. cbn. tauto. Qed.

(** C2, as the code has it. Whenever [predict_cascaded] returns a report:
    Stage 1 labelled every row (a torch module's single output per row is
    a logit, labelled by cutting its float32 sigmoid at 0.5: the label is
    1 only when the logit is positive, it is 0 when the logit is zero or
    negative, and it is 1 whenever the logit exceeds the slack of the
    kernel, so the positive logits within the slack, whose sigmoid rounds
    to 0.5, are labelled 0; a score vector is labelled by its argmax; any
    other model by its own [predict]); and the label of row [i] is
    [Benign-s] when its Stage-1 label is 0 and [Malicious-s] otherwise,
    [s] being the entry of the branch's label list at the class index the
    branch's Stage-2 model gives for the row. In exact arithmetic the
    slack is zero and the label of a logit is 1 exactly when it is
    positive ([logit_labels_exact]). *)
Theorem cascade_labelling (num : Type) (NUM : Numeric num) (SG : Sigmoid)
        (self : @KpmStyle5Xapp num) (feature_data : DataFrame num) (rep : report) :
  predict_cascaded self feature_data = Ok (Some rep) ->
  exists m binary_preds,
    s1_model self = Some m
    /\ stage1 (Some m) (feature_matrix self feature_data) = Ok (Arr1 binary_preds)
    /\ stage1_rule m (feature_matrix self feature_data) binary_preds
    /\ List.length (cascade_prediction rep) = List.length (rows feature_data)
    /\ forall i pred,
         nth_error binary_preds i = Some pred ->
         exists x label,
           nth_error (feature_matrix self feature_data) i = Some x
           /\ nth_error (cascade_prediction rep) i = Some label
           /\ row_rule self x pred label.
Proof. exact (predict_cascaded_rows self feature_data rep). Qed.

Lemma cascade_labelling_witness :
  let rep := mkReport [(7, "Benign"); (8, "Benign")] ["Benign-embb"; "Benign-embb"]
                      [(7, "Benign-embb"); (8, "Benign-embb")] in
  exists m binary_preds,
    s1_model (Scenario.loaded 2) = Some m
    /\ stage1 (Some m) (feature_matrix (Scenario.loaded 2) Scenario.two_features)
       = Ok (Arr1 binary_preds)
    /\ stage1_rule m (feature_matrix (Scenario.loaded 2) Scenario.two_features) binary_preds
    /\ List.length (cascade_prediction rep) = List.length (rows Scenario.two_features)
    /\ forall i pred,
         nth_error binary_preds i = Some pred ->
         exists x label,
           nth_error (feature_matrix (Scenario.loaded 2) Scenario.two_features) i = Some x
           /\ nth_error (cascade_prediction rep) i = Some label
           /\ row_rule (Scenario.loaded 2) x pred label.
Proof.
  apply (cascade_labelling float Binary64.binary64 exact_sigmoid (Scenario.loaded 2) Scenario.two_features).
  vm_compute. reflexivity.
Defined.

(** A logit above the kernel's slack is labelled 1. *)
Lemma threshold_above_slack {SG : Sigmoid} (x : R) : (slack < x)%R -> threshold x = 1.
Proof.
  intros Hx. unfold threshold.
  destruct (Rlt_dec (1 / 2) (torch_sigmoid x)) as [_|H]; [reflexivity|].
  exfalso. apply H. apply sigmoid_slack. exact Hx.
Qed.

(** A logit whose sigmoid the kernel rounds to one half is labelled 0, be
    it positive. *)
Lemma threshold_at_half {SG : Sigmoid} (x : R) :
  torch_sigmoid x = (1 / 2)%R -> threshold x = 0.
Proof.
  intros Hx. unfold threshold. rewrite Hx.
  destruct (Rlt_dec (1 / 2) (1 / 2)) as [H|_]; [lra|reflexivity].
Qed.

Lemma stage1_logit_app {SG : Sigmoid} :
  (slack < 3 / 10)%R ->
  stage1 (s1_model Scenario.logit_app)
         (feature_matrix Scenario.logit_app Scenario.two_features)
  = Ok (Arr1 [1; 1]).
Proof.
  intros Hs.
  assert (HX : exists a b, feature_matrix Scenario.logit_app Scenario.two_features = [a; b]).
  { pose proof (length_feature_matrix Scenario.logit_app Scenario.two_features) as HL.
    replace (List.length (rows Scenario.two_features)) with 2%nat in HL
      by (vm_compute; reflexivity).
    destruct (feature_matrix _ _) as [|a [|b [|c l]]]; try discriminate.
    exists a, b. reflexivity. }
  destruct HX as [a [b ->]].
  change (stage1 (s1_model Scenario.logit_app) [a; b])
    with (Ok (Arr1 [threshold (3 / 10); threshold (3 / 10)]) : result ndarray).
  rewrite (threshold_above_slack _ Hs). reflexivity.
Qed.

(** A torch Stage-1 module that emits 0.3 for every row: under every kernel
    whose slack is below 0.3 the code labels every row malicious. *)
Lemma logit_app_is_malicious {SG : Sigmoid} :
  (slack < 3 / 10)%R ->
  predict_cascaded Scenario.logit_app Scenario.two_features
  = Ok (Some (mkReport
                [(7, "Malicious"); (8, "Malicious")]
                ["Malicious-udp_fragmentation_flood"; "Malicious-udp_fragmentation_flood"]
                [(7, "Malicious-udp_fragmentation_flood");
                 (8, "Malicious-udp_fragmentation_flood")])).
Proof.
  intros Hs.
  unfold predict_cascaded.
  replace (empty Scenario.two_features) with false by (vm_compute; reflexivity).
  replace (getitem Scenario.two_features "UE_ID") with (Ok [@Int float 7; Int 8])
    by (vm_compute; reflexivity).
  cbn [rbind mapM as_int].
  rewrite (stage1_logit_app Hs). cbn [rbind].
  vm_compute. reflexivity.
Qed.

(** C2 read literally cuts the scalar itself at 0.5. A torch Stage-1
    module that emits 0.3 for every row is below that cut, and the code
    labels every row malicious: 0.3 is a logit with sigmoid above 0.5.
    The report is that of the exact kernel; [logit_app_is_malicious] gives
    the same report under every kernel whose slack is below 0.3, the
    float32 one among them. *)
Lemma logit_below_half_is_malicious :
  (3 / 10 < 1 / 2)%R
  /\ predict_cascaded Scenario.logit_app Scenario.two_features
     = Ok (Some (mkReport
                   [(7, "Malicious"); (8, "Malicious")]
                   ["Malicious-udp_fragmentation_flood"; "Malicious-udp_fragmentation_flood"]
                   [(7, "Malicious-udp_fragmentation_flood");
                    (8, "Malicious-udp_fragmentation_flood")])).
Proof.
  split; [lra|].
  apply logit_app_is_malicious. cbn [slack exact_sigmoid]. lra.
Qed.

(** A batch of one row through a torch Stage 1 with a single output: the
    squeeze leaves a zero-dimensional array, and [binary_preds[i]] at line
    229 raises. *)
Lemma single_row_logit_raises :
  predict_cascaded Scenario.logit_app Scenario.one_features = Raise IndexError.
Proof.
  unfold predict_cascaded.
  replace (empty Scenario.one_features) with false by (vm_compute; reflexivity).
  replace (getitem Scenario.one_features "UE_ID") with (Ok [@Int float 7])
    by (vm_compute; reflexivity).
  cbn [rbind mapM as_int].
  assert (HX : exists a, feature_matrix Scenario.logit_app Scenario.one_features = [a]).
  { pose proof (length_feature_matrix Scenario.logit_app Scenario.one_features) as HL.
    replace (List.length (rows Scenario.one_features)) with 1%nat in HL
      by (vm_compute; reflexivity).
    destruct (feature_matrix _ _) as [|a [|b l]]; try discriminate.
    exists a. reflexivity. }
  destruct HX as [a ->].
  change (stage1 (s1_model Scenario.logit_app) [a])
    with (Ok (Arr0 (threshold (3 / 10))) : result ndarray).
  reflexivity.
Qed.

(** ** The buffer (C7) *)

Section Buffer.

Context {num : Type} {NUM : Numeric num} {SG : Sigmoid}.

(** After the rows are appended the call leaves the buffer as it is, or
    empties it; it empties it only on the path that completed a pass with
    the buffer at the hard cap. *)
Lemma process_buffer_cases (self : @KpmStyle5Xapp num) :
  (data_buffer (snd (process_buffer self)) = data_buffer self
   /\ (is_ok (fst (process_buffer self)) = true ->
       buffer_size self <= len self -> len self < hard_cap))
  \/ (data_buffer (snd (process_buffer self)) = []
      /\ hard_cap <= len self
      /\ buffer_size self <= len self
      /\ is_ok (fst (process_buffer self)) = true).
Proof.
  unfold process_buffer.
  destruct (Z.leb_spec (buffer_size self) (len self)) as [Hb|Hb].
  - destruct (transform self (data_buffer self)) as [features|e]; cbn [rbind].
    + destruct (predict_cascaded self features) as [out|e].
      * destruct (Z.leb_spec hard_cap (len self)) as [Hc|Hc]; cbn.
        -- right. auto.
        -- left. auto.
      * left. cbn. split; [reflexivity|discriminate].
    + left. cbn. split; [reflexivity|discriminate].
  - left. cbn. split; [reflexivity|lia].
Qed.

(** The buffer across one indication. *)
Lemma callback_buffer (self : @KpmStyle5Xapp num) (timestamp : Z) (e2_agent_id : string)
      (meas_data : list (Z * list (string * @raw num))) :
  let appended :=
    data_buffer self
    ++ map (fun um => make_row self timestamp e2_agent_id (fst um) (snd um)) meas_data in
  let after := subscription_callback self timestamp e2_agent_id meas_data in
  (Z.of_nat (List.length appended) < hard_cap -> data_buffer (snd after) = appended)
  /\ (hard_cap <= Z.of_nat (List.length appended) ->
      buffer_size self <= Z.of_nat (List.length appended) ->
      is_ok (fst after) = true ->
      data_buffer (snd after) = [])
  /\ (data_buffer (snd after) = appended \/ data_buffer (snd after) = []).
Proof.
  cbv zeta. unfold subscription_callback.
  set (self1 := set_data_buffer self _).
  assert (Hbuf : data_buffer self1 = data_buffer self
                 ++ map (fun um => make_row self timestamp e2_agent_id (fst um) (snd um))
                        meas_data) by reflexivity.
  assert (Hsize : buffer_size self1 = buffer_size self) by reflexivity.
  rewrite <- Hbuf, <- Hsize. fold (len self1).
  destruct (process_buffer_cases self1) as [[Hkeep Hlt]|[Hclear [Hcap _]]].
  - repeat split.
    + intros _. exact Hkeep.
    + intros Hc Hb Hok. specialize (Hlt Hok Hb). lia.
    + left. exact Hkeep.
  - repeat split.
    + intros Hc. lia.
    + intros _ _ _. exact Hclear.
    + right. exact Hclear.
Qed.

End Buffer.

(** C7. One call of [subscription_callback] appends a row per UE of the
    indication. While the buffer stays below 1440 records nothing is
    dropped: the buffer after the call is the old one followed by the new
    rows, whatever the processing pass did. When the buffer has reached
    1440 records and the call ran its processing pass to the end, the
    buffer is empty after the call. *)
Theorem buffer_policy (num : Type) (NUM : Numeric num) (SG : Sigmoid)
        (self : @KpmStyle5Xapp num) (timestamp : Z) (e2_agent_id : string)
        (meas_data : list (Z * list (string * @raw num))) :
  let appended :=
    data_buffer self
    ++ map (fun um => make_row self timestamp e2_agent_id (fst um) (snd um)) meas_data in
  let after := subscription_callback self timestamp e2_agent_id meas_data in
  (Z.of_nat (List.length appended) < hard_cap -> data_buffer (snd after) = appended)
  /\ (hard_cap <= Z.of_nat (List.length appended) ->
      buffer_size self <= Z.of_nat (List.length appended) ->
      is_ok (fst after) = true ->
      data_buffer (snd after) = [])
  /\ (data_buffer (snd after) = appended \/ data_buffer (snd after) = []).
Proof. exact (callback_buffer self timestamp e2_agent_id meas_data). Qed.

Lemma buffer_policy_witness :
  data_buffer (snd (subscription_callback Scenario.almost_full 4000000000 "gnb1"
                                          [(287, Scenario.meas 1%float)]))
  = [].
Proof.
  apply (proj1 (proj2 (buffer_policy float Binary64.binary64 exact_sigmoid Scenario.almost_full
                                     4000000000 "gnb1" [(287, Scenario.meas 1%float)]))).
  - vm_compute. intros H. discriminate H.
  - vm_compute. intros H. discriminate H.
  - vm_compute. reflexivity.
Defined.

(** Below the cap the rows stay, also when the pass raises: Stage 1 did not
    load, the call raises, and the record is in the buffer. *)
Example rows_kept_when_pass_raises (SG : Sigmoid) :
  List.length
    (data_buffer
       (snd (subscription_callback
               (set_metric_names (__init__ 1 NotFound NotFound NotFound)
                                 Scenario.default_metrics)
               1000000000 "gnb1" [(7, Scenario.meas 1%float)])))
  = 1%nat.
Proof. vm_compute. reflexivity. Qed.

(** ** Purity of the transform (C9) *)

Section Purity.

Context {num : Type} {NUM : Numeric num}.

Lemma nth_error_end (h l : store) (d : DataFrame num) :
  nth_error (h ++ d :: l) (List.length h) = Some d.
Proof. induction h as [|x h IH]; cbn; [reflexivity|exact IH]. Qed.

Lemma nth_error_end1 (h l : store) (a d : DataFrame num) :
  nth_error (h ++ a :: d :: l) (S (List.length h)) = Some d.
Proof. induction h as [|x h IH]; cbn; [reflexivity|exact IH]. Qed.

Lemma update_end (h l : store) (d x : DataFrame num) :
  update (h ++ d :: l) (List.length h) x = h ++ x :: l.
Proof. induction h as [|y h IH]; cbn; [reflexivity|rewrite IH; reflexivity]. Qed.

Lemma update_end1 (h l : store) (a d x : DataFrame num) :
  update (h ++ a :: d :: l) (S (List.length h)) x = h ++ a :: x :: l.
Proof. induction h as [|y h IH]; cbn; [reflexivity|]. cbn in IH. rewrite IH. reflexivity. Qed.

Lemma nth_error_kept (h extra : store) (r : nat) (d : DataFrame num) :
  nth_error h r = Some d -> nth_error (h ++ extra) r = Some d.
Proof.
  intros H. rewrite nth_error_app1; [exact H|].
  apply nth_error_Some. congruence.
Qed.

(** The loop over [metric_names] only touches the frame it works on, and
    what it does depends on that frame alone. *)
Lemma metric_loop_shape (names : list string) :
  forall (pre cur : DataFrame num),
  exists (res : result unit) (cur' : DataFrame num),
    forall h : store,
      for_each names
               (fun col =>
                  (d <- load (S (List.length h)) ;;
                   values <- lift (getitem d col) ;;
                   save (S (List.length h)) (setitem d col (map to_numeric values)))%store)
               (h ++ [pre; cur])
      = (res, h ++ [pre; cur']).
Proof.
  induction names as [|col names IH]; intros pre cur.
  - exists (Ok tt), cur. intros h. reflexivity.
  - destruct (getitem cur col) as [values|e] eqn:Eg.
    + destruct (IH pre (setitem cur col (map to_numeric values))) as [res [cur' Hloop]].
      exists res, cur'. intros h. cbn [for_each]. unfold bind at 1.
      unfold bind at 1, load at 1.
      rewrite nth_error_end1.
      unfold bind at 1, lift at 1. rewrite Eg.
      unfold save at 1. rewrite update_end1.
      apply Hloop.
    + exists (Raise e), cur. intros h. cbn [for_each]. unfold bind at 1.
      unfold bind at 1, load at 1.
      rewrite nth_error_end1.
      unfold bind at 1, lift at 1. rewrite Eg. reflexivity.
Qed.

(** One call: the result depends on the content of the input frame only
    (it is an exception, or what lines 104-184 make of the prepared frame),
    and the store afterwards is the store before with new frames at its
    end. *)
Lemma engineer_shape (self : @KpmStyle5Xapp num) (d : DataFrame num) :
  exists (res : result (DataFrame num)) (extra : store),
    (forall out, res = Ok out ->
                 exists prepared, engineer (selected_features self) prepared = Ok out)
    /\ forall (h : store) (cleaned_dataset : ref),
         nth_error h cleaned_dataset = Some d ->
         _feature_engineer_network_data self cleaned_dataset h = (res, h ++ extra).
Proof.
  destruct (getitem d "Timestamp") as [ts|e] eqn:Ets.
  - set (d2 := setitem d "Timestamp" (map to_datetime ts)).
    destruct (sort_values d2 ["E2AgentID"; "UE_ID"; "Timestamp"]) as [sorted|e] eqn:Es.
    + destruct (metric_loop_shape (metric_names self) d2 sorted) as [res [cur' Hloop]].
      destruct res as [[]|e].
      * exists (engineer (selected_features self) (fillna (Num zero) cur')),
               [d2; fillna (Num zero) cur'].
        split; [intros out Ho; eexists; exact Ho|].
        intros h r Hr.
        unfold _feature_engineer_network_data.
        unfold bind at 1, load at 1. rewrite Hr.
        unfold bind at 1, alloc at 1.
        unfold bind at 1, load at 1. rewrite nth_error_end.
        unfold bind at 1, lift at 1. rewrite Ets.
        unfold bind at 1, save at 1. rewrite update_end.
        unfold bind at 1, load at 1. rewrite nth_error_end.
        fold d2.
        unfold bind at 1, lift at 1. rewrite Es.
        unfold bind at 1, alloc at 1.
        rewrite <- app_assoc. cbn [app].
        replace (List.length (h ++ [d2])) with (S (List.length h))
          by (rewrite length_app; cbn; lia).
        unfold bind at 1. rewrite Hloop.
        unfold bind at 1, load at 1. rewrite nth_error_end1.
        unfold bind at 1, save at 1. rewrite update_end1.
        unfold bind at 1, load at 1. rewrite nth_error_end1.
        reflexivity.
      * exists (Raise e), [d2; cur'].
        split; [intros out Ho; discriminate|].
        intros h r Hr.
        unfold _feature_engineer_network_data.
        unfold bind at 1, load at 1. rewrite Hr.
        unfold bind at 1, alloc at 1.
        unfold bind at 1, load at 1. rewrite nth_error_end.
        unfold bind at 1, lift at 1. rewrite Ets.
        unfold bind at 1, save at 1. rewrite update_end.
        unfold bind at 1, load at 1. rewrite nth_error_end.
        fold d2.
        unfold bind at 1, lift at 1. rewrite Es.
        unfold bind at 1, alloc at 1.
        rewrite <- app_assoc. cbn [app].
        replace (List.length (h ++ [d2])) with (S (List.length h))
          by (rewrite length_app; cbn; lia).
        unfold bind at 1. rewrite Hloop. reflexivity.
    + exists (Raise e), [d2].
      split; [intros out Ho; discriminate|].
      intros h r Hr.
      unfold _feature_engineer_network_data.
      unfold bind at 1, load at 1. rewrite Hr.
      unfold bind at 1, alloc at 1.
      unfold bind at 1, load at 1. rewrite nth_error_end.
      unfold bind at 1, lift at 1. rewrite Ets.
      unfold bind at 1, save at 1. rewrite update_end.
      unfold bind at 1, load at 1. rewrite nth_error_end.
      fold d2.
      unfold bind at 1, lift at 1. rewrite Es. reflexivity.
  - exists (Raise e), [d].
    split; [intros out Ho; discriminate|].
    intros h r Hr.
    unfold _feature_engineer_network_data.
    unfold bind at 1, load at 1. rewrite Hr.
    unfold bind at 1, alloc at 1.
    unfold bind at 1, load at 1. rewrite nth_error_end.
    unfold bind at 1, lift at 1. rewrite Ets. reflexivity.
Qed.

(** Calls of the method on a store. *)
Lemma engineer_calls (self : @KpmStyle5Xapp num) (h : store) (cleaned_dataset : ref)
      (d : DataFrame num) :
  nth_error h cleaned_dataset = Some d ->
  let first := _feature_engineer_network_data self cleaned_dataset h in
  let second := _feature_engineer_network_data self cleaned_dataset (snd first) in
  (forall r d', nth_error h r = Some d' -> nth_error (snd first) r = Some d')
  /\ fst second = fst first
  /\ (forall h' r', nth_error h' r' = Some d ->
                    fst (_feature_engineer_network_data self r' h') = fst first).
Proof.
  intros Hd. cbv zeta.
  destruct (engineer_shape self d) as [res [extra [_ Hshape]]].
  rewrite (Hshape h cleaned_dataset Hd). cbn [fst snd].
  split; [|split].
  - intros r d' Hr. apply nth_error_kept. exact Hr.
  - rewrite (Hshape (h ++ extra) cleaned_dataset (nth_error_kept _ _ _ _ Hd)). reflexivity.
  - intros h' r' Hr'. rewrite (Hshape h' r' Hr'). reflexivity.
Qed.

End Purity.

(** C9. The method leaves every frame that was in the store before the
    call as it was, the input among them; a second call on the same input
    returns the same result, and so does a call on any store that holds a
    frame with the same content. *)
Theorem feature_engineering_is_pure (num : Type) (NUM : Numeric num)
        (self : @KpmStyle5Xapp num) (h : store) (cleaned_dataset : ref)
        (d : DataFrame num) :
  nth_error h cleaned_dataset = Some d ->
  let first := _feature_engineer_network_data self cleaned_dataset h in
  let second := _feature_engineer_network_data self cleaned_dataset (snd first) in
  (forall r d', nth_error h r = Some d' -> nth_error (snd first) r = Some d')
  /\ fst second = fst first
  /\ (forall h' r', nth_error h' r' = Some d ->
                    fst (_feature_engineer_network_data self r' h') = fst first).
Proof. exact (engineer_calls self h cleaned_dataset d). Qed.

Lemma feature_engineering_is_pure_witness :
  let self := Scenario.loaded 1 in
  let h := [from_records Scenario.one_record] in
  let first := _feature_engineer_network_data self 0%nat h in
  let second := _feature_engineer_network_data self 0%nat (snd first) in
  (forall r d', nth_error h r = Some d' -> nth_error (snd first) r = Some d')
  /\ fst second = fst first
  /\ (forall h' r', nth_error h' r' = Some (from_records Scenario.one_record) ->
                    fst (_feature_engineer_network_data self r' h') = fst first).
Proof.
  apply (feature_engineering_is_pure float Binary64.binary64 (Scenario.loaded 1)
                                     [from_records Scenario.one_record] 0%nat
                                     (from_records Scenario.one_record)).
  reflexivity.
Defined.


(** ** Rolling statistics of the first sample (C5) *)

Section Rolling.

Context {num : Type} {NUM : Numeric num}.

Lemma length_insert_sorted {A : Type} (lt : A -> A -> bool) (x : A) (l : list A) :
  List.length (insert_sorted lt x l) = S (List.length l).
Proof.
  induction l as [|y l IH]; cbn; [reflexivity|].
  destruct (lt y x); cbn; [rewrite IH|]; reflexivity.
Qed.

Lemma length_sort_stable {A : Type} (lt : A -> A -> bool) (l : list A) :
  List.length (sort_stable lt l) = List.length l.
Proof.
  unfold sort_stable. induction l as [|x l IH]; cbn; [reflexivity|].
  rewrite length_insert_sorted, IH. reflexivity.
Qed.

Lemma length_mapM {A B : Type} (f : A -> result B) (l : list A) (bs : list B) :
  mapM f l = Ok bs -> List.length bs = List.length l.
Proof.
  intros H. apply mapM_Ok in H. symmetry. eapply Forall2_length_eq. exact H.
Qed.

Lemma length_sort_values (df sorted : DataFrame num) (by_ : list string) :
  sort_values df by_ = Ok sorted -> List.length (rows sorted) = List.length (rows df).
Proof.
  unfold sort_values, row_keys. intros H.
  destruct (mapM (column_index df) by_) as [idx|]; cbn [rbind] in H; [|discriminate].
  inversion H. cbn. rewrite length_map, length_sort_stable, length_combine.
  rewrite length_map. lia.
Qed.

Lemma length_numcol (df : DataFrame num) (c : string) (s : list num) :
  numcol df c = Ok s -> List.length s = List.length (rows df).
Proof.
  unfold numcol. intros H.
  destruct (getitem df c) as [cs|] eqn:E; cbn [rbind] in H; [|discriminate].
  rewrite (length_mapM _ _ _ H). eapply length_getitem. exact E.
Qed.

(** The standard deviation of a window of one row is missing: pandas wants
    more than [ddof = 1] observations. *)
Lemma std_of_single (x : num) : std_of [x] = nan.
Proof.
  unfold std_of, observations. cbn. destruct (isfinite x); reflexivity.
Qed.

(** The window that ends at the first row holds that row alone. *)
Lemma window_first (x : num) (s : list num) : window window_size (x :: s) 0 = [x].
Proof. reflexivity. Qed.

Lemma nth_pairs {A B : Type} (g1 g2 : A -> B) (l : list A) (tail : list B) (d : B) (k : nat) (a : A) :
  nth_error l k = Some a ->
  nth (2 * k) (flat_map (fun s => [g1 s; g2 s]) l ++ tail) d = g1 a
  /\ nth (S (2 * k)) (flat_map (fun s => [g1 s; g2 s]) l ++ tail) d = g2 a.
Proof.
  revert k. induction l as [|x l IH]; intros k Hk; [destruct k; discriminate|].
  destruct k as [|k]; cbn in Hk.
  - inversion Hk; subst. split; reflexivity.
  - replace (2 * S k)%nat with (S (S (2 * k))) by lia. cbn. apply IH. exact Hk.
Qed.

Lemma rolled_column_index (k : nat) (f : string) :
  nth_error all_features_to_roll k = Some f ->
  index_of (f ++ "_mean")
           (rolled_columns ++ ["E2AgentID"; "UE_ID"; "Timestamp"; "Timestamp_epoch"])
  = Some (2 * k)%nat
  /\ index_of (f ++ "_std")
              (rolled_columns ++ ["E2AgentID"; "UE_ID"; "Timestamp"; "Timestamp_epoch"])
     = Some (S (2 * k)).
Proof.
  do 26 (destruct k as [|k];
         [intros H; inversion H; subst; split; vm_compute; reflexivity|]).
  cbn. destruct k; discriminate.
Qed.

(** What the loop body builds. *)
Lemma roll_group_inv (run ue : cell num) (group out : DataFrame num) :
  roll_group run ue group = Ok out ->
  exists sorted series Timestamp epoch,
    sort_values group ["Timestamp"] = Ok sorted
    /\ mapM (numcol sorted) all_features_to_roll = Ok series
    /\ out = mkDF (rolled_columns ++ ["E2AgentID"; "UE_ID"; "Timestamp"; "Timestamp_epoch"])
                  (map (fun i =>
                          flat_map (fun s => [Num (mean_of (window window_size s i));
                                              Num (std_of (window window_size s i))])
                                   series
                          ++ [run; ue; nth i Timestamp NA; nth i epoch NA])
                       (seq 0 (List.length (rows sorted)))).
Proof.
  unfold roll_group. intros H.
  destruct (sort_values group ["Timestamp"]) as [sorted|]; cbn [rbind] in H; [|discriminate].
  destruct (mapM (numcol sorted) all_features_to_roll) as [series|] eqn:Es; cbn [rbind] in H;
    [|discriminate].
  destruct (getitem sorted "Timestamp") as [ts|]; cbn [rbind] in H; [|discriminate].
  destruct (mapM epoch_seconds ts) as [epoch|]; cbn [rbind] in H; [|discriminate].
  exists sorted, series, ts, epoch.
  split; [reflexivity|]. split; [exact Es|]. congruence.
Qed.

(** The first row of a rolled group, for one feature: the mean and the
    standard deviation of the window holding the first sample alone. *)
Lemma roll_group_first (run ue : cell num) (group out : DataFrame num) :
  roll_group run ue group = Ok out ->
  rows group <> [] ->
  exists sorted,
    sort_values group ["Timestamp"] = Ok sorted
    /\ forall f, In f all_features_to_roll ->
         exists v, num_at sorted f 0 = Ok v
                   /\ cell_at out (f ++ "_mean") 0 = Ok (Num (mean_of [v]))
                   /\ cell_at out (f ++ "_std") 0 = Ok (Num nan).
Proof.
  intros H Hne.
  destruct (roll_group_inv _ _ _ _ H) as [sorted [series [ts [epoch [Hs [Hser ->]]]]]].
  exists sorted. split; [exact Hs|].
  intros f Hf.
  apply In_nth_error in Hf. destruct Hf as [k Hk].
  pose proof (mapM_Ok _ _ _ Hser) as HF.
  assert (Hsk : exists s, nth_error series k = Some s /\ numcol sorted f = Ok s).
  { clear - HF Hk. revert k Hk. induction HF as [|a b l bs Hab _ IH]; intros k Hk.
    - destruct k; discriminate.
    - destruct k as [|k]; cbn in Hk.
      + inversion Hk; subst. exists b. split; [reflexivity|exact Hab].
      + apply IH. exact Hk. }
  destruct Hsk as [s [Hsk Hnum]].
  assert (Hlen : List.length (rows sorted) = List.length (rows group))
    by (eapply length_sort_values; exact Hs).
  pose proof (length_numcol _ _ _ Hnum) as Hls.
  destruct (rows sorted) as [|r0 rs] eqn:Er.
  { cbn in Hlen. destruct (rows group); [contradiction|discriminate]. }
  destruct s as [|v s]; [discriminate|].
  exists v. split; [|split].
  - unfold num_at. rewrite Hnum. reflexivity.
  - unfold cell_at, getitem. cbn [columns rows].
    destruct (rolled_column_index k f Hk) as [-> _]. cbn [rbind].
    cbn [List.length seq map nth_error].
    destruct (nth_pairs (fun s => Num (mean_of (window window_size s 0)))
                        (fun s => Num (std_of (window window_size s 0)))
                        series [run; ue; nth 0 ts NA; nth 0 epoch NA] NA k (v :: s) Hsk)
      as [-> _].
    rewrite window_first. reflexivity.
  - unfold cell_at, getitem. cbn [columns rows].
    destruct (rolled_column_index k f Hk) as [_ ->]. cbn [rbind].
    cbn [List.length seq map nth_error].
    destruct (nth_pairs (fun s => Num (mean_of (window window_size s 0)))
                        (fun s => Num (std_of (window window_size s 0)))
                        series [run; ue; nth 0 ts NA; nth 0 epoch NA] NA k (v :: s) Hsk)
      as [_ ->].
    rewrite window_first, std_of_single. reflexivity.
Qed.

End Rolling.

(** In exact arithmetic the mean of one sample is the sample. *)
Lemma mean_of_single_exact (v : Exact.xnum) : mean_of [v] = v.
Proof.
  destruct v as [x|]; [|reflexivity].
  unfold mean_of, observations. cbn.
  destruct (Req_dec_T 1 0) as [E|_]; [lra|].
  f_equal. field.
Qed.



Section Groups.

Context {num : Type} {NUM : Numeric num}.

(** The table the method returns is the rolled groups one after the
    other, reindexed. *)
Lemma engineer_inv (selected : option (list string)) (df out : DataFrame num) :
  engineer selected df = Ok out ->
  exists feats grouped final_dfs,
    derive_features df = Ok feats
    /\ groupby (concat_columns df feats) ["E2AgentID"; "UE_ID"] = Ok grouped
    /\ Forall2 (fun g d => roll_group (nth 0 (fst g) NA) (nth 1 (fst g) NA) (snd g) = Ok d)
               grouped final_dfs
    /\ out = match final_dfs with
             | [] => empty_frame
             | d :: _ => reindex selected (Num zero)
                                 (mkDF (columns d) (flat_map (@rows num) final_dfs))
             end.
Proof.
  unfold engineer. intros H.
  destruct (derive_features df) as [feats|]; cbn [rbind] in H; [|discriminate].
  destruct (groupby _ _) as [grouped|] eqn:Eg; cbn [rbind] in H; [|discriminate].
  destruct (mapM _ grouped) as [final_dfs|] eqn:Em; cbn [rbind] in H; [|discriminate].
  exists feats, grouped, final_dfs.
  split; [reflexivity|]. split; [exact Eg|]. split.
  - apply mapM_Ok in Em. exact Em.
  - destruct final_dfs; congruence.
Qed.

End Groups.

(** In exact arithmetic: the first row of a rolled group. *)
Lemma roll_group_first_exact (run ue : cell Exact.xnum) (group rolled : DataFrame Exact.xnum) :
  roll_group run ue group = Ok rolled ->
  rows group <> [] ->
  first_row_rule group rolled.
Proof.
  intros H Hne.
  destruct (roll_group_first run ue group rolled H Hne) as [sorted [Hs Hf]].
  exists sorted. split; [exact Hs|].
  intros f Hin. destruct (Hf f Hin) as [v [Hv [Hm Hsd]]].
  exists v. rewrite mean_of_single_exact in Hm. auto.
Qed.

(** The table is made of one block of rows per group, in group order,
    and the first row of every block follows the rule. *)
Lemma engineer_blocks (df out : DataFrame Exact.xnum) :
  engineer None df = Ok out ->
  exists feats grouped final_dfs,
    derive_features df = Ok feats
    /\ groupby (concat_columns df feats) ["E2AgentID"; "UE_ID"] = Ok grouped
    /\ rows out = flat_map (@rows Exact.xnum) final_dfs
    /\ Forall2 (fun g rolled => rows (snd g) <> [] -> first_row_rule (snd g) rolled)
               grouped final_dfs.
Proof.
  intros H.
  destruct (engineer_inv _ _ _ H) as [feats [grouped [final_dfs [Hd [Hg [HF ->]]]]]].
  exists feats, grouped, final_dfs.
  split; [exact Hd|]. split; [exact Hg|]. split.
  - destruct final_dfs; reflexivity.
  - clear - HF. induction HF as [|g d gs ds Hgd _ IH]; constructor; [|exact IH].
    intros Hne. eapply roll_group_first_exact; eassumption.
Qed.

(** C5, as the code has it, in exact arithmetic. The table returned for a
    prepared frame is made of one block of rows per (E2AgentID, UE_ID)
    group; in the first row of the block of a group with at least one row,
    every rolled feature has its own first value (in time order) in its
    [_mean] column and the missing value NaN in its [_std] column. *)
Theorem first_sample_statistics (df out : DataFrame Exact.xnum) :
  engineer None df = Ok out ->
  exists feats grouped final_dfs,
    derive_features df = Ok feats
    /\ groupby (concat_columns df feats) ["E2AgentID"; "UE_ID"] = Ok grouped
    /\ rows out = flat_map (@rows Exact.xnum) final_dfs
    /\ Forall2 (fun g rolled => rows (snd g) <> [] -> first_row_rule (snd g) rolled)
               grouped final_dfs.
Proof. exact (engineer_blocks df out). Qed.

Lemma first_sample_statistics_witness :
  exists feats grouped final_dfs,
    derive_features Scenario.exact_frame = Ok feats
    /\ groupby (concat_columns Scenario.exact_frame feats) ["E2AgentID"; "UE_ID"] = Ok grouped
    /\ rows Scenario.exact_table = flat_map (@rows Exact.xnum) final_dfs
    /\ Forall2 (fun g rolled => rows (snd g) <> [] -> first_row_rule (snd g) rolled)
               grouped final_dfs.
Proof.
  apply (first_sample_statistics Scenario.exact_frame Scenario.exact_table).
  reflexivity.
Defined.

(** C5 on the code: the transform of one record returns NaN in every
    [_std] column. *)
Lemma first_window_std_is_nan :
  (out <- transform (Scenario.loaded 1) Scenario.one_record ;;
   mapM (fun f => (c <- cell_at out (f ++ "_std") 0 ;; Ok (isna c))%result)
        all_features_to_roll)%result
  = Ok (repeat true 26).
Proof. vm_compute. reflexivity. Qed.

(** The missing values of the table do not reach a model. *)

Section NoNaN.
Context {num : Type} {NUM : Numeric num}.
Hypothesis isnan_zero : isnan (@zero num NUM) = false.

(** Lines 211-212: no missing value reaches a model. *)
Lemma feature_matrix_no_nan (self : @KpmStyle5Xapp num) (fd : DataFrame num)
      (row : list num) (x : num) :
  In row (feature_matrix self fd) -> In x row -> isnan x = false.
Proof.
  unfold feature_matrix. intros Hrow Hx.
  apply in_map_iff in Hrow. destruct Hrow as [r [<- _]].
  apply in_map_iff in Hx. destruct Hx as [c [<- _]].
  destruct c as [y|z|s|t]; cbn; unfold fillna_cell; cbn.
  - destruct (isnan y) eqn:E; [exact isnan_zero|exact E].
  - destruct (isnan (of_Z z)) eqn:E; [exact isnan_zero|exact E].
  - rewrite isnan_nan. exact isnan_zero.
  - destruct (isnan (of_Z t)) eqn:E; [exact isnan_zero|exact E].
Qed.
End NoNaN.

Lemma feature_matrix_no_nan_binary64 (self : @KpmStyle5Xapp float) (fd : DataFrame float)
      (row : list float) (x : float) :
  In row (feature_matrix self fd) -> In x row -> isnan x = false.
Proof. apply feature_matrix_no_nan. reflexivity. Qed.

(** ** Guarded quotients (C6) *)

Lemma Forall_map2 {A B C : Type} (P : A -> Prop) (Q : B -> Prop) (S : C -> Prop)
      (f : A -> B -> C) (a : list A) (b : list B) :
  (forall x y, P x -> Q y -> S (f x y)) ->
  Forall P a -> Forall Q b -> Forall S (map2 f a b).
Proof.
  intros Hf Ha. revert b. induction Ha as [|x a Hx _ IH]; intros b Hb.
  - constructor.
  - destruct Hb as [|y b Hy Hb]; [constructor|].
    unfold map2. cbn. constructor; [apply Hf; assumption|apply IH; assumption].
Qed.

(** Every denominator is at least [epsilon]. *)
Lemma guarded_denominator (b : list Exact.xnum) :
  Forall nonneg b ->
  Forall (fun v => exists y, v = Some y /\ (1 / 100000 <= y)%R)
         (map (fun y => add y epsilon) b).
Proof.
  intros H. induction H as [|v b [x [-> Hx]] _ IH]; cbn; constructor; [|exact IH].
  eexists. split; [reflexivity|]. lra.
Qed.

(** A guarded quotient of non-negative columns is a number, not negative. *)
Lemma guarded_ratio_nonneg (a b : list Exact.xnum) :
  Forall nonneg a -> Forall nonneg b -> Forall nonneg (guarded_ratio a b).
Proof.
  intros Ha Hb. unfold guarded_ratio.
  apply (Forall_map2 nonneg (fun v => exists y, v = Some y /\ (1 / 100000 <= y)%R) nonneg).
  - intros u v [x [-> Hx]] [y [-> Hy]]. cbn.
    destruct (Req_dec_T y 0) as [E|E]; [lra|].
    eexists. split; [reflexivity|].
    apply Rmult_le_pos; [exact Hx|]. left. apply Rinv_0_lt_compat. lra.
  - exact Ha.
  - apply guarded_denominator. exact Hb.
Qed.

Lemma Forall_nums (P : Exact.xnum -> Prop) (l : list Exact.xnum) :
  Forall P l -> Forall (fun c => exists v, c = Num v /\ P v) (nums l).
Proof.
  intros H. unfold nums. induction H; cbn; constructor; eauto.
Qed.

(** The dict [new_features] on non-negative inputs. *)
Lemma derived_ratios_nonneg (df : DataFrame Exact.xnum)
      (feats : list (string * list (cell Exact.xnum))) :
  derive_features df = Ok feats ->
  (forall c, In c ratio_inputs -> forall s, numcol df c = Ok s -> Forall nonneg s) ->
  forall name, In name ratio_features ->
    exists cells, In (name, cells) feats
                  /\ Forall (fun c => exists v, c = Num v /\ nonneg v) cells.
Proof.
  intros H Hin. unfold derive_features in H.
  repeat match type of H with
         | rbind ?c _ = Ok _ =>
             let E := fresh "E" in
             destruct c eqn:E; cbn [rbind] in H; [|discriminate]
         end.
  inversion H as [Hf]. clear H Hf.
  unfold ratio_inputs in Hin.
  pose proof (Hin _ (or_introl eq_refl) _ E) as H1.
  pose proof (Hin _ (or_intror (or_introl eq_refl)) _ E0) as H2.
  pose proof (Hin _ (or_intror (or_intror (or_introl eq_refl))) _ E1) as H3.
  pose proof (Hin _ (or_intror (or_intror (or_intror (or_introl eq_refl)))) _ E2) as H4.
  pose proof (Hin _ (or_intror (or_intror (or_intror (or_intror (or_introl eq_refl))))) _ E3) as H5.
  pose proof (Hin _ (or_intror (or_intror (or_intror (or_intror (or_intror (or_introl eq_refl)))))) _ E4) as H6.
  pose proof (Hin _ (or_intror (or_intror (or_intror (or_intror (or_intror (or_intror (or_introl eq_refl))))))) _ E8) as H7.
  pose proof (Hin _ (or_intror (or_intror (or_intror (or_intror (or_intror (or_intror (or_intror (or_introl eq_refl)))))))) _ E9) as H8.
  intros name Hname. unfold ratio_features in Hname.
  repeat destruct Hname as [<-|Hname]; try contradiction;
    (eexists; split;
     [ repeat (first [left; reflexivity | right])
     | apply Forall_nums, guarded_ratio_nonneg; assumption ]).
Qed.

(** C6, in exact arithmetic. When the dict [new_features] is computed from
    a frame whose ratio inputs are all non-negative numbers, every entry of
    every guarded quotient is a number (no division by zero took place) and
    is not negative. *)
Theorem guarded_ratios_defined (df : DataFrame Exact.xnum)
        (feats : list (string * list (cell Exact.xnum))) :
  derive_features df = Ok feats ->
  (forall c, In c ratio_inputs -> forall s, numcol df c = Ok s -> Forall nonneg s) ->
  forall name, In name ratio_features ->
    exists cells, In (name, cells) feats
                  /\ Forall (fun c => exists v, c = Num v /\ nonneg v) cells.
Proof. exact (derived_ratios_nonneg df feats). Qed.

Lemma guarded_ratios_defined_witness :
  Forall (fun name =>
            exists cells, In (name, cells) Scenario.exact_features
                          /\ Forall (fun c => exists v, c = Num v /\ nonneg v) cells)
         ratio_features.
Proof.
  apply Forall_forall.
  apply (guarded_ratios_defined Scenario.exact_frame Scenario.exact_features).
  - reflexivity.
  - intros c Hc s Hs. unfold ratio_inputs in Hc.
    repeat destruct Hc as [<-|Hc]; try contradiction;
      cbn in Hs; inversion Hs; repeat constructor; eexists; (split; [reflexivity|lra]).
Defined.

(** C6 on the code. In binary64 the guard does not bound the quotient:
    every metric of the record is a non-negative number, and the uplink
    efficiency 1e308 / (0 + 1e-5) overflows to [+inf]. *)
Lemma uplink_efficiency_overflows :
  (feats <- derive_features (from_records Scenario.huge_throughput) ;;
   Ok (option_map snd (find (fun f => String.eqb (fst f) "UL_PRB_Efficiency") feats)))%result
  = Ok (Some [Num PrimFloat.infinity])
  /\ isfinite PrimFloat.infinity = false.
Proof. split; vm_compute; reflexivity. Qed.

(** The rolling window reads the infinity as a missing value: the mean the
    transform returns for it is NaN, which line 211 turns into 0.0. *)
Example overflow_is_read_as_missing :
  (out <- transform (Scenario.loaded 1) Scenario.huge_throughput ;;
   c <- cell_at out "UL_PRB_Efficiency_mean" 0 ;;
   Ok (isna c))%result
  = Ok true.
Proof. vm_compute. reflexivity. Qed.

(** ** The columns of the table, for every batch (C1) *)

Section Columns.

Context {num : Type} {NUM : Numeric num}.

(** With [selected_features = None] the table a call returns is
    [pd.DataFrame()] or has the columns of the rolled groups, whatever
    feature lists the artifacts held. *)
Lemma transform_columns (self : @KpmStyle5Xapp num) (records : list (row_dict num))
      (out : DataFrame num) :
  selected_features self = None ->
  transform self records = Ok out ->
  out = empty_frame
  \/ columns out
     = rolled_columns ++ ["E2AgentID"; "UE_ID"; "Timestamp"; "Timestamp_epoch"].
Proof.
  intros Hsel H. unfold transform in H.
  destruct (engineer_shape self (from_records records)) as [res [extra [Hres Hshape]]].
  unfold bind at 1, alloc at 1 in H. cbn [List.length app] in H.
  rewrite (Hshape [from_records records] 0%nat eq_refl) in H. cbn [fst] in H.
  destruct (Hres out H) as [prepared He].
  rewrite Hsel in He.
  destruct (engineer_inv _ _ _ He) as [feats [grouped [final_dfs [_ [_ [HF ->]]]]]].
  destruct final_dfs as [|d ds]; [left; reflexivity|right].
  inversion HF as [|g ? ? ? Hg _]; subst.
  destruct (roll_group_inv _ _ _ _ Hg) as [? [? [? [? [_ [_ ->]]]]]].
  reflexivity.
Qed.

End Columns.

(** * Further properties of the code *)

(** ** More on the aggregation *)

Lemma In_subtypes_of (prefix t : string) (labels : list string) :
  In t (subtypes_of prefix labels) -> In (prefix ++ t)%string labels.
Proof.
  unfold subtypes_of. intros H. apply in_flat_map in H.
  destruct H as [l [Hl Ht]].
  destruct (strip_prefix prefix l) as [t'|] eqn:E; [|destruct Ht].
  destruct Ht as [<-|[]]. apply strip_prefix_app in E. subst l. exact Hl.
Qed.

Lemma subtypes_of_nil (prefix : string) (labels : list string) :
  subtypes_of prefix labels = [] ->
  forall l, In l labels -> startswith l prefix = false.
Proof.
  intros H l Hl. rewrite startswith_strip.
  destruct (strip_prefix prefix l) as [t|] eqn:E; [|reflexivity].
  exfalso. eapply subtypes_of_nonempty; eassumption.
Qed.

(** A verdict is the label of one of the rows it was computed from, unless
    no row carries a prefix. *)
Lemma verdict_is_a_row_label (mine : list string) (v : string) :
  verdict_rule mine v ->
  In v mine
  \/ (v = "Unknown-NA"
      /\ forall l, In l mine ->
           startswith l "Malicious-" = false /\ startswith l "Benign-" = false).
Proof.
  intros [Hmal [Hben Hnone]].
  destruct (subtypes_of "Malicious-" mine) as [|m ms] eqn:EM.
  - destruct (subtypes_of "Benign-" mine) as [|b bs] eqn:EB.
    + right. split; [apply Hnone; reflexivity|].
      intros l Hl. split; eapply subtypes_of_nil; eassumption.
    + left. destruct (Hben eq_refl) as [chosen [-> [Hin _]]]; [discriminate|].
      apply In_subtypes_of. rewrite EB. exact Hin.
  - left. destruct Hmal as [chosen [-> [Hin _]]]; [discriminate|].
    apply In_subtypes_of. rewrite EM. exact Hin.
Qed.

(** The entries of [per_ue_status], in the order of [np.unique]. *)
Lemma per_ue_status_entries (ue_ids : list Z) (cascade_prediction : list string) :
  exists status,
    per_ue_status ue_ids cascade_prediction = Ok status
    /\ Forall2 (fun ue entry =>
                  fst entry = ue
                  /\ verdict_rule (rows_of ue ue_ids cascade_prediction) (snd entry))
               (sorted_unique Z.ltb ue_ids) status.
Proof.
  unfold per_ue_status.
  apply (mapM_total
           (fun ue => (status <- ue_status (rows_of ue ue_ids cascade_prediction) ;;
                       Ok (ue, status))%result)).
  intros ue _. destruct (ue_status_rule (rows_of ue ue_ids cascade_prediction)) as [v [Hv Hr]].
  exists (ue, v). rewrite Hv. cbn. auto.
Qed.

Lemma status_entry (ue_ids : list Z) (cascade_prediction : list string)
      (status : list (Z * string)) (ue : Z) (v : string) :
  per_ue_status ue_ids cascade_prediction = Ok status ->
  In (ue, v) status ->
  In ue ue_ids /\ verdict_rule (rows_of ue ue_ids cascade_prediction) v.
Proof.
  intros Hs Hin.
  destruct (per_ue_status_entries ue_ids cascade_prediction) as [status' [Hs' HF]].
  rewrite Hs in Hs'. inversion Hs'; subst status'.
  destruct (Forall2_In_r _ _ _ (ue, v) HF Hin) as [ue' [Hue [Hfst Hr]]].
  cbn in Hfst, Hr. subst ue'. split; [|exact Hr].
  apply (proj1 (sorted_unique_In _ _)). exact Hue.
Qed.

(** X1. Every entry of the dict [per_ue_status] belongs to a UE of the
    batch, and its verdict is the label of one of that UE's own rows; it is
    [Unknown-NA] only when none of the UE's rows starts with [Malicious-] or
    [Benign-]. *)
Theorem verdicts_come_from_rows (ue_ids : list Z) (cascade_prediction : list string) :
  exists status,
    per_ue_status ue_ids cascade_prediction = Ok status
    /\ forall ue v, In (ue, v) status ->
         In ue ue_ids
         /\ (In v (rows_of ue ue_ids cascade_prediction)
             \/ (v = "Unknown-NA"
                 /\ forall l, In l (rows_of ue ue_ids cascade_prediction) ->
                      startswith l "Malicious-" = false
                      /\ startswith l "Benign-" = false)).
Proof.
  destruct (per_ue_status_entries ue_ids cascade_prediction) as [status [Hs _]].
  exists status. split; [exact Hs|].
  intros ue v Hin. destruct (status_entry _ _ _ _ _ Hs Hin) as [Hue Hr].
  split; [exact Hue|]. apply verdict_is_a_row_label. exact Hr.
Qed.

(** ** The tie-break of [most_common] *)

Section TieBreak.

Variable K : Type.
Variable keq : K -> K -> bool.
Hypothesis keq_spec : forall a b, keq a b = true <-> a = b.

Lemma existsb_keys (k : K) (c : list (K * nat)) :
  existsb (keq k) (map fst c) = existsb (fun kn => keq (fst kn) k) c.
Proof.
  induction c as [|[k0 n] c IH]; cbn; [reflexivity|].
  rewrite IH, (keq_sym K keq keq_spec k k0). reflexivity.
Qed.

Lemma counter_add_keys (k : K) (c : list (K * nat)) :
  map fst (counter_add keq k c)
  = if existsb (keq k) (map fst c) then map fst c else map fst c ++ [k].
Proof.
  induction c as [|[k0 n] c IH]; cbn; [reflexivity|].
  rewrite (keq_sym K keq keq_spec k k0).
  destruct (keq k0 k); cbn; [reflexivity|].
  rewrite IH. destruct (existsb (keq k) (map fst c)); reflexivity.
Qed.

Lemma Counter_keys_fold (l : list K) :
  forall c : list (K * nat),
    map fst (fold_left (fun c k => counter_add keq k c) l c)
    = fold_left (fun seen k => if existsb (keq k) seen then seen else seen ++ [k])
                l (map fst c).
Proof.
  induction l as [|x l IH]; intros c; cbn; [reflexivity|].
  rewrite IH, counter_add_keys. reflexivity.
Qed.

(** The keys of a [Counter] are in first-seen order. *)
Lemma Counter_keys (l : list K) : map fst (Counter keq l) = first_seen keq l.
Proof. unfold Counter, first_seen. rewrite Counter_keys_fold. reflexivity. Qed.

Lemma max_item_split (c : list (K * nat)) :
  forall (best : K * nat) (pre0 mid : list (K * nat)),
    (forall x, In x pre0 -> (snd x < snd best)%nat) ->
    (forall x, In x mid -> (snd x <= snd best)%nat) ->
    exists pre post,
      pre0 ++ best :: mid ++ c = pre ++ max_item best c :: post
      /\ (forall x, In x pre -> (snd x < snd (max_item best c))%nat)
      /\ (forall x, In x post -> (snd x <= snd (max_item best c))%nat).
Proof.
  induction c as [|kn c IH]; intros best pre0 mid Hpre Hmid; cbn -[Nat.ltb].
  - exists pre0, mid. rewrite app_nil_r. auto.
  - destruct (Nat.ltb_spec (snd best) (snd kn)) as [Hlt|Hge].
    + destruct (IH kn (pre0 ++ best :: mid) []) as [pre [post [He [H1 H2]]]].
      * intros x Hx. apply in_app_or in Hx. destruct Hx as [Hx|[<-|Hx]].
        -- specialize (Hpre x Hx). lia.
        -- exact Hlt.
        -- specialize (Hmid x Hx). lia.
      * intros x [].
      * exists pre, post. split; [|auto].
        rewrite <- He. rewrite <- app_assoc. reflexivity.
    + destruct (IH best pre0 (mid ++ [kn])) as [pre [post [He [H1 H2]]]].
      * exact Hpre.
      * intros x Hx. apply in_app_or in Hx. destruct Hx as [Hx|[<-|[]]]; auto.
      * exists pre, post. split; [|auto].
        rewrite <- He. rewrite <- app_assoc. reflexivity.
Qed.

Lemma most_common_first (l : list K) :
  l <> [] ->
  exists k pre post,
    most_common keq l = Ok k
    /\ first_seen keq l = pre ++ k :: post
    /\ (forall k', In k' pre -> (occ keq k' l < occ keq k l)%nat)
    /\ (forall k', In k' post -> (occ keq k' l <= occ keq k l)%nat).
Proof.
  intros Hne. unfold most_common.
  destruct (keys_fold K keq keq_spec l [] (NoDup_nil _)
                      (fun kn (H : In kn []) => match H with end)) as [Hnd [_ Hkeys]].
  fold (Counter keq l) in Hnd, Hkeys. cbn in Hkeys.
  pose proof (Counter_keys l) as HK.
  pose proof (held_Counter K keq keq_spec l) as Hheld.
  destruct (Counter keq l) as [|kn c] eqn:EC.
  - exfalso. destruct l as [|x l]; [apply Hne; reflexivity|].
    assert (In x (map fst (@nil (K * nat)))) as [].
    apply Hkeys. left. left. reflexivity.
  - destruct (max_item_split c kn [] []) as [pre [post [He [H1 H2]]]];
      [intros x []|intros x []|].
    cbn [app] in He.
    assert (Hcount : forall k n, In (k, n) (kn :: c) -> occ keq k l = n).
    { intros k n Hin. rewrite <- Hheld. apply (held_In K keq keq_spec); assumption. }
    destruct (max_item kn c) as [k n] eqn:EM. cbn [fst snd] in *.
    exists k, (map fst pre), (map fst post). split; [reflexivity|]. split.
    + rewrite <- HK, He, map_app. reflexivity.
    + assert (Hk : occ keq k l = n).
      { apply Hcount. rewrite He. apply in_or_app. right. left. reflexivity. }
      split; intros k' Hk'; apply in_map_iff in Hk'; destruct Hk' as [[k0 n0] [Hf Hin]];
        cbn in Hf; subst k0; rewrite Hk.
      * rewrite (Hcount k' n0); [apply (H1 _ Hin)|].
        rewrite He. apply in_or_app. left. exact Hin.
      * rewrite (Hcount k' n0); [apply (H2 _ Hin)|].
        rewrite He. apply in_or_app. right. right. exact Hin.
Qed.

End TieBreak.

(** X2. [Counter(subtypes).most_common(1)[0][0]] on a non-empty list: among
    the distinct subtypes in first-seen order, the chosen one occurs
    strictly more often than every subtype seen before it and at least as
    often as every subtype seen after it: ties go to the subtype seen
    first. *)
Theorem most_common_tie_break (l : list string) :
  l <> [] ->
  exists chosen pre post,
    most_common String.eqb l = Ok chosen
    /\ first_seen String.eqb l = pre ++ chosen :: post
    /\ (forall s, In s pre ->
                  (count_occ string_dec l s < count_occ string_dec l chosen)%nat)
    /\ (forall s, In s post ->
                  (count_occ string_dec l s <= count_occ string_dec l chosen)%nat).
Proof.
  intros Hne.
  destruct (most_common_first string String.eqb String.eqb_eq l Hne)
    as [k [pre [post [Hk [Hf [H1 H2]]]]]].
  exists k, pre, post. split; [exact Hk|]. split; [exact Hf|].
  split; intros s Hs; rewrite <- !occ_count_occ; auto.
Qed.

Lemma most_common_tie_break_witness :
  exists chosen pre post,
    most_common String.eqb ["voip"; "udp_flood"; "embb"; "embb"; "udp_flood"] = Ok chosen
    /\ first_seen String.eqb ["voip"; "udp_flood"; "embb"; "embb"; "udp_flood"]
       = pre ++ chosen :: post
    /\ (forall s, In s pre ->
                  (count_occ string_dec ["voip"; "udp_flood"; "embb"; "embb"; "udp_flood"] s
                   < count_occ string_dec ["voip"; "udp_flood"; "embb"; "embb"; "udp_flood"] chosen)%nat)
    /\ (forall s, In s post ->
                  (count_occ string_dec ["voip"; "udp_flood"; "embb"; "embb"; "udp_flood"] s
                   <= count_occ string_dec ["voip"; "udp_flood"; "embb"; "embb"; "udp_flood"] chosen)%nat).
Proof.
  apply (most_common_tie_break ["voip"; "udp_flood"; "embb"; "embb"; "udp_flood"]).
  discriminate.
Defined.

Example tie_goes_to_first_seen :
  most_common String.eqb ["voip"; "udp_flood"; "embb"; "embb"; "udp_flood"] = Ok "udp_flood".
Proof. reflexivity. Qed.

(** ** Labels and verdicts of a report *)

Lemma rows_of_nth {A : Type} (ue : Z) (ue_ids : list Z) (col : list A) (i : nat) (a : A) :
  nth_error ue_ids i = Some ue -> nth_error col i = Some a ->
  In a (rows_of ue ue_ids col).
Proof.
  unfold rows_of. revert col i. induction ue_ids as [|u ids IH]; intros col i Hu Ha.
  - destruct i; discriminate.
  - destruct col as [|c col]; [destruct i; discriminate|].
    destruct i as [|i]; cbn in Hu, Ha; cbn.
    + inversion Hu; inversion Ha; subst. rewrite Z.eqb_refl. left. reflexivity.
    + destruct (u =? ue); [right|]; eapply IH; eassumption.
Qed.

Lemma rows_of_seq (ue : Z) (ue_ids : list Z) (k i : nat) :
  In i (rows_of ue ue_ids (seq k (List.length ue_ids))) ->
  (k <= i)%nat /\ nth_error ue_ids (i - k) = Some ue.
Proof.
  unfold rows_of. revert k. induction ue_ids as [|u ids IH]; intros k H; [destruct H|].
  cbn in H. destruct (Z.eqb_spec u ue) as [->|Hne]; cbn in H.
  - destruct H as [<-|H].
    + rewrite Nat.sub_diag. split; [lia|reflexivity].
    + destruct (IH _ H) as [Hk Hn]. split; [lia|].
      replace (i - k)%nat with (S (i - S k)) by lia. exact Hn.
  - destruct (IH _ H) as [Hk Hn]. split; [lia|].
    replace (i - k)%nat with (S (i - S k)) by lia. exact Hn.
Qed.

Lemma py_index_nth {A : Type} (l : list A) (i : nat) (a : A) :
  py_index l (Z.of_nat i) = Ok a -> nth_error l i = Some a.
Proof.
  unfold py_index. destruct (Z.ltb_spec (Z.of_nat i) 0) as [H|_]; [lia|].
  destruct (_ && _); [|discriminate]. rewrite Nat2Z.id.
  destruct (nth_error l i); [|discriminate]. congruence.
Qed.

Section Reports.

Context {num : Type} {NUM : Numeric num} {SG : Sigmoid}.

(** What a returned report was computed from, the Stage-1 summary
    included. *)
Lemma predict_cascaded_parts (self : @KpmStyle5Xapp num) (feature_data : DataFrame num)
      (rep : report) :
  predict_cascaded self feature_data = Ok (Some rep) ->
  exists ue_ids binary_preds,
    List.length ue_ids = List.length (rows feature_data)
    /\ per_ue_stage1 ue_ids (Arr1 binary_preds) = Ok (stage1_summary rep)
    /\ Forall2 (fun ip label =>
                  cascade_row self (feature_matrix self feature_data) (fst ip) (snd ip)
                  = Ok label)
               (combine (seq 0 (List.length binary_preds)) binary_preds)
               (cascade_prediction rep)
    /\ List.length (cascade_prediction rep) = List.length (rows feature_data)
    /\ per_ue_status ue_ids (cascade_prediction rep) = Ok (verdicts rep).
Proof.
  unfold predict_cascaded. intros H.
  destruct (empty feature_data); [discriminate|].
  destruct (getitem feature_data "UE_ID") as [cells|] eqn:Eg; cbn [rbind] in H; [|discriminate].
  destruct (mapM as_int cells) as [ue_ids|] eqn:Eu; cbn [rbind] in H; [|discriminate].
  destruct (stage1 (s1_model self) (feature_matrix self feature_data)) as [arr|] eqn:E1;
    cbn [rbind] in H; [|discriminate].
  destruct (per_ue_stage1 ue_ids arr) as [summary|] eqn:Esum; cbn [rbind] in H; [|discriminate].
  destruct arr as [v|bp]; cbn [arr_iter rbind] in H; [discriminate|].
  destruct (mapM _ (combine _ bp)) as [final_preds|] eqn:Ef; cbn [rbind] in H; [|discriminate].
  destruct (Nat.eqb_spec (List.length final_preds) (List.length (rows feature_data)))
    as [Hl|Hl]; [|discriminate].
  destruct (per_ue_status ue_ids final_preds) as [status|] eqn:Es; cbn [rbind] in H;
    [|discriminate].
  inversion H; subst. cbn.
  exists ue_ids, bp. repeat split; auto.
  - rewrite <- (length_getitem _ _ _ Eg). symmetry.
    eapply Forall2_length_eq. apply mapM_Ok. exact Eu.
  - apply mapM_Ok in Ef. exact Ef.
Qed.

Lemma row_rule_known (self : @KpmStyle5Xapp num) (x : list num) (pred : Z) (label : string) :
  le_benign self = benign_labels ->
  le_malicious self = malicious_labels ->
  row_rule self x pred label -> In label all_labels.
Proof.
  intros Hb Hm. unfold row_rule, all_labels.
  destruct (pred =? 0); intros [enc [s [_ [Hs ->]]]]; apply py_index_In in Hs;
    apply in_or_app; [left; rewrite Hb in Hs|right; rewrite Hm in Hs];
    apply in_map; exact Hs.
Qed.

Lemma known_label_prefixed (label : string) : In label all_labels -> prefixed label.
Proof.
  unfold all_labels. intros H. apply in_app_or in H.
  destruct H as [H|H]; apply in_map_iff in H; destruct H as [s [<- _]];
    [left|right]; exists s; reflexivity.
Qed.

Lemma prefixed_startswith (label : string) :
  prefixed label ->
  startswith label "Malicious-" = true \/ startswith label "Benign-" = true.
Proof.
  intros [[s ->]|[s ->]]; [right|left]; apply startswith_app.
Qed.

(** Every row label and every verdict of a report is one of the ten
    labels, when the label lists are the ones [__init__] installs. *)
Lemma report_labels_known (self : @KpmStyle5Xapp num) (feature_data : DataFrame num)
      (rep : report) :
  predict_cascaded self feature_data = Ok (Some rep) ->
  le_benign self = benign_labels ->
  le_malicious self = malicious_labels ->
  Forall (fun label => In label all_labels) (cascade_prediction rep)
  /\ Forall (fun entry => In (snd entry) all_labels) (verdicts rep).
Proof.
  intros H Hb Hm.
  destruct (predict_cascaded_parts _ _ _ H) as [ue_ids [bp [Hn [_ [HF [Hl Hst]]]]]].
  assert (Hrows : Forall (fun label => In label all_labels) (cascade_prediction rep)).
  { apply Forall_forall. intros label Hin.
    destruct (Forall2_In_r _ _ _ label HF Hin) as [[i pred] [_ Hrow]].
    destruct (cascade_row_rule _ _ _ _ _ Hrow) as [x [_ Hr]].
    eapply row_rule_known; eassumption. }
  split; [exact Hrows|].
  apply Forall_forall. intros [ue v] Hin. cbn.
  destruct (status_entry _ _ _ _ _ Hst Hin) as [Hue Hr].
  destruct (verdict_is_a_row_label _ _ Hr) as [Hv|[_ Hnone]].
  - apply rows_of_In in Hv. exact (proj1 (Forall_forall _ _) Hrows v Hv).
  - exfalso.
    destruct (rows_of ue ue_ids (cascade_prediction rep)) as [|l ls] eqn:E.
    + revert E. apply rows_of_nonempty; [exact Hue|lia].
    + destruct (Hnone l (or_introl eq_refl)) as [H1 H2].
      assert (Hl' : In l (cascade_prediction rep)).
      { apply (rows_of_In ue ue_ids). rewrite E. left. reflexivity. }
      assert (Hk : In l all_labels) by exact (proj1 (Forall_forall _ _) Hrows l Hl').
      destruct (prefixed_startswith _ (known_label_prefixed _ Hk)); congruence.
Qed.

(** A UE whose Stage-1 majority is malicious has a malicious verdict. *)
Lemma stage1_malicious_verdict (self : @KpmStyle5Xapp num) (feature_data : DataFrame num)
      (rep : report) (ue : Z) :
  predict_cascaded self feature_data = Ok (Some rep) ->
  In (ue, "Malicious") (stage1_summary rep) ->
  exists v, In (ue, v) (verdicts rep) /\ startswith v "Malicious-" = true.
Proof.
  intros H Hsum.
  destruct (predict_cascaded_parts _ _ _ H) as [ue_ids [bp [Hn [Hs1 [HF [Hl Hst]]]]]].
  unfold per_ue_stage1 in Hs1. apply mapM_Ok in Hs1.
  destruct (Forall2_In_r _ _ _ _ Hs1 Hsum) as [ue' [Hue Hentry]].
  destruct (mapM (arr_index (Arr1 bp)) _) as [ps|] eqn:Eps; cbn [rbind] in Hentry;
    [|discriminate].
  destruct (most_common Z.eqb ps) as [mc|] eqn:Emc; cbn [rbind] in Hentry; [|discriminate].
  inversion Hentry as [[Hu Hlabel]]. subst ue'.
  assert (Hmc0 : mc <> 0).
  { intros ->. cbn in Hlabel. discriminate. }
  assert (Hps : ps <> []).
  { intros ->. cbn in Emc. discriminate. }
  destruct (most_common_spec Z Z.eqb Z.eqb_eq ps Hps) as [k [Hk [Hin _]]].
  rewrite Emc in Hk. inversion Hk; subst k.
  apply mapM_Ok in Eps.
  destruct (Forall2_In_r _ _ _ _ Eps Hin) as [i [Hi Harr]].
  apply rows_of_seq in Hi. destruct Hi as [_ Hi]. rewrite Nat.sub_0_r in Hi.
  cbn in Harr. apply py_index_nth in Harr.
  destruct (Forall2_combine_seq _ _ _ _ HF i mc Harr) as [label [Hlab Hrow]].
  cbn in Hrow. unfold cascade_row in Hrow.
  destruct (nth_error (feature_matrix self feature_data) i); [|discriminate].
  destruct (Z.eqb_spec mc 0) as [E|_]; [contradiction|].
  destruct (stage2 _ _ _) as [s|]; cbn [rbind] in Hrow; [|discriminate].
  inversion Hrow as [Hlabel']. subst label.
  assert (Hmine : In ("Malicious-" ++ s)%string (rows_of ue ue_ids (cascade_prediction rep))).
  { eapply rows_of_nth; eassumption. }
  assert (Hin_ue : In ue ue_ids) by (eapply nth_error_In; exact Hi).
  destruct (per_ue_status_rule ue_ids (cascade_prediction rep)) as [status [Hst' [_ Hrule]]].
  rewrite Hst in Hst'. inversion Hst'; subst status.
  destruct (Hrule ue Hin_ue) as [v [Hv [Hmal _]]].
  exists v. split; [exact Hv|].
  destruct Hmal as [chosen [-> _]].
  - eapply subtypes_of_nonempty; [exact Hmine|apply strip_prefix_self].
  - apply startswith_app.
Qed.

End Reports.

(** X3. Every row label and every verdict in a report of [predict_cascaded]
    is one of ten strings: [Benign-] followed by one of the four benign
    names, or [Malicious-] followed by one of the six attack names. *)
Theorem report_vocabulary (num : Type) (NUM : Numeric num) (SG : Sigmoid)
        (self : @KpmStyle5Xapp num) (feature_data : DataFrame num) (rep : report) :
  predict_cascaded self feature_data = Ok (Some rep) ->
  le_benign self = benign_labels ->
  le_malicious self = malicious_labels ->
  Forall (fun label => In label all_labels) (cascade_prediction rep)
  /\ Forall (fun entry => In (snd entry) all_labels) (verdicts rep).
Proof. exact (report_labels_known self feature_data rep). Qed.

Lemma report_vocabulary_witness :
  let rep := mkReport [(7, "Benign"); (8, "Benign")] ["Benign-embb"; "Benign-embb"]
                      [(7, "Benign-embb"); (8, "Benign-embb")] in
  Forall (fun label => In label all_labels) (cascade_prediction rep)
  /\ Forall (fun entry => In (snd entry) all_labels) (verdicts rep).
Proof.
  apply (report_vocabulary float Binary64.binary64 exact_sigmoid (Scenario.loaded 2) Scenario.two_features).
  - vm_compute. reflexivity.
  - reflexivity.
  - reflexivity.
Defined.

(** X4. A UE that the Stage-1 summary calls Malicious (the majority of its
    rows has a non-zero Stage-1 label) has a verdict that starts with
    [Malicious-]. *)
Theorem stage1_majority_is_kept (num : Type) (NUM : Numeric num) (SG : Sigmoid)
        (self : @KpmStyle5Xapp num) (feature_data : DataFrame num) (rep : report) (ue : Z) :
  predict_cascaded self feature_data = Ok (Some rep) ->
  In (ue, "Malicious") (stage1_summary rep) ->
  exists v, In (ue, v) (verdicts rep) /\ startswith v "Malicious-" = true.
Proof. exact (stage1_malicious_verdict self feature_data rep ue). Qed.

Lemma stage1_majority_is_kept_witness :
  exists v,
    In (7, v) [(7, "Malicious-udp_fragmentation_flood"); (8, "Malicious-udp_fragmentation_flood")]
    /\ startswith v "Malicious-" = true.
Proof.
  apply (stage1_majority_is_kept float Binary64.binary64 exact_sigmoid Scenarios.always_malicious
                                 Scenario.two_features
                                 (mkReport [(7, "Malicious"); (8, "Malicious")]
                                           ["Malicious-udp_fragmentation_flood";
                                            "Malicious-udp_fragmentation_flood"]
                                           [(7, "Malicious-udp_fragmentation_flood");
                                            (8, "Malicious-udp_fragmentation_flood")])
                                 7).
  - vm_compute. reflexivity.
  - left. reflexivity.
Defined.

(** ** Rolling windows *)

Section Windows.

Context {num : Type} {NUM : Numeric num}.

Lemma window_app (w : nat) (xs ys : list num) (i : nat) :
  (i < List.length xs)%nat -> window w (xs ++ ys) i = window w xs i.
Proof.
  intros Hi. unfold window. rewrite firstn_app.
  replace (S i - List.length xs)%nat with 0%nat by lia.
  cbn. rewrite app_nil_r. reflexivity.
Qed.

Lemma length_window (w : nat) (xs : list num) (i : nat) :
  (i < List.length xs)%nat -> List.length (window w xs i) = Nat.min (S i) w.
Proof.
  intros Hi. unfold window. rewrite length_skipn, length_firstn. lia.
Qed.

Lemma nth_window (w : nat) (xs : list num) (i j : nat) (d : num) :
  (i < List.length xs)%nat -> (j < Nat.min (S i) w)%nat ->
  nth j (window w xs i) d = nth (S i - Nat.min (S i) w + j) xs d.
Proof.
  intros Hi Hj. unfold window.
  rewrite nth_skipn.
  replace (S i - w + j)%nat with (S i - Nat.min (S i) w + j)%nat by lia.
  rewrite nth_firstn.
  destruct (Nat.ltb_spec (S i - Nat.min (S i) w + j) (S i)); [reflexivity|lia].
Qed.

End Windows.

(** X5. The rolling statistics are causal: the window of row [i] holds the
    row itself and at most the four rows before it, in their order, so the
    mean and the standard deviation of a row do not change when later
    records of the group arrive. *)
Theorem rolling_is_causal (num : Type) (NUM : Numeric num)
        (xs later : list num) (i : nat) :
  (i < List.length xs)%nat ->
  List.length (window window_size xs i) = Nat.min (S i) 5
  /\ (forall j d, (j < Nat.min (S i) 5)%nat ->
                  nth j (window window_size xs i) d = nth (S i - Nat.min (S i) 5 + j) xs d)
  /\ mean_of (window window_size (xs ++ later) i) = mean_of (window window_size xs i)
  /\ std_of (window window_size (xs ++ later) i) = std_of (window window_size xs i).
Proof.
  intros Hi. split; [|split; [|split]].
  - apply length_window. exact Hi.
  - intros j d Hj. apply nth_window; assumption.
  - rewrite window_app by exact Hi. reflexivity.
  - rewrite window_app by exact Hi. reflexivity.
Qed.

Lemma rolling_is_causal_witness :
  let xs := [1%float; 2%float; 3%float; 4%float; 5%float; 6%float] in
  List.length (window window_size xs 5) = Nat.min 6 5
  /\ (forall j d, (j < Nat.min 6 5)%nat ->
                  nth j (window window_size xs 5) d = nth (6 - Nat.min 6 5 + j) xs d)
  /\ mean_of (window window_size (xs ++ [100%float]) 5) = mean_of (window window_size xs 5)
  /\ std_of (window window_size (xs ++ [100%float]) 5) = std_of (window window_size xs 5).
Proof.
  apply (rolling_is_causal float Binary64.binary64
                           [1%float; 2%float; 3%float; 4%float; 5%float; 6%float]
                           [100%float] 5).
  cbn. lia.
Defined.

(** ** Rolling statistics in exact arithmetic *)

Lemma observations_defined (lo hi : R) (win : list Exact.xnum) :
  Forall (between lo hi) win -> observations win = win.
Proof.
  intros H. unfold observations. induction H as [|v win [x [-> _]] _ IH]; cbn;
    [reflexivity|]. f_equal. exact IH.
Qed.

Lemma fold_add_between (lo hi : R) (win : list Exact.xnum) :
  Forall (between lo hi) win ->
  forall acc : R,
  exists s, fold_left add win (Some acc) = Some s
            /\ (acc + INR (List.length win) * lo <= s
                <= acc + INR (List.length win) * hi)%R.
Proof.
  intros H. induction H as [|v win [x [-> Hx]] _ IH]; intros acc.
  - exists acc. split; [reflexivity|]. cbn. lra.
  - destruct (IH (acc + x)%R) as [s [Hs Hb]].
    exists s. split; [exact Hs|].
    change (List.length (Some x :: win)) with (S (List.length win)).
    rewrite S_INR. lra.
Qed.

Lemma fold_add_nonneg (l : list Exact.xnum) :
  Forall nonneg l ->
  forall acc : R, (0 <= acc)%R ->
  exists s, fold_left add l (Some acc) = Some s /\ (0 <= s)%R.
Proof.
  intros H. induction H as [|v l [x [-> Hx]] _ IH]; intros acc Hacc.
  - exists acc. split; [reflexivity|exact Hacc].
  - apply (IH (acc + x)%R). lra.
Qed.

Lemma of_nat_exact (n : nat) : @of_nat Exact.xnum Exact.exact n = Some (INR n).
Proof. unfold of_nat. cbn. rewrite <- INR_IZR_INZ. reflexivity. Qed.

Lemma mean_between (lo hi : R) (win : list Exact.xnum) :
  win <> [] -> Forall (between lo hi) win -> between lo hi (mean_of win).
Proof.
  intros Hne H. unfold mean_of. rewrite (observations_defined lo hi win H).
  destruct win as [|v win']; [contradiction|].
  set (win := v :: win') in *.
  assert (Hn : (0 < INR (List.length win))%R) by (apply lt_0_INR; cbn; lia).
  replace ((min_periods <=? List.length win)%nat && (0 <? List.length win)%nat)
    with true by reflexivity.
  unfold total. destruct (fold_add_between lo hi win H 0) as [s [Hs Hb]].
  change (@zero Exact.xnum Exact.exact) with (Some 0%R). rewrite Hs, of_nat_exact.
  cbv beta iota delta [div Exact.exact Exact.x_div].
  destruct (Req_dec_T (INR (List.length win)) 0) as [E|_]; [lra|].
  eexists. split; [reflexivity|].
  rewrite !Rplus_0_l in Hb. destruct Hb as [Hlo Hhi].
  split.
  - apply Rmult_le_reg_r with (INR (List.length win)); [exact Hn|].
    unfold Rdiv. rewrite Rmult_assoc, Rinv_l by lra. lra.
  - apply Rmult_le_reg_r with (INR (List.length win)); [exact Hn|].
    unfold Rdiv. rewrite Rmult_assoc, Rinv_l by lra. lra.
Qed.

Lemma std_nonneg (lo hi : R) (win : list Exact.xnum) :
  (2 <= List.length win)%nat -> Forall (between lo hi) win ->
  nonneg (std_of win) /\ (lo = hi -> std_of win = Some 0%R).
Proof.
  intros Hlen H. unfold std_of. rewrite (observations_defined lo hi win H).
  replace ((min_periods <=? List.length win)%nat && (ddof <? List.length win)%nat)
    with true
    by (symmetry; apply andb_true_intro; split;
        [apply Nat.leb_le|apply Nat.ltb_lt]; unfold min_periods, ddof; lia).
  assert (Hm : between lo hi (div (total win) (of_nat (List.length win)))).
  { assert (Hne : win <> []) by (intros ->; cbn in Hlen; lia).
    pose proof (mean_between lo hi win Hne H) as Hmean.
    unfold mean_of in Hmean. rewrite (observations_defined lo hi win H) in Hmean.
    destruct win as [|v win']; [contradiction|]. exact Hmean. }
  destruct Hm as [m [Hm Hmb]]. cbv zeta. rewrite Hm.
  set (sq := map (fun x : Exact.xnum => mul (sub x (Some m)) (sub x (Some m))) win).
  assert (Hsq : Forall nonneg sq).
  { subst sq. clear - H. induction H as [|v win [x [-> _]] _ IH]; cbn; constructor;
      [|exact IH].
    eexists. split; [reflexivity|]. apply Rle_0_sqr. }
  assert (Hd : (0 < INR (List.length win - ddof))%R)
    by (apply lt_0_INR; unfold ddof; lia).
  split.
  - unfold total. change (@zero Exact.xnum Exact.exact) with (Some 0%R).
    destruct (fold_add_nonneg sq Hsq 0 (Rle_refl 0)) as [s [Hs Hs0]].
    rewrite Hs, of_nat_exact.
    cbv beta iota delta [div sqrtn Exact.exact Exact.x_div Exact.x_sqrt].
    destruct (Req_dec_T (INR (List.length win - ddof)) 0) as [E|_]; [lra|].
    assert (Hq : (0 <= s / INR (List.length win - ddof))%R).
    { apply Rmult_le_pos; [exact Hs0|]. left. apply Rinv_0_lt_compat. exact Hd. }
    destruct (Rlt_dec (s / INR (List.length win - ddof)) 0) as [E|_]; [lra|].
    eexists. split; [reflexivity|]. apply sqrt_pos.
  - intros ->.
    assert (Hz : Forall (between 0 0) sq).
    { subst sq. clear - H Hmb. induction H as [|v win [x [-> Hx]] _ IH]; cbn; constructor;
        [|exact IH].
      eexists. split; [reflexivity|].
      replace x with hi by lra. replace m with hi by lra. lra. }
    unfold total. change (@zero Exact.xnum Exact.exact) with (Some 0%R).
    destruct (fold_add_between 0 0 sq Hz 0) as [s [Hs Hb]].
    rewrite Hs, of_nat_exact.
    cbv beta iota delta [div sqrtn Exact.exact Exact.x_div Exact.x_sqrt].
    destruct (Req_dec_T (INR (List.length win - ddof)) 0) as [E|_]; [lra|].
    assert (Hs0 : s = 0%R) by lra. subst s.
    unfold Rdiv. rewrite Rmult_0_l.
    destruct (Rlt_dec 0 0) as [E|_]; [lra|].
    rewrite sqrt_0. reflexivity.
Qed.

(** X6. In exact arithmetic the rolling mean of a window of numbers lies
    between the smallest and the largest of them. *)
Theorem rolling_mean_within_bounds (lo hi : R) (win : list Exact.xnum) :
  win <> [] -> Forall (between lo hi) win -> between lo hi (mean_of win).
Proof. exact (mean_between lo hi win). Qed.

Lemma rolling_mean_within_bounds_witness :
  between 1 3 (mean_of [Some 1%R; Some 3%R; Some 2%R]).
Proof.
  apply (rolling_mean_within_bounds 1 3 [Some 1%R; Some 3%R; Some 2%R]).
  - discriminate.
  - repeat constructor; eexists; (split; [reflexivity|lra]).
Defined.

(** X7. In exact arithmetic the rolling standard deviation of a window of
    two or more numbers is a number and not negative, and it is zero when
    the numbers are all equal. *)
Theorem rolling_std_defined (lo hi : R) (win : list Exact.xnum) :
  (2 <= List.length win)%nat -> Forall (between lo hi) win ->
  nonneg (std_of win) /\ (lo = hi -> std_of win = Some 0%R).
Proof. exact (std_nonneg lo hi win). Qed.

Lemma rolling_std_defined_witness :
  nonneg (std_of [Some 2%R; Some 2%R; Some 2%R])
  /\ (2%R = 2%R -> std_of [Some 2%R; Some 2%R; Some 2%R] = Some 0%R).
Proof.
  apply (rolling_std_defined 2 2 [Some 2%R; Some 2%R; Some 2%R]).
  - cbn. lia.
  - repeat constructor; eexists; (split; [reflexivity|lra]).
Defined.

(** ** The utilisation ratios *)

Lemma guarded_ratio_below_one (used avail : list Exact.xnum) :
  Forall2 (fun u a => exists x y, u = Some x /\ a = Some y /\ (0 <= x <= y)%R) used avail ->
  Forall (fun r => exists q, r = Some q /\ (0 <= q < 1)%R) (guarded_ratio used avail).
Proof.
  intros H. unfold guarded_ratio, map2.
  induction H as [|u a used avail [x [y [-> [-> Hxy]]]] _ IH]; cbn; constructor;
    [|exact IH].
  destruct (Req_dec_T (y + 1 / 100000) 0) as [E|_]; [lra|].
  eexists. split; [reflexivity|].
  assert (Hd : (0 < y + 1 / 100000)%R) by lra.
  split.
  - apply Rmult_le_pos; [lra|]. left. apply Rinv_0_lt_compat. exact Hd.
  - apply Rmult_lt_reg_r with (y + 1 / 100000)%R; [exact Hd|].
    unfold Rdiv at 1. rewrite Rmult_assoc, Rinv_l by lra. lra.
Qed.

(** X8. In exact arithmetic a utilisation ratio is a number in [0, 1)
    whenever the used resource blocks are between zero and the available
    ones: with nothing available the quotient is 0, never a division by
    zero, and a full cell stays below 1. *)
Theorem utilisation_below_one (used avail : list Exact.xnum) :
  Forall2 (fun u a => exists x y, u = Some x /\ a = Some y /\ (0 <= x <= y)%R) used avail ->
  Forall (fun r => exists q, r = Some q /\ (0 <= q < 1)%R) (guarded_ratio used avail).
Proof. exact (guarded_ratio_below_one used avail). Qed.

Lemma utilisation_below_one_witness :
  Forall (fun r => exists q, r = Some q /\ (0 <= q < 1)%R)
         (guarded_ratio [Some 0%R; Some 50%R] [Some 0%R; Some 50%R]).
Proof.
  apply (utilisation_below_one [Some 0%R; Some 50%R] [Some 0%R; Some 50%R]).
  repeat constructor; do 2 eexists; (split; [reflexivity|split; [reflexivity|lra]]).
Defined.

(** ** Delay jitter *)

Section Jitter.

Context {num : Type} {NUM : Numeric num}.

Lemma group_diff_nth (kvs : list (list (cell num) * num)) :
  forall seen i k v,
    nth_error kvs i = Some (k, v) ->
    nth_error (group_diff seen kvs) i
    = Some match last_seen k (rev (firstn i kvs) ++ seen) with
           | Some p => sub v p
           | None => nan
           end.
Proof.
  induction kvs as [|[k0 v0] rest IH]; intros seen i k v Hi.
  - destruct i; discriminate.
  - destruct i as [|i]; cbn in Hi.
    + inversion Hi; subst. reflexivity.
    + cbn [group_diff nth_error]. rewrite (IH _ _ _ _ Hi).
      cbn [firstn rev]. rewrite <- app_assoc. reflexivity.
Qed.

Lemma last_seen_none (k : list (cell num)) (l : list (list (cell num) * num)) :
  (forall k' v', In (k', v') l -> key_eqb k' k = false) -> last_seen k l = None.
Proof.
  induction l as [|[k' v'] l IH]; intros H; [reflexivity|].
  cbn. rewrite (H k' v' (or_introl eq_refl)). apply IH.
  intros k2 v2 Hin. apply (H k2 v2). right. exact Hin.
Qed.

Lemma last_seen_skip (k k' : list (cell num)) (p : num)
      (l1 l2 : list (list (cell num) * num)) :
  (forall k2 v2, In (k2, v2) l1 -> key_eqb k2 k = false) ->
  key_eqb k' k = true ->
  last_seen k (l1 ++ (k', p) :: l2) = Some p.
Proof.
  induction l1 as [|[k1 v1] l1 IH]; intros H Hk; cbn.
  - rewrite Hk. reflexivity.
  - rewrite (H k1 v1 (or_introl eq_refl)). apply IH; [|exact Hk].
    intros k2 v2 Hin. apply (H k2 v2). right. exact Hin.
Qed.

Lemma In_firstn {A : Type} (l : list A) (n : nat) (y : A) :
  In y (firstn n l) -> exists m, (m < n)%nat /\ nth_error l m = Some y.
Proof.
  revert n. induction l as [|a l IH]; intros n H.
  - rewrite firstn_nil in H. destruct H.
  - destruct n as [|n]; [destruct H|]. cbn in H. destruct H as [<-|H].
    + exists 0%nat. split; [lia|reflexivity].
    + destruct (IH n H) as [m [Hm Hy]]. exists (S m). split; [lia|exact Hy].
Qed.

Lemma firstn_split {A : Type} (l : list A) :
  forall j i x,
    nth_error l j = Some x -> (j < i)%nat ->
    exists l2, firstn i l = firstn j l ++ x :: l2
               /\ forall y, In y l2 ->
                            exists m, (j < m < i)%nat /\ nth_error l m = Some y.
Proof.
  induction l as [|a l IH]; intros j i x Hj Hji.
  - destruct j; discriminate.
  - destruct i as [|i]; [lia|]. destruct j as [|j]; cbn in Hj.
    + inversion Hj; subst. exists (firstn i l). split; [reflexivity|].
      intros y Hy. destruct (In_firstn _ _ _ Hy) as [m [Hm Hn]].
      exists (S m). split; [lia|exact Hn].
    + destruct (IH j i x Hj) as [l2 [Hl2 Hin]]; [lia|].
      exists l2. split; [cbn; rewrite Hl2; reflexivity|].
      intros y Hy. destruct (Hin y Hy) as [m [Hm Hn]].
      exists (S m). split; [lia|exact Hn].
Qed.

Lemma nth_error_combine {A B : Type} (a : list A) (b : list B) (i : nat) (x : A) (y : B) :
  nth_error (combine a b) i = Some (x, y)
  <-> nth_error a i = Some x /\ nth_error b i = Some y.
Proof.
  revert b i. induction a as [|a0 a IH]; intros b i.
  - destruct i; cbn; split; [discriminate|intros [H _]; discriminate
                            |discriminate|intros [H _]; discriminate].
  - destruct b as [|b0 b].
    + destruct i; cbn; split; try discriminate; intros [_ H]; discriminate.
    + destruct i as [|i]; cbn.
      * split; [intros H; inversion H; auto|intros [H1 H2]; congruence].
      * apply IH.
Qed.

Lemma jitter_follows_rule (keys : list (list (cell num))) (delays : list num) :
  jitter_rule keys delays
              (map (fillna_num zero) (group_diff [] (combine keys delays))).
Proof.
  intros i k v Hk Hv.
  assert (Hkv : nth_error (combine keys delays) i = Some (k, v))
    by (apply nth_error_combine; auto).
  rewrite nth_error_map, (group_diff_nth _ [] i k v Hkv), app_nil_r. cbn [option_map].
  split.
  - intros Hfirst. rewrite last_seen_none.
    + unfold fillna_num. rewrite isnan_nan. reflexivity.
    + intros k' v' Hin. apply in_rev in Hin.
      destruct (In_firstn _ _ _ Hin) as [m [Hm Hn]].
      apply nth_error_combine in Hn. destruct Hn as [Hn _].
      exact (Hfirst m k' Hm Hn).
  - intros j k' p Hji Hk' Hp Heq Hbetween.
    assert (Hj : nth_error (combine keys delays) j = Some (k', p))
      by (apply nth_error_combine; auto).
    destruct (firstn_split _ j i _ Hj Hji) as [l2 [-> Hl2]].
    rewrite rev_app_distr. cbn [rev]. rewrite <- app_assoc. cbn [app].
    rewrite last_seen_skip; [reflexivity| |exact Heq].
    intros k2 v2 Hin. apply in_rev in Hin.
    destruct (Hl2 _ Hin) as [m [Hm Hn]].
    apply nth_error_combine in Hn. destruct Hn as [Hn _].
    exact (Hbetween m k2 Hm Hn).
Qed.

Lemma derive_features_jitter (df : DataFrame num)
      (feats : list (string * list (cell num))) :
  derive_features df = Ok feats ->
  exists keys dl ul jitter_dl jitter_ul,
    row_keys df ["E2AgentID"; "UE_ID"] = Ok keys
    /\ numcol df "DRB.RlcSduDelayDl" = Ok dl
    /\ numcol df "DRB.RlcDelayUl" = Ok ul
    /\ In ("DelayJitterDl", nums jitter_dl) feats
    /\ In ("DelayJitterUl", nums jitter_ul) feats
    /\ jitter_rule keys dl jitter_dl
    /\ jitter_rule keys ul jitter_ul.
Proof.
  intros H. unfold derive_features in H.
  repeat match type of H with
         | rbind ?c _ = Ok _ =>
             let E := fresh "E" in
             destruct c eqn:E; cbn [rbind] in H; [|discriminate]
         end.
  inversion H as [Hf]. clear H Hf.
  do 5 eexists.
  split; [reflexivity|]. split; [reflexivity|]. split; [reflexivity|].
  split; [repeat (first [left; reflexivity | right])|].
  split; [repeat (first [left; reflexivity | right])|].
  split; apply jitter_follows_rule.
Qed.

End Jitter.

(** X9. The two jitter features follow the (E2AgentID, UE_ID) groups: on the
    first row of a group the jitter is 0, on every other row it is the
    row's delay minus the delay of the previous row of the same group
    (0 when that difference is NaN). *)
Theorem delay_jitter_rule (num : Type) (NUM : Numeric num) (df : DataFrame num)
        (feats : list (string * list (cell num))) :
  derive_features df = Ok feats ->
  exists keys dl ul jitter_dl jitter_ul,
    row_keys df ["E2AgentID"; "UE_ID"] = Ok keys
    /\ numcol df "DRB.RlcSduDelayDl" = Ok dl
    /\ numcol df "DRB.RlcDelayUl" = Ok ul
    /\ In ("DelayJitterDl", nums jitter_dl) feats
    /\ In ("DelayJitterUl", nums jitter_ul) feats
    /\ jitter_rule keys dl jitter_dl
    /\ jitter_rule keys ul jitter_ul.
Proof. exact (derive_features_jitter df feats). Qed.

Lemma delay_jitter_rule_witness :
  exists keys dl ul jitter_dl jitter_ul,
    row_keys Scenario.exact_frame ["E2AgentID"; "UE_ID"] = Ok keys
    /\ numcol Scenario.exact_frame "DRB.RlcSduDelayDl" = Ok dl
    /\ numcol Scenario.exact_frame "DRB.RlcDelayUl" = Ok ul
    /\ In ("DelayJitterDl", nums jitter_dl) Scenario.exact_features
    /\ In ("DelayJitterUl", nums jitter_ul) Scenario.exact_features
    /\ jitter_rule keys dl jitter_dl
    /\ jitter_rule keys ul jitter_ul.
Proof.
  apply (delay_jitter_rule Exact.xnum Exact.exact Scenario.exact_frame
                           Scenario.exact_features).
  reflexivity.
Defined.

(** ** Sorting *)

Section Sorted.

Context {num : Type} {NUM : Numeric num}.

Lemma insert_sorted_perm {A : Type} (lt : A -> A -> bool) (x : A) (l : list A) :
  Permutation (x :: l) (insert_sorted lt x l).
Proof.
  induction l as [|y l IH]; cbn; [apply Permutation_refl|].
  destruct (lt y x); [|apply Permutation_refl].
  eapply Permutation_trans; [apply perm_swap|]. apply perm_skip. exact IH.
Qed.

Lemma sort_stable_perm {A : Type} (lt : A -> A -> bool) (l : list A) :
  Permutation l (sort_stable lt l).
Proof.
  unfold sort_stable. induction l as [|x l IH]; cbn; [constructor|].
  eapply Permutation_trans; [|apply insert_sorted_perm].
  apply perm_skip. exact IH.
Qed.

Lemma map_snd_combine_map {A B : Type} (f : A -> B) (l : list A) :
  map snd (combine (map f l) l) = l.
Proof. induction l as [|x l IH]; cbn; [reflexivity|rewrite IH; reflexivity]. Qed.

Lemma sort_values_perm (df sorted : DataFrame num) (by_ : list string) :
  sort_values df by_ = Ok sorted ->
  columns sorted = columns df /\ Permutation (rows df) (rows sorted).
Proof.
  unfold sort_values, row_keys. intros H.
  destruct (mapM (column_index df) by_) as [idx|]; cbn [rbind] in H; [|discriminate].
  inversion H. cbn. split; [reflexivity|].
  eapply Permutation_trans; [|apply Permutation_map; apply sort_stable_perm].
  rewrite map_snd_combine_map. apply Permutation_refl.
Qed.

End Sorted.

(** X10. [sort_values] loses and invents no record: the sorted frame has the
    columns of the input and its rows are a permutation of the input's
    rows. *)
Theorem sort_values_permutes (num : Type) (NUM : Numeric num)
        (df sorted : DataFrame num) (by_ : list string) :
  sort_values df by_ = Ok sorted ->
  columns sorted = columns df /\ Permutation (rows df) (rows sorted).
Proof. exact (sort_values_perm df sorted by_). Qed.

Lemma sort_values_permutes_witness :
  let df := from_records (rev Scenario.two_records) in
  let sorted := mkDF (columns df) (rev (rows df)) in
  columns sorted = columns df /\ Permutation (rows df) (rows sorted).
Proof.
  apply (sort_values_permutes float Binary64.binary64
                              (from_records (rev Scenario.two_records))
                              (mkDF (columns (from_records (rev Scenario.two_records)))
                                    (rev (rows (from_records (rev Scenario.two_records)))))
                              ["UE_ID"]).
  vm_compute. reflexivity.
Defined.

(** ** Frames: building and assigning columns *)

Section FrameFacts.

Context {num : Type} {NUM : Numeric num}.

Lemma index_of_nth (c : string) (cols : list string) (i : nat) :
  index_of c cols = Some i -> nth_error cols i = Some c.
Proof.
  revert i. induction cols as [|c' cols IH]; intros i H; [discriminate|].
  cbn in H. destruct (String.eqb_spec c' c) as [->|Hne].
  - inversion H. reflexivity.
  - destruct (index_of c cols) as [j|]; [|discriminate].
    inversion H. cbn. apply IH. reflexivity.
Qed.

Lemma index_of_None (c : string) (cols : list string) :
  index_of c cols = None <-> ~ In c cols.
Proof.
  induction cols as [|c' cols IH]; cbn.
  - split; [intros _ []|reflexivity].
  - destruct (String.eqb_spec c' c) as [->|Hne].
    + split; [discriminate|intros H; exfalso; apply H; left; reflexivity].
    + destruct (index_of c cols) as [j|]; cbn.
      * split; [discriminate|]. intros H. exfalso.
        assert (Hn : ~ In c cols) by (intros Hin; apply H; right; exact Hin).
        apply IH in Hn. discriminate.
      * split; [|reflexivity]. intros _ [E|Hin]; [contradiction|].
        apply (proj1 IH); [reflexivity|exact Hin].
Qed.

Lemma existsb_eqb_In (c : string) (l : list string) :
  existsb (String.eqb c) l = true <-> In c l.
Proof.
  rewrite existsb_exists. split.
  - intros [x [Hin Hx]]. apply String.eqb_eq in Hx. subst. exact Hin.
  - intros Hin. exists c. split; [exact Hin|apply String.eqb_refl].
Qed.

Lemma add_new_In (ks seen : list string) (c : string) :
  In c (add_new seen ks) <-> In c seen \/ In c ks.
Proof.
  revert seen. induction ks as [|k ks IH]; intros seen; cbn.
  - tauto.
  - destruct (existsb (String.eqb k) seen) eqn:E.
    + rewrite IH. apply existsb_eqb_In in E. split; [tauto|].
      intros [H|[<-|H]]; auto.
    + rewrite IH, in_app_iff. cbn. tauto.
Qed.

Lemma columns_from_records_In (buf : list (row_dict num)) (c : string) :
  In c (columns (from_records buf)) <-> exists d, In d buf /\ In c (map fst d).
Proof.
  unfold from_records. cbn [columns].
  assert (G : forall seen,
             In c (fold_left (fun seen d => add_new seen (map fst d)) buf seen)
             <-> In c seen \/ exists d, In d buf /\ In c (map fst d)).
  { induction buf as [|d buf IH]; intros seen; cbn.
    - split; [auto|]. intros [H|[d [[] _]]]. exact H.
    - rewrite IH, add_new_In. split.
      + intros [[H|H]|[d' [H1 H2]]]; eauto.
      + intros [H|[d' [[<-|H1] H2]]]; eauto. }
  rewrite G. cbn. split; [intros [[]|H]; exact H|auto].
Qed.

Lemma existsb_keys_In (buf : list (row_dict num)) (c : string) :
  existsb (fun d => existsb (String.eqb c) (map fst d)) buf = true
  <-> exists d, In d buf /\ In c (map fst d).
Proof.
  rewrite existsb_exists. split; intros [d [H1 H2]]; exists d; split; auto;
    apply existsb_eqb_In; exact H2.
Qed.

Lemma from_records_lookup (buf : list (row_dict num)) (c : string) :
  getitem (from_records buf) c
  = if existsb (fun d => existsb (String.eqb c) (map fst d)) buf
    then Ok (map (fun d => match dict_get d c with
                           | Some v => v
                           | None => NA
                           end) buf)
    else Raise (KeyError c).
Proof.
  unfold getitem.
  destruct (index_of c (columns (from_records buf))) as [i|] eqn:Ei.
  - pose proof (index_of_nth _ _ _ Ei) as Hn.
    assert (Hin : In c (columns (from_records buf))) by (eapply nth_error_In; exact Hn).
    apply columns_from_records_In, existsb_keys_In in Hin. rewrite Hin.
    f_equal. unfold from_records in *. cbn [rows columns] in *.
    rewrite map_map. apply map_ext. intros d.
    set (f := fun c0 => match dict_get d c0 with Some v => v | None => NA end).
    change (nth i (map f (fold_left (fun seen d0 => add_new seen (map fst d0)) buf [])) NA
            = f c).
    apply nth_error_nth. rewrite nth_error_map, Hn. reflexivity.
  - destruct (existsb (fun d => existsb (String.eqb c) (map fst d)) buf) eqn:E;
      [|reflexivity].
    apply existsb_keys_In, columns_from_records_In in E.
    apply index_of_None in Ei. contradiction.
Qed.

Lemma index_of_lt (c : string) (cols : list string) (i : nat) :
  index_of c cols = Some i -> (i < List.length cols)%nat.
Proof.
  intros H. apply index_of_nth in H. apply nth_error_Some. congruence.
Qed.

Lemma nth_set_nth_same (i : nat) (v : cell num) (r : list (cell num)) (d : cell num) :
  (i < List.length r)%nat -> nth i (set_nth i v r) d = v.
Proof.
  revert r. induction i as [|i IH]; intros [|x r] H; cbn in *; try lia; [reflexivity|].
  apply IH. lia.
Qed.

Lemma nth_set_nth_other (i j : nat) (v : cell num) (r : list (cell num)) (d : cell num) :
  i <> j -> nth j (set_nth i v r) d = nth j r d.
Proof.
  revert r j. induction i as [|i IH]; intros [|x r] j H; cbn; try reflexivity.
  - destruct j; [contradiction|reflexivity].
  - destruct j; [reflexivity|]. apply IH. lia.
Qed.

Lemma index_of_app_new (c c' : string) (cols : list string) :
  index_of c cols = None ->
  index_of c' (cols ++ [c])
  = if String.eqb c c' then Some (List.length cols) else index_of c' cols.
Proof.
  intros Hc. induction cols as [|x cols IH]; cbn.
  - destruct (String.eqb c c'); reflexivity.
  - cbn in Hc. destruct (String.eqb_spec x c) as [->|Hxc]; [discriminate|].
    destruct (index_of c cols) as [j|]; [discriminate|].
    specialize (IH eq_refl).
    destruct (String.eqb_spec x c') as [->|Hxc'].
    + destruct (String.eqb_spec c c') as [E|_]; [congruence|reflexivity].
    + rewrite IH. destruct (String.eqb c c'); reflexivity.
Qed.

Lemma setitem_lookup (df : DataFrame num) (c : string) (values : list (cell num)) :
  well_formed df ->
  List.length values = List.length (rows df) ->
  getitem (setitem df c values) c = Ok values
  /\ (forall c', c' <> c -> getitem (setitem df c values) c' = getitem df c')
  /\ well_formed (setitem df c values).
Proof.
  unfold well_formed. destruct df as [cols rs]. cbn [columns rows].
  intros Hwf Hlen. unfold setitem, getitem. cbn [columns rows].
  destruct (index_of c cols) as [i|] eqn:Ei; cbn [columns rows].
  - rewrite Ei. pose proof (index_of_lt _ _ _ Ei) as Hi.
    split; [|split].
    + f_equal. rewrite map_map. cbn.
      revert values Hlen. induction Hwf as [|r rs Hr _ IH]; intros [|v values] Hlen;
        cbn in *; try discriminate; [reflexivity|].
      rewrite nth_set_nth_same by lia. f_equal. apply IH. lia.
    + intros c' Hne. destruct (index_of c' cols) as [i'|] eqn:Ei'; [|reflexivity].
      assert (Hii : i <> i').
      { intros ->. apply index_of_nth in Ei, Ei'. congruence. }
      f_equal. rewrite map_map. cbn.
      revert values Hlen. clear Hwf. induction rs as [|r rs IH]; intros [|v values] Hlen;
        cbn in *; try discriminate; [reflexivity|].
      rewrite nth_set_nth_other by exact Hii. f_equal. apply IH. lia.
    + revert values Hlen. induction Hwf as [|r rs Hr _ IH]; intros [|v values] Hlen;
        cbn in *; try discriminate; constructor.
      * rewrite <- Hr. clear. revert i. induction r as [|x r IH]; intros [|i]; cbn;
          try reflexivity. rewrite IH. reflexivity.
      * apply IH. lia.
  - split; [|split].
    + rewrite (index_of_app_new c c cols Ei), String.eqb_refl.
      f_equal. rewrite map_map. cbn.
      revert values Hlen. induction Hwf as [|r rs Hr _ IH]; intros [|v values] Hlen;
        cbn in *; try discriminate; [reflexivity|].
      rewrite app_nth2 by lia. rewrite Hr, Nat.sub_diag. cbn. f_equal. apply IH. lia.
    + intros c' Hne. rewrite (index_of_app_new c c' cols Ei).
      destruct (String.eqb_spec c c') as [E|_]; [congruence|].
      destruct (index_of c' cols) as [i'|] eqn:Ei'; [|reflexivity].
      pose proof (index_of_lt _ _ _ Ei') as Hi'.
      f_equal. rewrite map_map. cbn.
      revert values Hlen. induction Hwf as [|r rs Hr _ IH]; intros [|v values] Hlen;
        cbn in *; try discriminate; [reflexivity|].
      rewrite app_nth1 by lia. f_equal. apply IH. lia.
    + revert values Hlen. induction Hwf as [|r rs Hr _ IH]; intros [|v values] Hlen;
        cbn in *; try discriminate; constructor.
      * rewrite !length_app. cbn. lia.
      * apply IH. lia.
Qed.

Lemma from_records_well_formed (buf : list (row_dict num)) : well_formed (from_records buf).
Proof.
  unfold well_formed, from_records. cbn [columns rows].
  apply Forall_forall. intros r Hr. apply in_map_iff in Hr.
  destruct Hr as [d [<- _]]. apply length_map.
Qed.

End FrameFacts.

(** X11. Reading a column of [pd.DataFrame(records)]: when some record has
    the key, the column holds every record's value for it in buffer order,
    NaN where a record lacks the key; when no record has it, the lookup
    raises [KeyError], which is what happens for every column of an empty
    buffer. *)
Theorem from_records_getitem (num : Type) (NUM : Numeric num)
        (buf : list (row_dict num)) (c : string) :
  getitem (from_records buf) c
  = if existsb (fun d => existsb (String.eqb c) (map fst d)) buf
    then Ok (map (fun d => match dict_get d c with
                           | Some v => v
                           | None => NA
                           end) buf)
    else Raise (KeyError c).
Proof. exact (from_records_lookup buf c). Qed.

(** X12. Assigning a column and reading it back: on a frame whose rows have
    one cell per column, [df[c] = values] followed by [df[c]] gives
    [values], every other column reads as before, and the frame still has
    one cell per column in every row; this holds for a new column as for an
    existing one. *)
Theorem setitem_getitem (num : Type) (NUM : Numeric num)
        (df : DataFrame num) (c : string) (values : list (cell num)) :
  well_formed df ->
  List.length values = List.length (rows df) ->
  getitem (setitem df c values) c = Ok values
  /\ (forall c', c' <> c -> getitem (setitem df c values) c' = getitem df c')
  /\ well_formed (setitem df c values).
Proof. exact (setitem_lookup df c values). Qed.

Lemma setitem_getitem_witness :
  let df := from_records Scenario.two_records in
  let values := [Num 5%float; Num 6%float] in
  getitem (setitem df "CQI" values) "CQI" = Ok values
  /\ (forall c', c' <> "CQI" -> getitem (setitem df "CQI" values) c' = getitem df c')
  /\ well_formed (setitem df "CQI" values).
Proof.
  apply (setitem_getitem float Binary64.binary64 (from_records Scenario.two_records)
                         "CQI" [Num 5%float; Num 6%float]).
  - apply from_records_well_formed.
  - reflexivity.
Defined.

(** ** The command line *)

Lemma split_nonempty (sep : ascii) (s : string) : split sep s <> [].
Proof.
  destruct s as [|c s]; cbn; [discriminate|].
  destruct (Ascii.eqb c sep); [discriminate|].
  destruct (split sep s); discriminate.
Qed.

Lemma concat_split (sep : ascii) (s : string) :
  String.concat (String sep "") (split sep s) = s.
Proof.
  induction s as [|c s IH]; [reflexivity|].
  cbn [split]. destruct (Ascii.eqb_spec c sep) as [->|Hne].
  - pose proof (split_nonempty sep s) as Hs.
    cbn [String.concat]. destruct (split sep s) as [|p r]; [contradiction|].
    cbn. cbn in IH. rewrite IH. reflexivity.
  - pose proof (split_nonempty sep s) as Hs.
    destruct (split sep s) as [|p r]; [contradiction|].
    destruct r as [|q r]; cbn in *; rewrite IH; reflexivity.
Qed.

Lemma split_single (sep c : ascii) (p : string) :
  split sep (String c p) = [String c p] -> c <> sep /\ split sep p = [p].
Proof.
  cbn [split]. destruct (Ascii.eqb_spec c sep) as [->|Hne].
  - intros H. inversion H.
  - intros H. split; [exact Hne|].
    destruct (split sep p) as [|q r] eqn:E; [exfalso; exact (split_nonempty _ _ E)|].
    inversion H. reflexivity.
Qed.

Lemma split_pieces (sep : ascii) (s p : string) :
  In p (split sep s) -> split sep p = [p].
Proof.
  revert p. induction s as [|c s IH]; intros p Hin.
  - destruct Hin as [<-|[]]. reflexivity.
  - cbn [split] in Hin. destruct (Ascii.eqb_spec c sep) as [->|Hne].
    + destruct Hin as [<-|Hin]; [reflexivity|apply IH; exact Hin].
    + destruct (split sep s) as [|q r] eqn:E.
      * exfalso. exact (split_nonempty sep s E).
      * destruct Hin as [<-|Hin].
        -- cbn [split]. destruct (Ascii.eqb_spec c sep) as [E'|_]; [contradiction|].
           rewrite (IH q (or_introl eq_refl)). reflexivity.
        -- apply IH. right. exact Hin.
Qed.

Lemma split_app (sep : ascii) (p s : string) :
  split sep p = [p] ->
  split sep (p ++ String sep s) = p :: split sep s.
Proof.
  induction p as [|c p IH]; intros Hp.
  - cbn. rewrite Ascii.eqb_refl. reflexivity.
  - apply split_single in Hp. destruct Hp as [Hne Hp].
    cbn [append split]. destruct (Ascii.eqb_spec c sep) as [E|_]; [contradiction|].
    rewrite (IH Hp). reflexivity.
Qed.

Lemma split_concat (sep : ascii) (l : list string) :
  l <> [] ->
  (forall p, In p l -> split sep p = [p]) ->
  split sep (String.concat (String sep "") l) = l.
Proof.
  induction l as [|p l IH]; intros Hne Hl; [contradiction|].
  destruct l as [|q l].
  - cbn. apply Hl. left. reflexivity.
  - cbn [String.concat]. change (String sep "" ++ ?x)%string with (String sep x).
    rewrite split_app by (apply Hl; left; reflexivity).
    f_equal. apply IH; [discriminate|].
    intros p' Hin. apply Hl. right. exact Hin.
Qed.

(** X13. [split] and [join] are inverse to each other: joining the pieces
    with the separator gives the string back; there is always at least one
    piece (the empty string gives one empty name) and no piece contains the
    separator; and the pieces of a joined list of separator-free names are
    those names. *)
Theorem split_round_trip (sep : ascii) (s : string) :
  String.concat (String sep "") (split sep s) = s
  /\ split sep s <> []
  /\ (forall p, In p (split sep s) -> split sep p = [p])
  /\ (forall l, l <> [] -> (forall p, In p l -> split sep p = [p]) ->
                split sep (String.concat (String sep "") l) = l).
Proof.
  split; [apply concat_split|]. split; [apply split_nonempty|].
  split; [apply split_pieces|]. apply split_concat.
Qed.

Section CommandLine.

Context {num : Type} {NUM : Numeric num}.

Lemma start_ue_ids (self : @KpmStyle5Xapp num) (ue_ids : list Z) (metric_names : list string) :
  ue_ids <> [] ->
  (2 <= List.length (snd (start self ue_ids metric_names)))%nat
  /\ (snd (start self ue_ids metric_names) = ue_ids
      \/ exists u, ue_ids = [u] /\ snd (start self ue_ids metric_names) = [u; u + 1]).
Proof.
  intros Hne. unfold start. cbn [snd].
  destruct ue_ids as [|u [|v ids]]; [contradiction| |].
  - cbn. split; [lia|]. right. exists u. split; reflexivity.
  - replace (Z.of_nat (List.length (u :: v :: ids)) <? 2) with false
      by (symmetry; apply Z.ltb_ge; cbn [List.length]; lia).
    split; [cbn; lia|]. left. reflexivity.
Qed.

Lemma main_subscription (int : string -> result Z) (ue_ids_arg metrics_arg : string)
      (size : Z) (s1 s2_ben s2_mal : @artifact num)
      (self : @KpmStyle5Xapp num) (ue_ids : list Z) :
  main int ue_ids_arg metrics_arg size s1 s2_ben s2_mal = Ok (self, ue_ids) ->
  (2 <= List.length ue_ids)%nat
  /\ (exists parsed,
         mapM int (split "," ue_ids_arg) = Ok parsed
         /\ (ue_ids = parsed \/ exists u, parsed = [u] /\ ue_ids = [u; u + 1]))
  /\ metric_names self = split "," metrics_arg
  /\ data_buffer self = []
  /\ buffer_size self = size.
Proof.
  unfold main. intros H.
  destruct (mapM int (split "," ue_ids_arg)) as [parsed|] eqn:Ep; cbn [rbind] in H;
    [|discriminate].
  assert (Hne : parsed <> []).
  { intros ->. apply mapM_Ok in Ep. inversion Ep as [E|]. symmetry in E.
    exact (split_nonempty _ _ E). }
  destruct (start_ue_ids (__init__ size s1 s2_ben s2_mal) parsed
                         (split "," metrics_arg) Hne) as [Hlen Hids].
  assert (Hst : start (__init__ size s1 s2_ben s2_mal) parsed (split "," metrics_arg)
                = (self, ue_ids)) by congruence.
  rewrite Hst in Hlen, Hids. cbn [snd] in Hlen, Hids.
  split; [exact Hlen|]. split; [exists parsed; split; [reflexivity|exact Hids]|].
  apply (f_equal fst) in Hst. cbn [fst start] in Hst. subst self.
  destruct s1, s2_ben, s2_mal; repeat split; reflexivity.
Qed.

Lemma init_prefix (buffer_size : Z) (s1 s2_ben s2_mal : @artifact num) :
  let self := __init__ buffer_size s1 s2_ben s2_mal in
  (s1_model self = None -> s2_ben_model self = None)
  /\ (s2_ben_model self = None -> s2_mal_model self = None)
  /\ ((forall m f, s1 <> Artifact m f) -> s1_model self = None)
  /\ ((forall m f, s2_ben <> Artifact m f) -> s2_ben_model self = None)
  /\ ((forall m f, s2_mal <> Artifact m f) -> s2_mal_model self = None)
  /\ (forall m1 f1 m2 f2 m3 f3,
        s1 = Artifact m1 f1 -> s2_ben = Artifact m2 f2 -> s2_mal = Artifact m3 f3 ->
        s1_model self = Some m1 /\ s2_ben_model self = Some m2
        /\ s2_mal_model self = Some m3).
Proof.
  cbv zeta.
  destruct s1 as [m1 f1| |], s2_ben as [m2 f2| |], s2_mal as [m3 f3| |]; cbn;
    repeat split; try discriminate; try reflexivity;
    try (intros H; exfalso; eapply H; reflexivity);
    try (intros; congruence).
Qed.

End CommandLine.

(** X14. Whatever the command line gives for [--ue_ids], a subscription that
    is made names at least two UEs: [split] never returns an empty list, so
    [start] sees at least one UE id, and to a single id [u] it appends
    [u + 1]; a list of two or more ids is subscribed as given. The metric
    names are the pieces of [--metrics], and the object starts with an empty
    buffer of the requested size. *)
Theorem command_line_subscription (num : Type)
        (int : string -> result Z) (ue_ids_arg metrics_arg : string)
        (size : Z) (s1 s2_ben s2_mal : @artifact num)
        (self : @KpmStyle5Xapp num) (ue_ids : list Z) :
  main int ue_ids_arg metrics_arg size s1 s2_ben s2_mal = Ok (self, ue_ids) ->
  (2 <= List.length ue_ids)%nat
  /\ (exists parsed,
         mapM int (split "," ue_ids_arg) = Ok parsed
         /\ (ue_ids = parsed \/ exists u, parsed = [u] /\ ue_ids = [u; u + 1]))
  /\ metric_names self = split "," metrics_arg
  /\ data_buffer self = []
  /\ buffer_size self = size.
Proof.
  exact (main_subscription int ue_ids_arg metrics_arg size s1 s2_ben s2_mal
                           self ue_ids).
Qed.

Lemma command_line_subscription_witness :
  let int := fun s => if String.eqb s "7" then Ok 7 else Raise ValueError in
  let self := set_metric_names (@__init__ float 30 NotFound NotFound NotFound)
                               ["CQI"; "RSRP"] in
  (2 <= List.length [7; 8])%nat
  /\ (exists parsed,
         mapM int (split "," "7") = Ok parsed
         /\ ([7; 8] = parsed \/ exists u, parsed = [u] /\ [7; 8] = [u; u + 1]))
  /\ metric_names self = split "," "CQI,RSRP"
  /\ data_buffer self = []
  /\ buffer_size self = 30.
Proof.
  apply (command_line_subscription
           float
           (fun s => if String.eqb s "7" then Ok 7 else Raise ValueError)
           "7" "CQI,RSRP" 30 NotFound NotFound NotFound
           (set_metric_names (__init__ 30 NotFound NotFound NotFound) ["CQI"; "RSRP"])
           [7; 8]).
  reflexivity.
Defined.

(** X15. The three artifacts are loaded in order inside one [try]: once a
    load fails, the later models stay unset, also when their files are
    fine. A Stage-2 model is therefore never present without the Stage-1
    model, and all three are present exactly when all three artifacts
    load. *)
Theorem models_load_in_order (num : Type)
        (buffer_size : Z) (s1 s2_ben s2_mal : @artifact num) :
  let self := __init__ buffer_size s1 s2_ben s2_mal in
  (s1_model self = None -> s2_ben_model self = None)
  /\ (s2_ben_model self = None -> s2_mal_model self = None)
  /\ ((forall m f, s1 <> Artifact m f) -> s1_model self = None)
  /\ ((forall m f, s2_ben <> Artifact m f) -> s2_ben_model self = None)
  /\ ((forall m f, s2_mal <> Artifact m f) -> s2_mal_model self = None)
  /\ (forall m1 f1 m2 f2 m3 f3,
        s1 = Artifact m1 f1 -> s2_ben = Artifact m2 f2 -> s2_mal = Artifact m3 f3 ->
        s1_model self = Some m1 /\ s2_ben_model self = Some m2
        /\ s2_mal_model self = Some m3).
Proof. exact (init_prefix buffer_size s1 s2_ben s2_mal). Qed.

(** ** The method without the store *)

Section PreparedFacts.

Context {num : Type} {NUM : Numeric num}.

Lemma end1_nth (h : store) (a d : DataFrame num) :
  nth_error (h ++ [a; d]) (S (List.length h)) = Some d.
Proof. induction h as [|x h IH]; cbn; [reflexivity|exact IH]. Qed.

Lemma end1_update (h : store) (a d x : DataFrame num) :
  update (h ++ [a; d]) (S (List.length h)) x = h ++ [a; x].
Proof. induction h as [|y h IH]; cbn; [reflexivity|]. cbn in IH. rewrite IH. reflexivity. Qed.

Lemma end0_nth (h : store) (d : DataFrame num) :
  nth_error (h ++ [d]) (List.length h) = Some d.
Proof. induction h as [|x h IH]; cbn; [reflexivity|exact IH]. Qed.

Lemma end0_update (h : store) (d x : DataFrame num) :
  update (h ++ [d]) (List.length h) x = h ++ [x].
Proof. induction h as [|y h IH]; cbn; [reflexivity|rewrite IH; reflexivity]. Qed.

Lemma metric_loop_step (col : string) (names : list string) (h : store)
      (pre cur : DataFrame num) :
  for_each (col :: names)
           (fun col =>
              (d <- load (S (List.length h)) ;;
               values <- lift (getitem d col) ;;
               save (S (List.length h)) (setitem d col (map to_numeric values)))%store)
           (h ++ [pre; cur])
  = match getitem cur col with
    | Ok values =>
        for_each names
                 (fun col =>
                    (d <- load (S (List.length h)) ;;
                     values <- lift (getitem d col) ;;
                     save (S (List.length h)) (setitem d col (map to_numeric values)))%store)
                 (h ++ [pre; setitem cur col (map to_numeric values)])
    | Raise e => (Raise e, h ++ [pre; cur])
    end.
Proof.
  cbn [for_each]. unfold bind at 1. unfold bind at 1, load at 1. rewrite end1_nth.
  unfold bind at 1, lift at 1.
  destruct (getitem cur col) as [values|e]; [|reflexivity].
  unfold save at 1. rewrite end1_update. reflexivity.
Qed.

(** The loop over [metric_names] on the store, against the function. *)
Lemma metric_loop_pure (names : list string) :
  forall (h : store) (pre cur : DataFrame num),
    match to_numeric_columns names cur with
    | Ok cur' =>
        for_each names
                 (fun col =>
                    (d <- load (S (List.length h)) ;;
                     values <- lift (getitem d col) ;;
                     save (S (List.length h)) (setitem d col (map to_numeric values)))%store)
                 (h ++ [pre; cur])
        = (Ok tt, h ++ [pre; cur'])
    | Raise e =>
        fst (for_each names
                 (fun col =>
                    (d <- load (S (List.length h)) ;;
                     values <- lift (getitem d col) ;;
                     save (S (List.length h)) (setitem d col (map to_numeric values)))%store)
                 (h ++ [pre; cur]))
        = Raise e
    end.
Proof.
  induction names as [|col names IH]; intros h pre cur; [reflexivity|].
  rewrite metric_loop_step. cbn [to_numeric_columns].
  destruct (getitem cur col) as [values|e]; cbn [rbind]; [apply IH|reflexivity].
Qed.

(** The method on a store computes [prepare] and then lines 104-184. *)
Lemma method_is_prepare_then_engineer (self : @KpmStyle5Xapp num) (h : store)
      (cleaned_dataset : ref) (d : DataFrame num) :
  nth_error h cleaned_dataset = Some d ->
  fst (_feature_engineer_network_data self cleaned_dataset h)
  = (p <- prepare self d ;; engineer (selected_features self) p)%result.
Proof.
  intros Hr. unfold _feature_engineer_network_data, prepare.
  unfold bind at 1, load at 1. rewrite Hr.
  unfold bind at 1, alloc at 1.
  unfold bind at 1, load at 1. rewrite end0_nth.
  unfold bind at 1, lift at 1.
  destruct (getitem d "Timestamp") as [ts|e]; cbn [rbind]; [|reflexivity].
  unfold bind at 1, save at 1. rewrite end0_update.
  unfold bind at 1, load at 1. rewrite end0_nth.
  set (d2 := setitem d "Timestamp" (map to_datetime ts)).
  unfold bind at 1, lift at 1.
  destruct (sort_values d2 ["E2AgentID"; "UE_ID"; "Timestamp"]) as [sorted|e];
    cbn [rbind]; [|reflexivity].
  unfold bind at 1, alloc at 1.
  rewrite <- app_assoc. cbn [app].
  replace (List.length (h ++ [d2])) with (S (List.length h))
    by (rewrite length_app; cbn; lia).
  pose proof (metric_loop_pure (metric_names self) h d2 sorted) as Hloop.
  unfold bind at 1.
  destruct (to_numeric_columns (metric_names self) sorted) as [cur|e]; cbn [rbind].
  - rewrite Hloop.
    unfold bind at 1, load at 1. rewrite end1_nth.
    unfold bind at 1, save at 1. rewrite end1_update.
    unfold bind at 1, load at 1. rewrite end1_nth.
    reflexivity.
  - destruct (for_each _ _ _) as [[[]|e'] h']; cbn [fst] in Hloop; [discriminate|].
    inversion Hloop. reflexivity.
Qed.

Lemma transform_prepare (self : @KpmStyle5Xapp num) (records : list (row_dict num)) :
  transform self records
  = (p <- prepare self (from_records records) ;;
     engineer (selected_features self) p)%result.
Proof.
  unfold transform. unfold bind at 1, alloc at 1. cbn [List.length app].
  apply (method_is_prepare_then_engineer self [from_records records] 0%nat).
  reflexivity.
Qed.

End PreparedFacts.

(** ** Typed frames through the preparation *)

Section TypedFacts.

Context {num : Type} {NUM : Numeric num}.

Lemma compatible_required (metrics : list string) (r : string) :
  compatible metrics = true -> In r required_metrics -> In r metrics.
Proof.
  unfold compatible. intros H Hr. apply andb_prop in H. destruct H as [H _].
  rewrite forallb_forall in H. apply existsb_eqb_In. apply H. exact Hr.
Qed.

Lemma compatible_reserved (metrics : list string) (m : string) :
  compatible metrics = true -> In m metrics ->
  ~ In m (["Timestamp"; "E2AgentID"; "UE_ID"] ++ derived_features).
Proof.
  unfold compatible. intros H Hm. apply andb_prop in H. destruct H as [_ H].
  rewrite forallb_forall in H. specialize (H m Hm).
  intros Hin. apply existsb_eqb_In in Hin. rewrite Hin in H. discriminate.
Qed.

(** *** Rows written by the callback *)

Lemma dict_get_In (d : row_dict num) (c : string) (v : cell num) :
  dict_get d c = Some v -> In c (map fst d).
Proof.
  induction d as [|[k x] d IH]; cbn; [discriminate|].
  destruct (String.eqb_spec k c) as [->|Hne]; [left; reflexivity|].
  intros H. right. apply IH. exact H.
Qed.

(** Reading after an assignment. *)
Lemma dict_get_set (d : row_dict num) (k k' : string) (v : cell num) :
  dict_get (dict_set d k v) k' = if String.eqb k k' then Some v else dict_get d k'.
Proof.
  induction d as [|[k0 v0] d IH]; cbn.
  - reflexivity.
  - destruct (String.eqb_spec k0 k) as [->|Hne]; cbn.
    + destruct (String.eqb k k'); reflexivity.
    + rewrite IH. destruct (String.eqb_spec k0 k') as [->|Hne'].
      * destruct (String.eqb_spec k k') as [E|_]; [congruence|reflexivity].
      * reflexivity.
Qed.

(** The keys after an assignment: a new key goes to the end. *)
Lemma keys_dict_set (d : row_dict num) (k : string) (v : cell num) :
  map fst (dict_set d k v)
  = if existsb (String.eqb k) (map fst d) then map fst d else map fst d ++ [k].
Proof.
  induction d as [|[k0 v0] d IH]; cbn; [reflexivity|].
  rewrite (String.eqb_sym k k0).
  destruct (String.eqb k0 k); cbn; [reflexivity|].
  rewrite IH. destruct (existsb (String.eqb k) (map fst d)); reflexivity.
Qed.

(** A run of assignments [d[m] = f m]. *)
Lemma dict_get_assign (f : string -> cell num) (ms : list string) :
  forall (d : row_dict num) (k : string),
    dict_get (fold_left (fun row m => dict_set row m (f m)) ms d) k
    = if existsb (String.eqb k) ms then Some (f k) else dict_get d k.
Proof.
  induction ms as [|m ms IH]; intros d k; cbn [fold_left existsb]; [reflexivity|].
  rewrite IH, dict_get_set, (String.eqb_sym k m).
  destruct (existsb (String.eqb k) ms); [rewrite orb_true_r; reflexivity|].
  rewrite orb_false_r. destruct (String.eqb_spec m k) as [->|_]; reflexivity.
Qed.

Lemma keys_assign (f : string -> cell num) (ms : list string) :
  forall d : row_dict num,
    map fst (fold_left (fun row m => dict_set row m (f m)) ms d)
    = fold_left (fun seen k => if existsb (String.eqb k) seen then seen else seen ++ [k])
                ms (map fst d).
Proof.
  induction ms as [|m ms IH]; intros d; cbn [fold_left]; [reflexivity|].
  rewrite IH, keys_dict_set. reflexivity.
Qed.

Lemma first_seen_fold_In (l : list string) :
  forall (seen : list string) (c : string),
    In c (fold_left (fun seen k => if existsb (String.eqb k) seen then seen else seen ++ [k])
                    l seen)
    <-> In c seen \/ In c l.
Proof.
  induction l as [|k l IH]; intros seen c; cbn [fold_left In]; [tauto|].
  rewrite IH. destruct (existsb (String.eqb k) seen) eqn:E.
  - apply existsb_eqb_In in E. split; [tauto|].
    intros [H|[<-|H]]; auto.
  - rewrite in_app_iff. cbn [In]. tauto.
Qed.

Lemma make_row_metric (self : @KpmStyle5Xapp num) (timestamp : Z) (e2_agent_id : string)
      (ue_id : Z) (meas_values : list (string * @raw num)) (m : string) :
  In m (metric_names self) ->
  dict_get (make_row self timestamp e2_agent_id ue_id meas_values) m
  = Some (Num (_extract_value
                 match find (fun kv => String.eqb (fst kv) m) meas_values with
                 | Some kv => snd kv
                 | None => RawScalar SNone
                 end)).
Proof.
  intros Hin. unfold make_row.
  rewrite (dict_get_assign
             (fun metric =>
                Num (_extract_value
                       match find (fun kv => String.eqb (fst kv) metric) meas_values with
                       | Some kv => snd kv
                       | None => RawScalar SNone
                       end))).
  apply existsb_eqb_In in Hin. rewrite Hin. reflexivity.
Qed.

Lemma make_row_identifier (self : @KpmStyle5Xapp num) (timestamp : Z) (e2_agent_id : string)
      (ue_id : Z) (meas_values : list (string * @raw num)) (c : string) :
  ~ In c (metric_names self) ->
  dict_get (make_row self timestamp e2_agent_id ue_id meas_values) c
  = dict_get [("Timestamp", Time timestamp); ("E2AgentID", Str e2_agent_id);
              ("UE_ID", Int ue_id)] c.
Proof.
  intros Hnin. unfold make_row.
  rewrite (dict_get_assign
             (fun metric =>
                Num (_extract_value
                       match find (fun kv => String.eqb (fst kv) metric) meas_values with
                       | Some kv => snd kv
                       | None => RawScalar SNone
                       end))).
  destruct (existsb (String.eqb c) (metric_names self)) eqn:E; [|reflexivity].
  apply existsb_eqb_In in E. contradiction.
Qed.

Lemma make_row_keys (self : @KpmStyle5Xapp num) (timestamp : Z) (e2_agent_id : string)
      (ue_id : Z) (meas_values : list (string * @raw num)) :
  map fst (make_row self timestamp e2_agent_id ue_id meas_values)
  = first_seen String.eqb (["Timestamp"; "E2AgentID"; "UE_ID"] ++ metric_names self).
Proof.
  unfold make_row, first_seen. rewrite keys_assign, fold_left_app. reflexivity.
Qed.

Lemma make_row_keys_In (self : @KpmStyle5Xapp num) (timestamp : Z) (e2_agent_id : string)
      (ue_id : Z) (meas_values : list (string * @raw num)) (c : string) :
  In c (map fst (make_row self timestamp e2_agent_id ue_id meas_values))
  <-> In c (["Timestamp"; "E2AgentID"; "UE_ID"] ++ metric_names self).
Proof.
  rewrite make_row_keys. unfold first_seen. rewrite first_seen_fold_In.
  cbn [In]. tauto.
Qed.

Lemma column_holds_from_records (buf : list (row_dict num)) (c : string)
      (P : cell num -> Prop) :
  buf <> [] ->
  (forall d, In d buf -> exists v, dict_get d c = Some v /\ P v) ->
  column_holds (from_records buf) c P.
Proof.
  intros Hne H. unfold column_holds. rewrite from_records_lookup.
  assert (He : existsb (fun d => existsb (String.eqb c) (map fst d)) buf = true).
  { apply existsb_keys_In. destruct buf as [|d buf]; [contradiction|].
    exists d. split; [left; reflexivity|].
    destruct (H d (or_introl eq_refl)) as [v [Hv _]]. eapply dict_get_In. exact Hv. }
  rewrite He. eexists. split; [reflexivity|].
  apply Forall_forall. intros x Hx. apply in_map_iff in Hx.
  destruct Hx as [d [<- Hd]]. destruct (H d Hd) as [v [-> Hv]]. exact Hv.
Qed.

Lemma typed_from_records (self : @KpmStyle5Xapp num) (buf : list (row_dict num)) :
  buf <> [] ->
  callback_rows self buf ->
  compatible (metric_names self) = true ->
  typed (metric_names self) (from_records buf).
Proof.
  intros Hne Hrows Hc. unfold callback_rows in Hrows. rewrite Forall_forall in Hrows.
  assert (Hid : forall c, In c ["Timestamp"; "E2AgentID"; "UE_ID"] ->
                          ~ In c (metric_names self)).
  { intros c Hin Hmc. apply (compatible_reserved _ c Hc Hmc).
    apply in_or_app. left. exact Hin. }
  split; [apply from_records_well_formed|].
  split; [|split; [|split; [|split]]].
  - apply column_holds_from_records; [exact Hne|]. intros d Hd.
    destruct (Hrows d Hd) as [ts [e2 [ue [meas ->]]]].
    rewrite make_row_identifier by (apply Hid; cbn; tauto).
    eexists. split; [reflexivity|exact I].
  - apply column_holds_from_records; [exact Hne|]. intros d Hd.
    destruct (Hrows d Hd) as [ts [e2 [ue [meas ->]]]].
    rewrite make_row_identifier by (apply Hid; cbn; tauto).
    eexists. split; [reflexivity|exact I].
  - apply column_holds_from_records; [exact Hne|]. intros d Hd.
    destruct (Hrows d Hd) as [ts [e2 [ue [meas ->]]]].
    rewrite make_row_identifier by (apply Hid; cbn; tauto).
    eexists. split; [reflexivity|exact I].
  - intros m Hm. apply column_holds_from_records; [exact Hne|]. intros d Hd.
    destruct (Hrows d Hd) as [ts [e2 [ue [meas ->]]]].
    eexists. split; [apply make_row_metric; exact Hm|exact I].
  - intros c Hin. apply columns_from_records_In in Hin. destruct Hin as [d [Hd Hk]].
    destruct (Hrows d Hd) as [ts [e2 [ue [meas ->]]]].
    apply make_row_keys_In in Hk. exact Hk.
Qed.

(** *** Columns across the steps of the preparation *)

Lemma columns_setitem (d : DataFrame num) (c : string) (cells values : list (cell num)) :
  getitem d c = Ok cells -> columns (setitem d c values) = columns d.
Proof.
  unfold getitem, setitem. destruct (index_of c (columns d)); [reflexivity|discriminate].
Qed.

Lemma column_holds_weaken (d : DataFrame num) (c : string) (P Q : cell num -> Prop) :
  (forall x, P x -> Q x) -> column_holds d c P -> column_holds d c Q.
Proof.
  intros H [cells [Hg HF]]. exists cells. split; [exact Hg|].
  eapply Forall_impl; [exact H|exact HF].
Qed.

Lemma column_holds_setitem_same (d : DataFrame num) (c : string)
      (values : list (cell num)) (P : cell num -> Prop) :
  well_formed d -> List.length values = List.length (rows d) ->
  Forall P values -> column_holds (setitem d c values) c P.
Proof.
  intros Hwf Hlen HP. exists values. split; [|exact HP].
  apply (setitem_lookup d c values Hwf Hlen).
Qed.

Lemma column_holds_setitem_other (d : DataFrame num) (c c' : string)
      (values : list (cell num)) (P : cell num -> Prop) :
  well_formed d -> List.length values = List.length (rows d) ->
  c' <> c -> column_holds d c' P -> column_holds (setitem d c values) c' P.
Proof.
  intros Hwf Hlen Hne [cells [Hg HP]]. exists cells. split; [|exact HP].
  destruct (setitem_lookup d c values Hwf Hlen) as [_ [H _]].
  rewrite (H c' Hne). exact Hg.
Qed.

Lemma length_rows_setitem (d : DataFrame num) (c : string) (values : list (cell num)) :
  List.length values = List.length (rows d) ->
  List.length (rows (setitem d c values)) = List.length (rows d).
Proof.
  intros H. unfold setitem.
  destruct (index_of c (columns d)); cbn; rewrite length_map, length_combine; lia.
Qed.

Lemma getitem_rows (d : DataFrame num) (c : string) (cells : list (cell num)) :
  getitem d c = Ok cells
  <-> exists i, index_of c (columns d) = Some i
                /\ cells = map (fun r => nth i r NA) (rows d).
Proof.
  unfold getitem. destruct (index_of c (columns d)) as [i|].
  - split.
    + intros H. inversion H. exists i. split; reflexivity.
    + intros [j [Hj ->]]. inversion Hj. reflexivity.
  - split; [discriminate|]. intros [j [Hj _]]. discriminate.
Qed.

(** Rows taken from a frame, in any order, keep what its columns hold. *)
Lemma column_holds_rows (d d' : DataFrame num) (c : string) (P : cell num -> Prop) :
  columns d' = columns d ->
  (forall r, In r (rows d') -> In r (rows d)) ->
  column_holds d c P -> column_holds d' c P.
Proof.
  intros Hc Hr [cells [Hg HP]]. apply getitem_rows in Hg. destruct Hg as [i [Hi ->]].
  exists (map (fun r => nth i r NA) (rows d')). split.
  - apply getitem_rows. exists i. rewrite Hc. split; [exact Hi|reflexivity].
  - rewrite Forall_map in *. rewrite Forall_forall in *.
    intros r Hin. apply HP. apply Hr. exact Hin.
Qed.

Lemma well_formed_rows (d d' : DataFrame num) :
  columns d' = columns d ->
  (forall r, In r (rows d') -> In r (rows d)) ->
  well_formed d -> well_formed d'.
Proof.
  unfold well_formed. intros Hc Hr H. rewrite Forall_forall in *.
  intros r Hin. rewrite Hc. apply H. apply Hr. exact Hin.
Qed.

Lemma column_index_getitem (d : DataFrame num) (c : string) (cells : list (cell num)) :
  getitem d c = Ok cells -> exists i, column_index d c = Ok i.
Proof.
  unfold getitem, column_index. destruct (index_of c (columns d)) as [i|];
    [eauto|discriminate].
Qed.

Lemma row_keys_total (d : DataFrame num) (by_ : list string) :
  (forall c, In c by_ -> exists cells, getitem d c = Ok cells) ->
  exists idx, mapM (column_index d) by_ = Ok idx
              /\ row_keys d by_ = Ok (map (fun r => map (fun i => nth i r NA) idx) (rows d)).
Proof.
  intros H.
  destruct (mapM_total (column_index d) (fun _ _ => True) by_) as [idx [Hidx _]].
  { intros c Hc. destruct (H c Hc) as [cells Hg].
    destruct (column_index_getitem _ _ _ Hg) as [i Hi]. exists i. split; [exact Hi|exact I]. }
  exists idx. split; [exact Hidx|]. unfold row_keys. rewrite Hidx. reflexivity.
Qed.

Lemma sort_values_total (d : DataFrame num) (by_ : list string) :
  (forall c, In c by_ -> exists cells, getitem d c = Ok cells) ->
  exists sorted, sort_values d by_ = Ok sorted.
Proof.
  intros H. destruct (row_keys_total d by_ H) as [idx [_ Hk]].
  unfold sort_values. rewrite Hk. cbn [rbind]. eexists. reflexivity.
Qed.

Lemma sort_values_rows (d sorted : DataFrame num) (by_ : list string) :
  sort_values d by_ = Ok sorted ->
  columns sorted = columns d
  /\ (forall r, In r (rows sorted) -> In r (rows d))
  /\ List.length (rows sorted) = List.length (rows d).
Proof.
  intros H. destruct (sort_values_perm d sorted by_ H) as [Hc Hp].
  split; [exact Hc|]. split.
  - intros r Hr. eapply Permutation_in; [apply Permutation_sym; exact Hp|exact Hr].
  - symmetry. apply Permutation_length. exact Hp.
Qed.

Lemma getitem_fillna (fill : cell num) (d : DataFrame num) (c : string) :
  well_formed d ->
  getitem (fillna fill d) c
  = (cells <- getitem d c ;; Ok (map (fillna_cell fill) cells))%result.
Proof.
  intros Hwf. unfold getitem, fillna. cbn [columns rows].
  destruct (index_of c (columns d)) as [i|] eqn:Ei; cbn [rbind]; [|reflexivity].
  pose proof (index_of_lt _ _ _ Ei) as Hi.
  f_equal. rewrite !map_map. apply map_ext_in. intros r Hr.
  unfold well_formed in Hwf. rewrite Forall_forall in Hwf. specialize (Hwf r Hr).
  rewrite (nth_indep _ NA (fillna_cell fill NA)) by (rewrite length_map; lia).
  apply map_nth.
Qed.

Lemma column_holds_fillna (fill : cell num) (d : DataFrame num) (c : string)
      (P : cell num -> Prop) :
  well_formed d ->
  (forall x, P x -> P (fillna_cell fill x)) ->
  column_holds d c P -> column_holds (fillna fill d) c P.
Proof.
  intros Hwf HP [cells [Hg HF]]. exists (map (fillna_cell fill) cells).
  rewrite getitem_fillna by exact Hwf. rewrite Hg. split; [reflexivity|].
  rewrite Forall_map. eapply Forall_impl; [exact HP|exact HF].
Qed.

Lemma well_formed_fillna (fill : cell num) (d : DataFrame num) :
  well_formed d -> well_formed (fillna fill d).
Proof.
  unfold well_formed, fillna. cbn [columns rows]. intros H.
  rewrite Forall_map. eapply Forall_impl; [|exact H].
  intros r Hr. cbn. rewrite length_map. exact Hr.
Qed.

(** The loop of lines 97-99 on a frame that has the columns it names. *)
Lemma to_numeric_columns_total (names : list string) :
  forall d : DataFrame num,
    well_formed d ->
    (forall c, In c names -> exists cells, getitem d c = Ok cells) ->
    exists d',
      to_numeric_columns names d = Ok d'
      /\ well_formed d'
      /\ List.length (rows d') = List.length (rows d)
      /\ columns d' = columns d
      /\ (forall c P, ~ In c names -> column_holds d c P -> column_holds d' c P)
      /\ (forall c, In c names -> column_holds d' c is_number).
Proof.
  induction names as [|col names IH]; intros d Hwf Hcols.
  - exists d. split; [reflexivity|]. split; [exact Hwf|]. split; [reflexivity|].
    split; [reflexivity|]. split; [intros c P _ H; exact H|intros c []].
  - destruct (Hcols col (or_introl eq_refl)) as [values Hv].
    cbn [to_numeric_columns]. rewrite Hv. cbn [rbind].
    set (d1 := setitem d col (map to_numeric values)).
    assert (Hlen : List.length (map to_numeric values) = List.length (rows d)).
    { rewrite length_map. eapply length_getitem. exact Hv. }
    destruct (setitem_lookup d col (map to_numeric values) Hwf Hlen) as [Hsame [Hother Hwf1]].
    fold d1 in Hsame, Hother, Hwf1.
    assert (Hnum : Forall is_number (map to_numeric values)).
    { rewrite Forall_map. apply Forall_forall. intros x _.
      destruct x; cbn; exact I. }
    destruct (IH d1 Hwf1) as [d' [Hd' [Hwf' [Hlen' [Hcols' [Hkeep Hnums]]]]]].
    { intros c Hc. destruct (String.eqb_spec c col) as [->|Hne].
      - eexists. exact Hsame.
      - rewrite (Hother c Hne). apply Hcols. right. exact Hc. }
    exists d'. split; [exact Hd'|]. split; [exact Hwf'|]. split.
    { rewrite Hlen'. apply length_rows_setitem. exact Hlen. }
    split.
    { rewrite Hcols'. eapply columns_setitem. exact Hv. }
    split.
    + intros c P Hc Hold. apply Hkeep; [intros Hin; apply Hc; right; exact Hin|].
      apply column_holds_setitem_other; auto.
      intros ->. apply Hc. left. reflexivity.
    + intros c [<-|Hc]; [|apply Hnums; exact Hc].
      destruct (in_dec string_dec col names) as [Hin|Hnin]; [apply Hnums; exact Hin|].
      apply Hkeep; [exact Hnin|]. exists (map to_numeric values). split; assumption.
Qed.

(** The preparation of a typed frame succeeds and keeps it typed. *)
Lemma prepare_typed (self : @KpmStyle5Xapp num) (d : DataFrame num) :
  typed (metric_names self) d ->
  compatible (metric_names self) = true ->
  exists p,
    prepare self d = Ok p
    /\ typed (metric_names self) p
    /\ List.length (rows p) = List.length (rows d).
Proof.
  intros [Hwf [Hts [He2 [Hue [Hm Hincl]]]]] Hc.
  assert (Hid : forall c, In c ["Timestamp"; "E2AgentID"; "UE_ID"] ->
                          ~ In c (metric_names self)).
  { intros c Hin Hmc. apply (compatible_reserved _ c Hc Hmc).
    apply in_or_app. left. exact Hin. }
  unfold prepare.
  destruct Hts as [ts [Hgts Hfts]]. rewrite Hgts. cbn [rbind].
  set (d2 := setitem d "Timestamp" (map to_datetime ts)).
  assert (Hlen : List.length (map to_datetime ts) = List.length (rows d)).
  { rewrite length_map. eapply length_getitem. exact Hgts. }
  destruct (setitem_lookup d "Timestamp" (map to_datetime ts) Hwf Hlen)
    as [Hsame [Hother Hwf2]].
  fold d2 in Hsame, Hother, Hwf2.
  assert (Hts2 : column_holds d2 "Timestamp" is_time).
  { exists (map to_datetime ts). split; [exact Hsame|].
    rewrite Forall_map. eapply Forall_impl; [|exact Hfts].
    intros x Hx. destruct x; try destruct Hx. exact I. }
  assert (He22 : column_holds d2 "E2AgentID" is_text).
  { apply column_holds_setitem_other; auto. discriminate. }
  assert (Hue2 : column_holds d2 "UE_ID" is_int).
  { apply column_holds_setitem_other; auto. discriminate. }
  assert (Hm2 : forall m, In m (metric_names self) -> column_holds d2 m is_number).
  { intros m Hin. apply column_holds_setitem_other; auto.
    intros ->. apply (Hid "Timestamp"); [left; reflexivity|exact Hin]. }
  destruct (sort_values_total d2 ["E2AgentID"; "UE_ID"; "Timestamp"]) as [sorted Hs].
  { intros c [<-|[<-|[<-|[]]]].
    - destruct He22 as [cs [H _]]. eauto.
    - destruct Hue2 as [cs [H _]]. eauto.
    - destruct Hts2 as [cs [H _]]. eauto. }
  rewrite Hs. cbn [rbind].
  destruct (sort_values_rows _ _ _ Hs) as [Hcs [Hrs Hls]].
  assert (Hwf3 : well_formed sorted) by (eapply well_formed_rows; eassumption).
  destruct (to_numeric_columns_total (metric_names self) sorted Hwf3)
    as [cur [Hcur [Hwf4 [Hlen4 [Hcols4 [Hkeep Hnums]]]]]].
  { intros c Hin. destruct (Hm2 c Hin) as [cells [Hg HF]].
    destruct (column_holds_rows d2 sorted c (fun _ => True) Hcs Hrs) as [cells' [Hg' _]].
    - exists cells. split; [exact Hg|]. apply Forall_forall. intros; exact I.
    - eauto. }
  rewrite Hcur. cbn [rbind].
  eexists. split; [reflexivity|]. split.
  - split; [apply well_formed_fillna; exact Hwf4|].
    split; [|split; [|split; [|split]]].
    + apply column_holds_fillna; [exact Hwf4| |].
      * intros x Hx. destruct x; try destruct Hx. exact I.
      * apply Hkeep; [apply Hid; left; reflexivity|].
        eapply column_holds_rows; eassumption.
    + apply column_holds_fillna; [exact Hwf4| |].
      * intros x Hx. destruct x; try destruct Hx. exact I.
      * apply Hkeep; [apply Hid; right; left; reflexivity|].
        eapply column_holds_rows; eassumption.
    + apply column_holds_fillna; [exact Hwf4| |].
      * intros x Hx. destruct x; try destruct Hx. exact I.
      * apply Hkeep; [apply Hid; right; right; left; reflexivity|].
        eapply column_holds_rows; eassumption.
    + intros m Hin. apply column_holds_fillna; [exact Hwf4| |].
      * intros x Hx. destruct x; try destruct Hx; unfold fillna_cell; cbn;
          try exact I. destruct (isnan x); exact I.
      * apply Hnums. exact Hin.
    + unfold fillna. cbn [columns]. rewrite Hcols4, Hcs.
      unfold d2. rewrite (columns_setitem _ _ _ _ Hgts). exact Hincl.
  - unfold fillna. cbn [rows]. rewrite length_map. rewrite Hlen4, Hls.
    apply length_rows_setitem. exact Hlen.
Qed.

End TypedFacts.

(** ** Derived features on a typed frame *)

Section DerivedFacts.

Context {num : Type} {NUM : Numeric num}.

Lemma numcol_total (d : DataFrame num) (c : string) :
  column_holds d c is_number ->
  exists s, numcol d c = Ok s /\ List.length s = List.length (rows d).
Proof.
  intros [cells [Hg HF]]. unfold numcol. rewrite Hg. cbn [rbind].
  destruct (mapM_total as_num (fun _ _ => True) cells) as [s [Hs _]].
  { intros x Hx. rewrite Forall_forall in HF. specialize (HF x Hx).
    destruct x; try destruct HF; eexists; (split; [reflexivity|exact I]). }
  exists s. split; [exact Hs|].
  rewrite (length_mapM _ _ _ Hs). eapply length_getitem. exact Hg.
Qed.

Lemma epoch_total (d : DataFrame num) :
  column_holds d "Timestamp" is_time ->
  exists ts epoch,
    getitem d "Timestamp" = Ok ts
    /\ mapM epoch_seconds ts = Ok epoch
    /\ List.length ts = List.length (rows d)
    /\ List.length epoch = List.length (rows d)
    /\ Forall is_number epoch.
Proof.
  intros [ts [Hg HF]].
  destruct (mapM_total epoch_seconds (fun _ e => is_number e) ts) as [epoch [He HF2]].
  { intros x Hx. rewrite Forall_forall in HF. specialize (HF x Hx).
    destruct x; try destruct HF. eexists. split; [reflexivity|exact I]. }
  exists ts, epoch. split; [exact Hg|]. split; [exact He|].
  pose proof (length_getitem _ _ _ Hg) as Hl.
  split; [exact Hl|]. split; [rewrite (length_mapM _ _ _ He); exact Hl|].
  clear - HF2. induction HF2; constructor; assumption.
Qed.

Lemma length_group_diff (kvs : list (list (cell num) * num)) :
  forall seen, List.length (group_diff seen kvs) = List.length kvs.
Proof.
  induction kvs as [|[k v] kvs IH]; intros seen; cbn; [reflexivity|].
  rewrite IH. reflexivity.
Qed.

Lemma Forall_number_nums (l : list num) : Forall is_number (nums l).
Proof. unfold nums. rewrite Forall_map. apply Forall_forall. intros; exact I. Qed.

Lemma Forall_number_flags {A B : Type} (f : A -> B -> bool) (a : list A) (b : list B) :
  Forall (@is_number num) (map2 (fun x y => @flag num (f x y)) a b).
Proof. unfold map2. rewrite Forall_map. apply Forall_forall. intros; exact I. Qed.

Ltac lengths :=
  unfold nums, guarded_ratio, map2;
  repeat (rewrite length_map || rewrite length_combine || rewrite length_group_diff);
  lia.

(** The dict [new_features] on a typed frame: every entry a numeric column
    as long as the frame. *)
Lemma derive_features_total (metrics : list string) (d : DataFrame num) :
  typed metrics d ->
  compatible metrics = true ->
  exists feats,
    derive_features d = Ok feats
    /\ map fst feats = derived_features
    /\ Forall (fun f => List.length (snd f) = List.length (rows d)
                        /\ Forall is_number (snd f)) feats.
Proof.
  intros [Hwf [Hts [He2 [Hue [Hm Hincl]]]]] Hc.
  assert (Hreq : forall c, In c required_metrics ->
                           exists s, numcol d c = Ok s
                                     /\ List.length s = List.length (rows d)).
  { intros c Hin. apply numcol_total, Hm. eapply compatible_required; eassumption. }
  unfold derive_features.
  destruct (Hreq "RRU.PrbUsedDl") as [a1 [-> L1]]; [cbn; tauto|]. cbn [rbind].
  destruct (Hreq "RRU.PrbAvailDl") as [a2 [-> L2]]; [cbn; tauto|]. cbn [rbind].
  destruct (Hreq "RRU.PrbUsedUl") as [a3 [-> L3]]; [cbn; tauto|]. cbn [rbind].
  destruct (Hreq "RRU.PrbAvailUl") as [a4 [-> L4]]; [cbn; tauto|]. cbn [rbind].
  destruct (Hreq "DRB.UEThpUl") as [a5 [-> L5]]; [cbn; tauto|]. cbn [rbind].
  destruct (Hreq "DRB.UEThpDl") as [a6 [-> L6]]; [cbn; tauto|]. cbn [rbind].
  destruct (Hreq "RSRP") as [a7 [-> L7]]; [cbn; tauto|]. cbn [rbind].
  destruct (Hreq "RSRQ") as [a8 [-> L8]]; [cbn; tauto|]. cbn [rbind].
  destruct (Hreq "CQI") as [a9 [-> L9]]; [cbn; tauto|]. cbn [rbind].
  destruct (Hreq "DRB.RlcSduTransmittedVolumeUL") as [a10 [-> L10]]; [cbn; tauto|].
  cbn [rbind].
  destruct (Hreq "DRB.RlcSduTransmittedVolumeDL") as [a11 [-> L11]]; [cbn; tauto|].
  cbn [rbind].
  destruct (Hreq "DRB.RlcSduDelayDl") as [a12 [-> L12]]; [cbn; tauto|]. cbn [rbind].
  destruct (Hreq "DRB.RlcDelayUl") as [a13 [-> L13]]; [cbn; tauto|]. cbn [rbind].
  destruct (row_keys_total d ["E2AgentID"; "UE_ID"]) as [idx [_ Hk]].
  { intros c [<-|[<-|[]]].
    - destruct He2 as [cs [H _]]. eauto.
    - destruct Hue as [cs [H _]]. eauto. }
  rewrite Hk. cbn [rbind].
  set (keys := map (fun r => map (fun i => nth i r NA) idx) (rows d)).
  assert (Lk : List.length keys = List.length (rows d)) by apply length_map.
  destruct (epoch_total d Hts) as [ts [epoch [Hgts [Hep [Lts [Le Hen]]]]]].
  rewrite Hgts. cbn [rbind]. rewrite Hep. cbn [rbind].
  eexists. split; [reflexivity|]. split; [reflexivity|].
  repeat (constructor; [cbn [snd]; split;
                        [lengths
                        |first [apply Forall_number_nums
                               |apply Forall_number_flags
                               |exact Hen
                               |(unfold map2; rewrite Forall_map; apply Forall_forall;
                                 intros; exact I)]]|]).
  constructor.
Qed.

(** *** [pd.concat] *)

Lemma hd_skipn {A : Type} (d : A) (k : nat) (l : list A) :
  hd d (skipn k l) = nth k l d.
Proof.
  revert l. induction k as [|k IH]; intros [|x l]; cbn; try reflexivity. apply IH.
Qed.

Lemma tl_skipn {A : Type} (k : nat) (l : list A) : tl (skipn k l) = skipn (S k) l.
Proof.
  revert l. induction k as [|k IH]; intros [|x l]; try reflexivity.
  change (tl (skipn k l) = skipn (S k) l). apply IH.
Qed.

Lemma append_cells_rows (rs : list (list (cell num))) (cols : list (list (cell num))) :
  forall k,
    append_cells rs (map (@skipn (cell num) k) cols)
    = map (fun jr => snd jr ++ map (fun col => nth (fst jr) col NA) cols)
          (combine (seq k (List.length rs)) rs).
Proof.
  induction rs as [|r rs IH]; intros k; [reflexivity|].
  cbn [append_cells List.length seq combine map fst snd]. f_equal.
  - f_equal. rewrite map_map. apply map_ext. intros col. apply hd_skipn.
  - rewrite <- IH. f_equal. rewrite map_map. apply map_ext. intros col. apply tl_skipn.
Qed.

Lemma rows_concat_columns (d : DataFrame num) (feats : list (string * list (cell num))) :
  rows (concat_columns d feats)
  = map (fun jr => snd jr ++ map (fun col => nth (fst jr) col NA) (map snd feats))
        (combine (seq 0 (List.length (rows d))) (rows d)).
Proof.
  unfold concat_columns. cbn [rows].
  rewrite <- (append_cells_rows (rows d) (map snd feats) 0).
  f_equal. symmetry.
  rewrite (map_ext (@skipn (cell num) 0) (fun x => x)) by reflexivity. apply map_id.
Qed.

Lemma index_of_app (c : string) (a b : list string) :
  index_of c (a ++ b)
  = match index_of c a with
    | Some i => Some i
    | None => option_map (fun k => (List.length a + k)%nat) (index_of c b)
    end.
Proof.
  induction a as [|x a IH]; cbn.
  - destruct (index_of c b); reflexivity.
  - destruct (String.eqb x c); [reflexivity|]. rewrite IH.
    destruct (index_of c a); cbn; [reflexivity|].
    destruct (index_of c b); reflexivity.
Qed.

Lemma In_combine_seq_rows {A : Type} (l : list A) (k j : nat) (r : A) :
  In (j, r) (combine (seq k (List.length l)) l) ->
  (k <= j < k + List.length l)%nat /\ In r l.
Proof.
  revert k. induction l as [|x l IH]; intros k H; [destruct H|].
  cbn in H. destruct H as [H|H].
  - inversion H; subst. cbn. split; [lia|left; reflexivity].
  - destruct (IH _ H) as [Hj Hin]. cbn. split; [lia|right; exact Hin].
Qed.

Lemma concat_columns_typed (d : DataFrame num) (feats : list (string * list (cell num))) :
  well_formed d ->
  Forall (fun f => List.length (snd f) = List.length (rows d)
                   /\ Forall is_number (snd f)) feats ->
  (forall f, In f (map fst feats) -> ~ In f (columns d)) ->
  let q := concat_columns d feats in
  well_formed q
  /\ List.length (rows q) = List.length (rows d)
  /\ (forall c P, column_holds d c P -> column_holds q c P)
  /\ (forall f, In f (map fst feats) -> column_holds q f is_number).
Proof.
  intros Hwf Hfeats Hnew q.
  assert (Hrows : rows q = map (fun jr => snd jr ++ map (fun col => nth (fst jr) col NA)
                                                        (map snd feats))
                               (combine (seq 0 (List.length (rows d))) (rows d)))
    by apply rows_concat_columns.
  assert (Hcols : columns q = columns d ++ map fst feats) by reflexivity.
  unfold well_formed in Hwf. rewrite Forall_forall in Hwf.
  split; [|split; [|split]].
  - unfold well_formed. rewrite Hrows, Hcols, Forall_map. apply Forall_forall.
    intros [j r] Hin. apply In_combine_seq_rows in Hin. destruct Hin as [_ Hin].
    cbn [fst snd]. rewrite !length_app, !length_map. rewrite (Hwf r Hin). reflexivity.
  - rewrite Hrows, length_map, length_combine, length_seq. lia.
  - intros c P [cells [Hg HP]]. apply getitem_rows in Hg. destruct Hg as [i [Hi ->]].
    exists (map (fun r => nth i r NA) (rows q)). split.
    + apply getitem_rows. exists i. split; [|reflexivity].
      rewrite Hcols, index_of_app, Hi. reflexivity.
    + rewrite Forall_map in *. rewrite Forall_forall in *.
      intros r Hr. rewrite Hrows in Hr. apply in_map_iff in Hr.
      destruct Hr as [[j r0] [<- Hin]]. apply In_combine_seq_rows in Hin.
      destruct Hin as [_ Hin]. cbn [fst snd].
      rewrite app_nth1; [apply HP; exact Hin|].
      rewrite (Hwf r0 Hin). eapply index_of_lt. exact Hi.
  - intros f Hf.
    assert (Hnone : index_of f (columns d) = None)
      by (apply index_of_None; apply Hnew; exact Hf).
    destruct (index_of f (map fst feats)) as [k|] eqn:Ek;
      [|apply index_of_None in Ek; contradiction].
    exists (map (fun r => nth (List.length (columns d) + k) r NA) (rows q)). split.
    + apply getitem_rows. exists (List.length (columns d) + k)%nat. split; [|reflexivity].
      rewrite Hcols, index_of_app, Hnone, Ek. reflexivity.
    + rewrite Forall_map. apply Forall_forall. intros r Hr.
      rewrite Hrows in Hr. apply in_map_iff in Hr.
      destruct Hr as [[j r0] [<- Hin]]. apply In_combine_seq_rows in Hin.
      destruct Hin as [Hj Hin]. cbn [fst snd].
      rewrite app_nth2 by (rewrite (Hwf r0 Hin); lia).
      rewrite (Hwf r0 Hin).
      replace (List.length (columns d) + k - List.length (columns d))%nat with k by lia.
      pose proof (index_of_nth _ _ _ Ek) as Hk.
      rewrite nth_error_map in Hk.
      destruct (nth_error feats k) as [[name cells]|] eqn:En; [|discriminate].
      rewrite (nth_indep _ NA (nth j [] NA)).
      2:{ rewrite !length_map. apply nth_error_Some. congruence. }
      rewrite (map_nth (fun col => nth j col NA)).
      rewrite (nth_indep _ [] (snd (name, cells))).
      2:{ rewrite length_map. apply nth_error_Some. congruence. }
      rewrite map_nth. rewrite (nth_error_nth _ _ _ En). cbn [snd].
      rewrite Forall_forall in Hfeats.
      destruct (Hfeats (name, cells) (nth_error_In _ _ En)) as [Hlen HP]. cbn [snd] in *.
      rewrite Forall_forall in HP. apply HP. apply nth_In. lia.
Qed.

End DerivedFacts.

(** ** Distinct sorted keys *)

Section UniqueSorted.

Variable A : Type.
Variable lt : A -> A -> bool.
Variable T : A -> Prop.
Hypothesis lt_irrefl : forall a, T a -> lt a a = false.
Hypothesis lt_trans :
  forall a b c, T a -> T b -> T c -> lt a b = true -> lt b c = true -> lt a c = true.
Hypothesis lt_total : forall a b, T a -> T b -> lt a b = false -> lt b a = false -> a = b.

Lemma insert_unique_sorted (x : A) (l : list A) :
  T x -> Forall T l -> StronglySorted (fun a b => lt a b = true) l ->
  StronglySorted (fun a b => lt a b = true) (insert_unique lt x l)
  /\ (forall y, In y (insert_unique lt x l) <-> y = x \/ In y l).
Proof.
  intros Hx HT Hs. induction Hs as [|y l Hs IH Hy]; cbn.
  - split; [repeat constructor|]. intros z. cbn. intuition.
  - inversion HT as [|? ? HTy HTl]; subst. specialize (IH HTl). destruct IH as [IHs IHin].
    destruct (lt y x) eqn:Eyx.
    + split.
      * constructor; [exact IHs|]. apply Forall_forall. intros z Hz.
        apply IHin in Hz. destruct Hz as [->|Hz]; [exact Eyx|].
        rewrite Forall_forall in Hy. apply Hy. exact Hz.
      * intros z. cbn [In]. rewrite IHin. split; intros H; intuition.
    + destruct (lt x y) eqn:Exy.
      * split.
        -- constructor; [constructor; assumption|].
           constructor; [exact Exy|]. apply Forall_forall. intros z Hz.
           rewrite Forall_forall in Hy, HTl.
           apply (lt_trans x y z); auto.
        -- intros z. cbn [In]. split; intros H; intuition.
      * assert (x = y) by (apply lt_total; assumption). subst y.
        split; [constructor; assumption|]. intros z. cbn [In].
        split; intros H; intuition (subst; auto).
Qed.

Lemma sorted_unique_sorted (l : list A) :
  Forall T l ->
  StronglySorted (fun a b => lt a b = true) (sorted_unique lt l)
  /\ (forall y, In y (sorted_unique lt l) <-> In y l).
Proof.
  intros HT. induction HT as [|x l Hx HT IH]; cbn.
  - split; [constructor|]. intros y. tauto.
  - destruct IH as [IHs IHin].
    assert (HT' : Forall T (sorted_unique lt l)).
    { apply Forall_forall. intros y Hy. apply IHin in Hy.
      rewrite Forall_forall in HT. apply HT. exact Hy. }
    destruct (insert_unique_sorted x _ Hx HT' IHs) as [Hs Hin].
    split; [exact Hs|]. intros y. rewrite Hin, IHin. cbn [In].
    split; intros H; intuition.
Qed.

Lemma strongly_sorted_NoDup (l : list A) :
  Forall T l -> StronglySorted (fun a b => lt a b = true) l -> NoDup l.
Proof.
  intros HT Hs. induction Hs as [|x l Hs IH Hx]; constructor.
  - inversion HT; subst. intros Hin. rewrite Forall_forall in Hx.
    specialize (Hx x Hin). rewrite lt_irrefl in Hx by assumption. discriminate.
  - apply IH. inversion HT; assumption.
Qed.

Lemma sorted_unique_distinct (l : list A) :
  Forall T l ->
  NoDup (sorted_unique lt l) /\ (forall y, In y (sorted_unique lt l) <-> In y l).
Proof.
  intros HT. destruct (sorted_unique_sorted l HT) as [Hs Hin].
  split; [|exact Hin]. apply strongly_sorted_NoDup; [|exact Hs].
  apply Forall_forall. intros y Hy. apply Hin in Hy.
  rewrite Forall_forall in HT. apply HT. exact Hy.
Qed.

End UniqueSorted.

(** ** Groups partition the rows *)

Section Partition.

Variables A B : Type.
Variable eqb : A -> A -> bool.
Variable T : A -> Prop.
Hypothesis eqb_spec : forall a b, T a -> T b -> (eqb a b = true <-> a = b).

Lemma list_sum_cons (x : nat) (l : list nat) : list_sum (x :: l) = (x + list_sum l)%nat.
Proof. reflexivity. Qed.

Lemma count_none (reps : list A) (k : A) :
  Forall T reps -> T k -> ~ In k reps ->
  list_sum (map (fun g => if eqb k g then 1%nat else 0%nat) reps) = 0%nat.
Proof.
  intros HT Hk Hnin. induction HT as [|g reps Hg HT IH]; [reflexivity|].
  rewrite map_cons, list_sum_cons.
  destruct (eqb k g) eqn:E.
  - apply eqb_spec in E; auto. subst. exfalso. apply Hnin. left. reflexivity.
  - rewrite IH; [reflexivity|]. intros Hin. apply Hnin. right. exact Hin.
Qed.

Lemma count_one (reps : list A) (k : A) :
  NoDup reps -> Forall T reps -> T k -> In k reps ->
  list_sum (map (fun g => if eqb k g then 1%nat else 0%nat) reps) = 1%nat.
Proof.
  intros Hnd HT Hk Hin. induction Hnd as [|g reps Hg Hnd IH]; [destruct Hin|].
  inversion HT as [|? ? HTg HTr]; subst. rewrite map_cons, list_sum_cons.
  destruct Hin as [->|Hin].
  - rewrite (proj2 (eqb_spec k k Hk Hk) eq_refl).
    rewrite count_none by assumption. reflexivity.
  - destruct (eqb k g) eqn:E.
    + apply eqb_spec in E; auto. subst. contradiction.
    + rewrite IH by assumption. reflexivity.
Qed.

Lemma list_sum_add (f g : A -> nat) (l : list A) :
  list_sum (map (fun x => (f x + g x)%nat) l)
  = (list_sum (map f l) + list_sum (map g l))%nat.
Proof.
  induction l as [|x l IH]; [reflexivity|].
  rewrite !map_cons, !list_sum_cons, IH. lia.
Qed.

Lemma list_sum_zero (l : list A) : list_sum (map (fun _ => 0%nat) l) = 0%nat.
Proof. induction l as [|x l IH]; [reflexivity|]. rewrite map_cons, list_sum_cons, IH. reflexivity. Qed.

Lemma partition_length (l : list (A * B)) (reps : list A) :
  NoDup reps -> Forall T reps ->
  Forall (fun kr => T (fst kr) /\ In (fst kr) reps) l ->
  list_sum (map (fun g => List.length (filter (fun kr => eqb (fst kr) g) l)) reps)
  = List.length l.
Proof.
  intros Hnd HT Hl. induction Hl as [|[k r] l [Hk Hin] _ IH].
  - apply list_sum_zero.
  - cbn [List.length]. rewrite <- IH.
    change (S ?n) with (1 + n)%nat.
    rewrite <- (count_one reps k Hnd HT Hk Hin).
    rewrite <- list_sum_add. f_equal. apply map_ext. intros g.
    cbn [filter fst]. destruct (eqb k g); reflexivity.
Qed.

End Partition.

(** ** The order on group keys *)

Lemma ascii_compare_refl (c : ascii) : Ascii.compare c c = Eq.
Proof. unfold Ascii.compare. apply N.compare_refl. Qed.

Lemma string_compare_refl (s : string) : String.compare s s = Eq.
Proof.
  induction s as [|c s IH]; cbn; [reflexivity|]. rewrite ascii_compare_refl. exact IH.
Qed.

Lemma string_compare_trans (a : string) :
  forall b c, String.compare a b = Lt -> String.compare b c = Lt -> String.compare a c = Lt.
Proof.
  induction a as [|x a IH]; intros [|y b] [|z c] Hab Hbc; cbn in *; try discriminate;
    try reflexivity.
  unfold Ascii.compare in *.
  destruct (N.compare_spec (N_of_ascii x) (N_of_ascii y)) as [Exy|Exy|Exy];
    try discriminate;
    destruct (N.compare_spec (N_of_ascii y) (N_of_ascii z)) as [Eyz|Eyz|Eyz];
    try discriminate.
  - rewrite Exy, Eyz, N.compare_refl. eapply IH; eassumption.
  - rewrite Exy. apply N.compare_lt_iff in Eyz. rewrite Eyz. reflexivity.
  - rewrite <- Eyz. apply N.compare_lt_iff in Exy. rewrite Exy. reflexivity.
  - assert (H : (N_of_ascii x < N_of_ascii z)%N) by lia.
    apply N.compare_lt_iff in H. rewrite H. reflexivity.
Qed.

Section KeyOrder.

Context {num : Type} {NUM : Numeric num}.

Lemma key_ltb_pair (s s' : string) (z z' : Z) :
  key_ltb [@Str num s; Int z] [Str s'; Int z']
  = match String.compare s s' with
    | Lt => true
    | Gt => false
    | Eq => z <? z'
    end.
Proof.
  cbn. rewrite (String.compare_antisym s s').
  destruct (String.compare s' s); cbn; [|reflexivity|reflexivity].
  destruct (z <? z') eqn:E; [reflexivity|]. destruct (z' <? z); reflexivity.
Qed.

Lemma key_eqb_pair (s s' : string) (z z' : Z) :
  key_eqb [@Str num s; Int z] [Str s'; Int z'] = String.eqb s s' && (z =? z').
Proof. cbn. rewrite andb_true_r. reflexivity. Qed.

Lemma key_ltb_irrefl (a : list (cell num)) : group_key a -> key_ltb a a = false.
Proof.
  intros [s [z ->]]. rewrite key_ltb_pair, string_compare_refl. apply Z.ltb_irrefl.
Qed.

Lemma key_ltb_trans (a b c : list (cell num)) :
  group_key a -> group_key b -> group_key c ->
  key_ltb a b = true -> key_ltb b c = true -> key_ltb a c = true.
Proof.
  intros [s1 [z1 ->]] [s2 [z2 ->]] [s3 [z3 ->]]. rewrite !key_ltb_pair.
  destruct (String.compare s1 s2) eqn:E12; try discriminate;
    destruct (String.compare s2 s3) eqn:E23; try discriminate; intros H1 H2.
  - apply String.compare_eq_iff in E12, E23. subst.
    rewrite string_compare_refl. apply Z.ltb_lt in H1, H2. apply Z.ltb_lt. lia.
  - apply String.compare_eq_iff in E12. subst. rewrite E23. reflexivity.
  - apply String.compare_eq_iff in E23. subst. rewrite E12. reflexivity.
  - rewrite (string_compare_trans _ _ _ E12 E23). reflexivity.
Qed.

Lemma key_ltb_total (a b : list (cell num)) :
  group_key a -> group_key b -> key_ltb a b = false -> key_ltb b a = false -> a = b.
Proof.
  intros [s1 [z1 ->]] [s2 [z2 ->]]. rewrite !key_ltb_pair.
  rewrite (String.compare_antisym s2 s1).
  destruct (String.compare s1 s2) eqn:E; cbn; try discriminate.
  intros H1 H2. apply String.compare_eq_iff in E. subst.
  apply Z.ltb_ge in H1, H2. f_equal. f_equal. f_equal. lia.
Qed.

Lemma key_eqb_eq (a b : list (cell num)) :
  group_key a -> group_key b -> (key_eqb a b = true <-> a = b).
Proof.
  intros [s1 [z1 ->]] [s2 [z2 ->]]. rewrite key_eqb_pair. split.
  - intros H. apply andb_prop in H. destruct H as [H1 H2].
    apply String.eqb_eq in H1. apply Z.eqb_eq in H2. subst. reflexivity.
  - intros H. inversion H. subst. rewrite String.eqb_refl, Z.eqb_refl. reflexivity.
Qed.

End KeyOrder.

(** ** The feature code on a typed frame *)

Section EngineerTotal.

Context {num : Type} {NUM : Numeric num}.

Lemma row_keys_group (q : DataFrame num) :
  column_holds q "E2AgentID" is_text ->
  column_holds q "UE_ID" is_int ->
  exists keys,
    row_keys q ["E2AgentID"; "UE_ID"] = Ok keys
    /\ List.length keys = List.length (rows q)
    /\ Forall group_key keys.
Proof.
  intros [c1 [H1 F1]] [c2 [H2 F2]].
  apply getitem_rows in H1, H2. destruct H1 as [i1 [Hi1 ->]]. destruct H2 as [i2 [Hi2 ->]].
  exists (map (fun r => map (fun i => nth i r NA) [i1; i2]) (rows q)).
  split; [|split].
  - unfold row_keys. cbn [mapM]. unfold column_index. rewrite Hi1, Hi2. reflexivity.
  - apply length_map.
  - rewrite Forall_map in *. rewrite Forall_forall in *. intros r Hr.
    specialize (F1 r Hr). specialize (F2 r Hr). cbn [map].
    destruct (nth i1 r NA); try destruct F1.
    destruct (nth i2 r NA); try destruct F2.
    eexists. eexists. reflexivity.
Qed.

Lemma groupby_total (q : DataFrame num) :
  column_holds q "E2AgentID" is_text ->
  column_holds q "UE_ID" is_int ->
  exists grouped,
    groupby q ["E2AgentID"; "UE_ID"] = Ok grouped
    /\ Forall (fun g => group_key (fst g)
                        /\ columns (snd g) = columns q
                        /\ (forall r, In r (rows (snd g)) -> In r (rows q))) grouped
    /\ list_sum (map (fun g => List.length (rows (snd g))) grouped)
       = List.length (rows q).
Proof.
  intros He2 Hue. destruct (row_keys_group q He2 Hue) as [keys [Hk [Hlen HT]]].
  unfold groupby. rewrite Hk. cbn [rbind].
  eexists. split; [reflexivity|].
  destruct (sorted_unique_distinct _ key_ltb group_key key_ltb_irrefl key_ltb_trans
                                   key_ltb_total keys HT) as [Hnd Hin].
  assert (HTr : Forall group_key (sorted_unique key_ltb keys)).
  { apply Forall_forall. intros k Hkin. apply Hin in Hkin.
    rewrite Forall_forall in HT. apply HT. exact Hkin. }
  split.
  - rewrite Forall_map. apply Forall_forall. intros k Hkin. cbn [fst snd columns rows].
    split; [rewrite Forall_forall in HTr; apply HTr; exact Hkin|].
    split; [reflexivity|].
    intros r Hr. apply in_map_iff in Hr. destruct Hr as [[k' r'] [<- Hf]].
    apply filter_In in Hf. destruct Hf as [Hf _]. apply in_combine_r in Hf. exact Hf.
  - rewrite map_map. cbn [snd rows].
    rewrite (map_ext _ (fun k => List.length (filter (fun kr => key_eqb (fst kr) k)
                                                     (combine keys (rows q)))))
      by (intros k; apply length_map).
    rewrite (partition_length _ _ key_eqb group_key key_eqb_eq _ _ Hnd HTr).
    + rewrite length_combine. lia.
    + apply Forall_forall. intros [k r] Hkr. apply in_combine_l in Hkr. cbn [fst].
      split; [rewrite Forall_forall in HT; apply HT; exact Hkr|apply Hin; exact Hkr].
Qed.

Lemma roll_feature_source (f : string) :
  In f all_features_to_roll -> In f required_metrics \/ In f derived_features.
Proof.
  intros H.
  assert (Hall : forallb (fun f => existsb (String.eqb f) required_metrics
                                   || existsb (String.eqb f) derived_features)
                         all_features_to_roll = true) by reflexivity.
  rewrite forallb_forall in Hall. specialize (Hall f H).
  apply orb_prop in Hall. destruct Hall as [E|E]; apply existsb_eqb_In in E; auto.
Qed.

Lemma derived_not_identifier (c : string) :
  In c ["Timestamp"; "E2AgentID"; "UE_ID"] -> ~ In c derived_features.
Proof.
  intros H Hd. apply existsb_eqb_In in Hd.
  destruct H as [<-|[<-|[<-|[]]]]; vm_compute in Hd; discriminate.
Qed.

Lemma length_pairs {A B : Type} (f g : A -> B) (l : list A) :
  List.length (flat_map (fun s => [f s; g s]) l) = (2 * List.length l)%nat.
Proof. induction l as [|x l IH]; cbn; [reflexivity|]. cbn in IH. rewrite IH. lia. Qed.

Lemma roll_group_total (run ue : cell num) (g : DataFrame num) :
  column_holds g "Timestamp" is_time ->
  (forall f, In f all_features_to_roll -> column_holds g f is_number) ->
  exists d,
    roll_group run ue g = Ok d
    /\ columns d = rolled_columns ++ ["E2AgentID"; "UE_ID"; "Timestamp"; "Timestamp_epoch"]
    /\ List.length (rows d) = List.length (rows g)
    /\ Forall (fun r => exists stats t e,
                          r = stats ++ [run; ue; t; e] /\ List.length stats = 52%nat)
              (rows d).
Proof.
  intros Hts Hf. unfold roll_group.
  destruct (sort_values_total g ["Timestamp"]) as [sorted Hs].
  { intros c [<-|[]]. destruct Hts as [cs [H _]]. eauto. }
  rewrite Hs. cbn [rbind].
  destruct (sort_values_rows _ _ _ Hs) as [Hcs [Hrs Hls]].
  destruct (mapM_total (numcol sorted) (fun _ _ => True) all_features_to_roll)
    as [series [Hser _]].
  { intros f Hin. destruct (numcol_total sorted f) as [s [Hn _]].
    - eapply column_holds_rows; [exact Hcs|exact Hrs|]. apply Hf. exact Hin.
    - exists s. split; [exact Hn|exact I]. }
  rewrite Hser. cbn [rbind].
  destruct (epoch_total sorted) as [ts [epoch [Hg [He _]]]].
  { eapply column_holds_rows; [exact Hcs|exact Hrs|exact Hts]. }
  rewrite Hg. cbn [rbind]. rewrite He. cbn [rbind].
  eexists. split; [reflexivity|]. cbn [columns rows].
  split; [reflexivity|]. split; [rewrite length_map, length_seq; exact Hls|].
  rewrite Forall_map. apply Forall_forall. intros i _.
  eexists. eexists. eexists. split; [reflexivity|].
  rewrite length_pairs, (length_mapM _ _ _ Hser). reflexivity.
Qed.

Lemma list_sum_Forall2 {A B : Type} (f : A -> nat) (g : B -> nat) (l : list A) (l' : list B) :
  Forall2 (fun a b => g b = f a) l l' -> list_sum (map g l') = list_sum (map f l).
Proof.
  intros H. induction H as [|a b l l' Hab _ IH]; [reflexivity|].
  rewrite !map_cons, !list_sum_cons, Hab, IH. reflexivity.
Qed.

Lemma length_flat_map_rows (dfs : list (DataFrame num)) :
  List.length (flat_map (@rows num) dfs)
  = list_sum (map (fun d => List.length (rows d)) dfs).
Proof.
  induction dfs as [|d dfs IH]; [reflexivity|].
  cbn [flat_map]. rewrite length_app, map_cons, list_sum_cons, IH. reflexivity.
Qed.

Lemma length_rows_reindex (sel : option (list string)) (fill : cell num) (d : DataFrame num) :
  List.length (rows (reindex sel fill d)) = List.length (rows d).
Proof. destruct sel; cbn; [apply length_map|reflexivity]. Qed.

(** Lines 104-184 on a typed frame: they return, with one row per row of
    the frame; when no feature list is selected the table has the rolled
    columns and an integer [UE_ID]. *)
Lemma engineer_total (metrics : list string) (sel : option (list string))
      (p : DataFrame num) :
  typed metrics p ->
  compatible metrics = true ->
  exists out,
    engineer sel p = Ok out
    /\ List.length (rows out) = List.length (rows p)
    /\ (sel = None -> rows p <> [] ->
        columns out
        = rolled_columns ++ ["E2AgentID"; "UE_ID"; "Timestamp"; "Timestamp_epoch"]
        /\ column_holds out "UE_ID" is_int).
Proof.
  intros Hty Hc.
  destruct (derive_features_total metrics p Hty Hc) as [feats [Hd [Hnames Hfeats]]].
  destruct Hty as [Hwf [Hts [He2 [Hue [Hm Hincl]]]]].
  unfold engineer. rewrite Hd. cbn [rbind].
  destruct (concat_columns_typed p feats Hwf Hfeats) as [Hwfq [Hlq [Hold Hnew]]].
  { rewrite Hnames. intros f Hf Hin. apply Hincl in Hin. apply in_app_or in Hin.
    destruct Hin as [Hin|Hin].
    - exact (derived_not_identifier f Hin Hf).
    - apply (compatible_reserved _ f Hc Hin). apply in_or_app. right. exact Hf. }
  set (q := concat_columns p feats) in *.
  rewrite Hnames in Hnew.
  destruct (groupby_total q (Hold _ _ He2) (Hold _ _ Hue)) as [grouped [Hg [HG Hsum]]].
  rewrite Hg. cbn [rbind].
  destruct (mapM_total
              (fun g => roll_group (nth 0 (fst g) NA) (nth 1 (fst g) NA) (snd g))
              (fun g d =>
                 columns d
                 = rolled_columns ++ ["E2AgentID"; "UE_ID"; "Timestamp"; "Timestamp_epoch"]
                 /\ List.length (rows d) = List.length (rows (snd g))
                 /\ Forall (fun r => exists stats t e z,
                                       r = stats ++ [nth 0 (fst g) NA; Int z; t; e]
                                       /\ List.length stats = 52%nat)
                           (rows d))
              grouped) as [final_dfs [Hf HF]].
  { intros [k g] Hin. rewrite Forall_forall in HG.
    destruct (HG _ Hin) as [Hk [Hcg Hrg]]. cbn [fst snd] in *.
    destruct (roll_group_total (nth 0 k NA) (nth 1 k NA) g) as [d [Hr [Hcd [Hld Hrd]]]].
    - eapply column_holds_rows; [exact Hcg|exact Hrg|]. apply Hold. exact Hts.
    - intros f Hfin. eapply column_holds_rows; [exact Hcg|exact Hrg|].
      destruct (roll_feature_source f Hfin) as [Hreq|Hder].
      + apply Hold, Hm. eapply compatible_required; eassumption.
      + apply Hnew. exact Hder.
    - exists d. split; [exact Hr|]. split; [exact Hcd|]. split; [exact Hld|].
      destruct Hk as [s [z ->]]. cbn [nth] in *.
      eapply Forall_impl; [|exact Hrd].
      intros r [stats [t [e [-> Hl]]]]. exists stats, t, e, z. split; [reflexivity|exact Hl]. }
  rewrite Hf. cbn [rbind].
  assert (Hrows : List.length (flat_map (@rows num) final_dfs) = List.length (rows p)).
  { rewrite length_flat_map_rows, <- Hlq, <- Hsum.
    apply list_sum_Forall2. clear - HF.
    induction HF as [|g d gs ds [_ [H _]] _ IH]; constructor; assumption. }
  destruct final_dfs as [|d0 dfs].
  - eexists. split; [reflexivity|]. split; [exact Hrows|].
    intros _ Hne. exfalso. cbn in Hrows. destruct (rows p); [contradiction|discriminate].
  - eexists. split; [reflexivity|]. split.
    + rewrite length_rows_reindex. exact Hrows.
    + intros -> _. cbn [reindex columns].
      inversion HF as [|g0 ? gs ? [Hc0 _] _]; subst.
      split; [exact Hc0|].
      exists (map (fun r => nth 53 r NA) (flat_map (@rows num) (d0 :: dfs))). split.
      * apply getitem_rows. exists 53%nat. cbn [columns rows]. rewrite Hc0.
        split; reflexivity.
      * rewrite Forall_map. apply Forall_forall. intros r Hr.
        apply in_flat_map in Hr. destruct Hr as [d [Hd0 Hr]].
        destruct (Forall2_In_r _ _ _ _ HF Hd0) as [g [_ [_ [_ Hshape]]]].
        rewrite Forall_forall in Hshape.
        destruct (Hshape r Hr) as [stats [t [e [z [-> Hl]]]]].
        rewrite app_nth2 by lia. rewrite Hl. exact I.
Qed.

(** The transform of a buffer the callback wrote. *)
Lemma transform_callback_buffer (self : @KpmStyle5Xapp num) (buf : list (row_dict num)) :
  buf <> [] ->
  callback_rows self buf ->
  compatible (metric_names self) = true ->
  exists out,
    transform self buf = Ok out
    /\ List.length (rows out) = List.length buf
    /\ (selected_features self = None ->
        columns out
        = rolled_columns ++ ["E2AgentID"; "UE_ID"; "Timestamp"; "Timestamp_epoch"]
        /\ column_holds out "UE_ID" is_int).
Proof.
  intros Hne Hrows Hc. rewrite transform_prepare.
  pose proof (typed_from_records self buf Hne Hrows Hc) as Hty.
  destruct (prepare_typed self _ Hty Hc) as [p [Hp [Htp Hlp]]].
  rewrite Hp. cbn [rbind].
  destruct (engineer_total (metric_names self) (selected_features self) p Htp Hc)
    as [out [Ho [Hlo Hcols]]].
  assert (Hlen : List.length (rows (from_records buf)) = List.length buf)
    by (unfold from_records; cbn [rows]; apply length_map).
  exists out. split; [exact Ho|]. split; [rewrite Hlo, Hlp; exact Hlen|].
  intros Hsel. apply Hcols; [exact Hsel|].
  intros E. rewrite E, Hlen in Hlp. destruct buf; [contradiction|discriminate].
Qed.

End EngineerTotal.

(** ** The callback when Stage 1 did not load *)

Section NoStage1.

Context {num : Type} {NUM : Numeric num} {SG : Sigmoid}.

Lemma make_row_metric_names (a b : @KpmStyle5Xapp num) :
  metric_names a = metric_names b -> make_row a = make_row b.
Proof. intros H. unfold make_row. rewrite H. reflexivity. Qed.

Lemma callback_rows_metric_names (a b : @KpmStyle5Xapp num) (buf : list (row_dict num)) :
  metric_names a = metric_names b -> callback_rows a buf -> callback_rows b buf.
Proof.
  intros H. unfold callback_rows. rewrite (make_row_metric_names a b H). auto.
Qed.

Lemma callback_rows_app (self : @KpmStyle5Xapp num) (buf : list (row_dict num))
      (timestamp : Z) (e2_agent_id : string)
      (meas_data : list (Z * list (string * @raw num))) :
  callback_rows self buf ->
  callback_rows self
    (buf ++ map (fun um => make_row self timestamp e2_agent_id (fst um) (snd um)) meas_data).
Proof.
  intros H. unfold callback_rows. apply Forall_app. split; [exact H|].
  rewrite Forall_map. apply Forall_forall. intros um _.
  exists timestamp, e2_agent_id, (fst um), (snd um). reflexivity.
Qed.

Lemma predict_without_stage1 (self : @KpmStyle5Xapp num) (out : DataFrame num) :
  s1_model self = None ->
  rows out <> [] ->
  columns out <> [] ->
  column_holds out "UE_ID" is_int ->
  predict_cascaded self out = Raise no_predict.
Proof.
  intros Hs1 Hr Hc [cells [Hg HF]]. unfold predict_cascaded.
  replace (empty out) with false
    by (unfold empty; destruct (columns out); [contradiction|];
        destruct (rows out); [contradiction|reflexivity]).
  rewrite Hg. cbn [rbind].
  destruct (mapM_total as_int (fun _ _ => True) cells) as [ue_ids [Hu _]].
  { intros c Hin. rewrite Forall_forall in HF. specialize (HF c Hin).
    destruct c; try destruct HF. eexists. split; [reflexivity|exact I]. }
  rewrite Hu. cbn [rbind]. rewrite Hs1. reflexivity.
Qed.

(** One indication. *)
Lemma callback_without_stage1 (self : @KpmStyle5Xapp num) (timestamp : Z)
      (e2_agent_id : string) (meas_data : list (Z * list (string * @raw num))) :
  s1_model self = None ->
  selected_features self = None ->
  compatible (metric_names self) = true ->
  callback_rows self (data_buffer self) ->
  let appended :=
    data_buffer self
    ++ map (fun um => make_row self timestamp e2_agent_id (fst um) (snd um)) meas_data in
  let after := subscription_callback self timestamp e2_agent_id meas_data in
  data_buffer (snd after) = appended
  /\ metric_names (snd after) = metric_names self
  /\ s1_model (snd after) = None
  /\ selected_features (snd after) = None
  /\ (appended <> [] -> buffer_size self <= Z.of_nat (List.length appended) ->
      fst after = Raise no_predict)
  /\ (Z.of_nat (List.length appended) < buffer_size self -> fst after = Ok None).
Proof.
  intros Hs1 Hsel Hc Hrows. cbv zeta. unfold subscription_callback.
  remember (data_buffer self
            ++ map (fun um => make_row self timestamp e2_agent_id (fst um) (snd um))
                   meas_data) as appended eqn:Eapp.
  set (self1 := set_data_buffer self appended).
  assert (Hrows1 : callback_rows self1 appended).
  { apply (callback_rows_metric_names self self1); [reflexivity|].
    rewrite Eapp. apply callback_rows_app. exact Hrows. }
  unfold process_buffer. change (buffer_size self1) with (buffer_size self).
  change (len self1) with (Z.of_nat (List.length appended)).
  change (data_buffer self1) with appended.
  destruct (Z.leb_spec (buffer_size self) (Z.of_nat (List.length appended))) as [Hb|Hb].
  - destruct appended as [|row rest].
    + change (transform self1 []) with (@Raise (DataFrame num) (KeyError "Timestamp")).
      cbn [fst snd].
      repeat split; try assumption; try reflexivity; [contradiction|cbn in *; lia].
    + destruct (transform_callback_buffer self1 (row :: rest)) as [out [Ho [Hl Hcols]]];
        [discriminate|exact Hrows1|exact Hc|].
      rewrite Ho. cbn [rbind].
      destruct (Hcols Hsel) as [Hco Hue].
      rewrite (predict_without_stage1 self1 out Hs1); [| | |exact Hue].
      * cbn [fst snd]. repeat split; try assumption; try reflexivity. lia.
      * intros E. rewrite E in Hl. discriminate.
      * rewrite Hco. discriminate.
  - cbn [fst snd]. repeat split; try assumption; try reflexivity. lia.
Qed.

Lemma feed_without_stage1 (inds : list (@indication num)) :
  forall self : @KpmStyle5Xapp num,
    s1_model self = None ->
    selected_features self = None ->
    compatible (metric_names self) = true ->
    callback_rows self (data_buffer self) ->
    data_buffer (feed self inds)
    = data_buffer self ++ flat_map (rows_of_indication self) inds.
Proof.
  induction inds as [|[[ts e2] meas] inds IH]; intros self Hs1 Hsel Hc Hrows.
  - cbn. rewrite app_nil_r. reflexivity.
  - cbn [feed flat_map].
    destruct (callback_without_stage1 self ts e2 meas Hs1 Hsel Hc Hrows)
      as [Hbuf [Hm [Hs1' [Hsel' _]]]].
    set (self' := snd (subscription_callback self ts e2 meas)) in *.
    rewrite IH; try assumption.
    + rewrite Hbuf, <- app_assoc. f_equal. f_equal.
      apply flat_map_ext. intros [[ts' e2'] meas']. unfold rows_of_indication.
      rewrite (make_row_metric_names self' self Hm). reflexivity.
    + rewrite Hm. exact Hc.
    + rewrite Hbuf. apply (callback_rows_metric_names self self'); [symmetry; exact Hm|].
      apply callback_rows_app. exact Hrows.
Qed.

End NoStage1.

(** X16. The transform never raises on a buffer the callback wrote: when the
    buffer is not empty, every record in it was built by
    [subscription_callback], and the subscribed metrics include the
    thirteen the feature code reads and none is named like an identifier
    column or a derived feature, the call returns a table with exactly one
    row per buffered record; with no feature list selected the table has
    the fifty-two rolling columns and the four identifier columns, and its
    [UE_ID] column holds integers. *)
Theorem transform_of_callback_rows (num : Type) (NUM : Numeric num)
        (self : @KpmStyle5Xapp num) (buf : list (row_dict num)) :
  buf <> [] ->
  callback_rows self buf ->
  compatible (metric_names self) = true ->
  exists out,
    transform self buf = Ok out
    /\ List.length (rows out) = List.length buf
    /\ (selected_features self = None ->
        columns out
        = rolled_columns ++ ["E2AgentID"; "UE_ID"; "Timestamp"; "Timestamp_epoch"]
        /\ column_holds out "UE_ID" is_int).
Proof. exact (transform_callback_buffer self buf). Qed.

Lemma transform_of_callback_rows_witness :
  exists out,
    transform (Scenario.loaded 2) Scenario.two_records = Ok out
    /\ List.length (rows out) = List.length Scenario.two_records
    /\ (selected_features (Scenario.loaded 2) = None ->
        columns out
        = rolled_columns ++ ["E2AgentID"; "UE_ID"; "Timestamp"; "Timestamp_epoch"]
        /\ column_holds out "UE_ID" is_int).
Proof.
  apply (transform_of_callback_rows float Binary64.binary64 (Scenario.loaded 2)
                                    Scenario.two_records).
  - discriminate.
  - repeat constructor; do 4 eexists; reflexivity.
  - reflexivity.
Defined.

(** X17. Take an object whose Stage-1 model is not loaded, with no feature
    list selected, whose subscribed metrics include the thirteen the
    feature code reads with none named like an identifier column or a
    derived feature, and whose buffer holds only records built by
    [subscription_callback]. An indication that leaves the buffer at or
    above [buffer_size] (and not empty) makes the callback raise
    [AttributeError] at the Stage-1 call; below [buffer_size] the call
    returns without a pass. In both cases the buffer afterwards is the old
    buffer followed by the new rows, nothing is cleared, and the metric
    names, the missing model and the missing feature list are as before. *)
Theorem full_buffer_without_stage1_raises (num : Type) (NUM : Numeric num) (SG : Sigmoid)
        (self : @KpmStyle5Xapp num) (timestamp : Z) (e2_agent_id : string)
        (meas_data : list (Z * list (string * @raw num))) :
  s1_model self = None ->
  selected_features self = None ->
  compatible (metric_names self) = true ->
  callback_rows self (data_buffer self) ->
  let appended :=
    data_buffer self
    ++ map (fun um => make_row self timestamp e2_agent_id (fst um) (snd um)) meas_data in
  let after := subscription_callback self timestamp e2_agent_id meas_data in
  data_buffer (snd after) = appended
  /\ metric_names (snd after) = metric_names self
  /\ s1_model (snd after) = None
  /\ selected_features (snd after) = None
  /\ (appended <> [] -> buffer_size self <= Z.of_nat (List.length appended) ->
      fst after = Raise no_predict)
  /\ (Z.of_nat (List.length appended) < buffer_size self -> fst after = Ok None).
Proof. exact (callback_without_stage1 self timestamp e2_agent_id meas_data). Qed.

Lemma full_buffer_without_stage1_raises_witness :
  let self := set_metric_names (@__init__ float 1 NotFound NotFound NotFound)
                               Scenario.default_metrics in
  let appended :=
    data_buffer self
    ++ map (fun um => make_row self 1000000000 "gnb1" (fst um) (snd um))
           [(7, Scenario.meas 1%float)] in
  let after := subscription_callback self 1000000000 "gnb1" [(7, Scenario.meas 1%float)] in
  data_buffer (snd after) = appended
  /\ metric_names (snd after) = metric_names self
  /\ s1_model (snd after) = None
  /\ selected_features (snd after) = None
  /\ (appended <> [] -> buffer_size self <= Z.of_nat (List.length appended) ->
      fst after = Raise no_predict)
  /\ (Z.of_nat (List.length appended) < buffer_size self -> fst after = Ok None).
Proof.
  apply (full_buffer_without_stage1_raises
           float Binary64.binary64 exact_sigmoid
           (set_metric_names (@__init__ float 1 NotFound NotFound NotFound)
                             Scenario.default_metrics)
           1000000000 "gnb1" [(7, Scenario.meas 1%float)]).
  - reflexivity.
  - reflexivity.
  - reflexivity.
  - constructor.
Defined.

(** X18. Take an object whose Stage-1 model is not loaded, with no feature
    list selected, whose subscribed metrics include the thirteen the
    feature code reads with none named like an identifier column or a
    derived feature, and whose buffer holds only records built by
    [subscription_callback] (the empty buffer of a new object is one).
    Then the buffer is never cleared: after any sequence of indications it
    holds every row that was ever appended, in order, so it grows without
    bound past the 1440-record cap. *)
Theorem buffer_grows_without_stage1 (num : Type) (NUM : Numeric num) (SG : Sigmoid)
        (self : @KpmStyle5Xapp num) (inds : list (@indication num)) :
  s1_model self = None ->
  selected_features self = None ->
  compatible (metric_names self) = true ->
  callback_rows self (data_buffer self) ->
  data_buffer (feed self inds)
  = data_buffer self ++ flat_map (rows_of_indication self) inds.
Proof. exact (feed_without_stage1 inds self). Qed.

Lemma buffer_grows_without_stage1_witness :
  let self := set_metric_names (@__init__ float 1 NotFound NotFound NotFound)
                               Scenario.default_metrics in
  let inds := [ (1000000000, "gnb1", [(7, Scenario.meas 1%float)]);
                (2000000000, "gnb1", [(7, Scenario.meas 2%float)]) ] in
  data_buffer (feed self inds)
  = data_buffer self ++ flat_map (rows_of_indication self) inds.
Proof.
  apply (buffer_grows_without_stage1
           float Binary64.binary64 exact_sigmoid
           (set_metric_names (@__init__ float 1 NotFound NotFound NotFound)
                             Scenario.default_metrics)
           [ (1000000000, "gnb1", [(7, Scenario.meas 1%float)]);
             (2000000000, "gnb1", [(7, Scenario.meas 2%float)]) ]).
  - reflexivity.
  - reflexivity.
  - reflexivity.
  - constructor.
Defined.

(** ** The callback when the models answer *)

Section EndToEnd.

Context {num : Type} {NUM : Numeric num} {SG : Sigmoid}.

Lemma NoDup_fst_functional {A B : Type} (l : list (A * B)) (a : A) (b b' : B) :
  NoDup (map fst l) -> In (a, b) l -> In (a, b') l -> b = b'.
Proof.
  induction l as [|[x y] l IH]; intros Hnd H1 H2; [destruct H1|].
  cbn in Hnd. inversion Hnd as [|? ? Hx Hnd']; subst.
  destruct H1 as [E1|H1], H2 as [E2|H2].
  - congruence.
  - inversion E1; subst. exfalso. apply Hx. apply in_map_iff. exists (a, b'). auto.
  - inversion E2; subst. exfalso. apply Hx. apply in_map_iff. exists (a, b). auto.
  - apply IH; assumption.
Qed.

Lemma callback_reports (self : @KpmStyle5Xapp num) (timestamp : Z)
      (e2_agent_id : string) (meas_data : list (Z * list (string * @raw num))) :
  selected_features self = None ->
  compatible (metric_names self) = true ->
  callback_rows self (data_buffer self) ->
  (forall X, exists preds, stage1 (s1_model self) X = Ok (Arr1 preds)
                           /\ List.length preds = List.length X) ->
  (forall x, exists s, stage2 (s2_ben_model self) (le_benign self) [x] = Ok s) ->
  (forall x, exists s, stage2 (s2_mal_model self) (le_malicious self) [x] = Ok s) ->
  let appended :=
    data_buffer self
    ++ map (fun um => make_row self timestamp e2_agent_id (fst um) (snd um)) meas_data in
  let after := subscription_callback self timestamp e2_agent_id meas_data in
  appended <> [] ->
  buffer_size self <= Z.of_nat (List.length appended) ->
  exists rep,
    fst after = Ok (Some rep)
    /\ List.length (cascade_prediction rep) = List.length appended
    /\ Forall prefixed (cascade_prediction rep)
    /\ verdicts rep <> []
    /\ NoDup (map fst (verdicts rep))
    /\ (forall ue v, In (ue, v) (verdicts rep) ->
                     startswith v "Benign-" = true \/ startswith v "Malicious-" = true)
    /\ data_buffer (snd after)
       = if hard_cap <=? Z.of_nat (List.length appended) then [] else appended.
Proof.
  intros Hsel Hc Hrows Hs1 Hben Hmal. cbv zeta. unfold subscription_callback.
  remember (data_buffer self
            ++ map (fun um => make_row self timestamp e2_agent_id (fst um) (snd um))
                   meas_data) as appended eqn:Eapp.
  intros Hne Hb.
  set (self1 := set_data_buffer self appended).
  assert (Hrows1 : callback_rows self1 appended).
  { apply (callback_rows_metric_names self self1); [reflexivity|].
    rewrite Eapp. apply callback_rows_app. exact Hrows. }
  destruct (transform_callback_buffer self1 appended Hne Hrows1 Hc) as [out [Ho [Hl Hcols]]].
  destruct (Hcols Hsel) as [Hco [cells [Hg HF]]].
  destruct (mapM_total as_int (fun _ _ => True) cells) as [ue_ids [Hu _]].
  { intros c Hin. rewrite Forall_forall in HF. specialize (HF c Hin).
    destruct c; try destruct HF. eexists. split; [reflexivity|exact I]. }
  destruct (Hs1 (feature_matrix self1 out)) as [preds [Hp Hlp]].
  assert (Hrne : rows out <> []).
  { intros E. rewrite E in Hl. destruct appended; [contradiction|discriminate]. }
  destruct (predict_cascaded_verdicts self1 out ue_ids preds) as [rep [Hrep [Hpre [Hnd Hall]]]].
  - unfold empty. rewrite Hco. destruct (rows out); [contradiction|reflexivity].
  - rewrite Hg. cbn [rbind]. exact Hu.
  - exact Hp.
  - rewrite Hlp. apply length_feature_matrix.
  - intros i pred x _ _. change (s2_ben_model self1) with (s2_ben_model self).
    change (s2_mal_model self1) with (s2_mal_model self).
    change (le_benign self1) with (le_benign self).
    change (le_malicious self1) with (le_malicious self).
    destruct (pred =? 0); [apply Hben|apply Hmal].
  - exists rep.
    destruct (predict_cascaded_inv self1 out rep Hrep) as [ids [bp [Hids [_ [_ [Hlen Hst]]]]]].
    rewrite Hg in Hids. cbn [rbind] in Hids. rewrite Hu in Hids. inversion Hids; subst ids.
    assert (Hune : ue_ids <> []).
    { intros E. subst ue_ids. apply mapM_Ok in Hu. inversion Hu; subst.
      apply length_getitem in Hg. cbn in Hg. destruct (rows out); [contradiction|discriminate]. }
    unfold process_buffer. change (buffer_size self1) with (buffer_size self).
    change (len self1) with (Z.of_nat (List.length appended)).
    change (data_buffer self1) with appended.
    replace (buffer_size self <=? Z.of_nat (List.length appended)) with true
      by (symmetry; apply Z.leb_le; exact Hb).
    rewrite Ho. cbn [rbind]. rewrite Hrep.
    split; [destruct (hard_cap <=? _); reflexivity|].
    split; [rewrite Hlen; exact Hl|]. split; [exact Hpre|].
    split; [|split; [exact Hnd|split]].
    + destruct ue_ids as [|u us]; [contradiction|].
      destruct (Hall u (or_introl eq_refl)) as [v [Hin _]].
      intros E. rewrite E in Hin. destruct Hin.
    + intros ue v Hin.
      destruct (status_entry _ _ _ _ _ Hst Hin) as [Hue _].
      destruct (Hall ue Hue) as [v' [Hin' [Hpv _]]].
      rewrite (NoDup_fst_functional _ ue v v' Hnd Hin Hin'). exact Hpv.
    + destruct (hard_cap <=? Z.of_nat (List.length appended)); reflexivity.
Qed.

End EndToEnd.

(** X19. End to end. Take an object with no feature list selected, whose
    subscribed metrics include the thirteen the feature code reads with
    none named like an identifier column or a derived feature, whose
    buffer holds only records built by [subscription_callback], and whose
    models answer: Stage 1 gives one label per row of any matrix, and each
    Stage-2 model decodes a class for every row. Then an indication that
    leaves the buffer not empty and at or above [buffer_size] makes
    [subscription_callback] return a report rather than raise: the report
    has one label per buffered record, every label and every verdict
    starts with [Benign-] or [Malicious-], there is at least one verdict
    and no UE has two; the buffer is emptied exactly when it has reached
    1440 records. *)
Theorem callback_returns_a_report (num : Type) (NUM : Numeric num) (SG : Sigmoid)
        (self : @KpmStyle5Xapp num) (timestamp : Z)
        (e2_agent_id : string) (meas_data : list (Z * list (string * @raw num))) :
  selected_features self = None ->
  compatible (metric_names self) = true ->
  callback_rows self (data_buffer self) ->
  (forall X, exists preds, stage1 (s1_model self) X = Ok (Arr1 preds)
                           /\ List.length preds = List.length X) ->
  (forall x, exists s, stage2 (s2_ben_model self) (le_benign self) [x] = Ok s) ->
  (forall x, exists s, stage2 (s2_mal_model self) (le_malicious self) [x] = Ok s) ->
  let appended :=
    data_buffer self
    ++ map (fun um => make_row self timestamp e2_agent_id (fst um) (snd um)) meas_data in
  let after := subscription_callback self timestamp e2_agent_id meas_data in
  appended <> [] ->
  buffer_size self <= Z.of_nat (List.length appended) ->
  exists rep,
    fst after = Ok (Some rep)
    /\ List.length (cascade_prediction rep) = List.length appended
    /\ Forall prefixed (cascade_prediction rep)
    /\ verdicts rep <> []
    /\ NoDup (map fst (verdicts rep))
    /\ (forall ue v, In (ue, v) (verdicts rep) ->
                     startswith v "Benign-" = true \/ startswith v "Malicious-" = true)
    /\ data_buffer (snd after)
       = if hard_cap <=? Z.of_nat (List.length appended) then [] else appended.
Proof. exact (callback_reports self timestamp e2_agent_id meas_data). Qed.

Lemma callback_returns_a_report_witness :
  let self := Scenario.loaded 2 in
  let meas_data := [(7, Scenario.meas 1%float); (8, Scenario.meas 2%float)] in
  let appended :=
    data_buffer self
    ++ map (fun um => make_row self 1000000000 "gnb1" (fst um) (snd um)) meas_data in
  let after := subscription_callback self 1000000000 "gnb1" meas_data in
  exists rep,
    fst after = Ok (Some rep)
    /\ List.length (cascade_prediction rep) = List.length appended
    /\ Forall prefixed (cascade_prediction rep)
    /\ verdicts rep <> []
    /\ NoDup (map fst (verdicts rep))
    /\ (forall ue v, In (ue, v) (verdicts rep) ->
                     startswith v "Benign-" = true \/ startswith v "Malicious-" = true)
    /\ data_buffer (snd after)
       = if hard_cap <=? Z.of_nat (List.length appended) then [] else appended.
Proof.
  apply (callback_returns_a_report float Binary64.binary64 exact_sigmoid (Scenario.loaded 2)
                                   1000000000 "gnb1"
                                   [(7, Scenario.meas 1%float); (8, Scenario.meas 2%float)]).
  - reflexivity.
  - reflexivity.
  - constructor.
  - intros X. eexists. split; [reflexivity|]. apply length_map.
  - intros x. eexists. reflexivity.
  - intros x. eexists. reflexivity.
  - discriminate.
  - cbn. lia.
Defined.

(** ** The rows of the buffer *)

Section BufferRows.

Context {num : Type} {NUM : Numeric num}.

Lemma extract_value_reading (value : option (@raw num)) :
  _extract_value match value with
                 | Some v => v
                 | None => RawScalar SNone
                 end
  = match reading value with
    | Some x => x
    | None => zero
    end.
Proof.
  destruct value as [[[x| | |]|[|[x| | |] l]]|]; reflexivity.
Qed.

Lemma make_row_cells (self : @KpmStyle5Xapp num) (timestamp : Z) (e2_agent_id : string)
      (ue_id : Z) (meas_values : list (string * @raw num)) :
  let row := make_row self timestamp e2_agent_id ue_id meas_values in
  (forall m,
      In m (metric_names self) ->
      dict_get row m
      = Some (Num match reading (option_map snd
                                   (find (fun kv => String.eqb (fst kv) m) meas_values)) with
                  | Some x => x
                  | None => zero
                  end))
  /\ (~ In "Timestamp" (metric_names self) ->
      dict_get row "Timestamp" = Some (Time timestamp))
  /\ (~ In "E2AgentID" (metric_names self) ->
      dict_get row "E2AgentID" = Some (Str e2_agent_id))
  /\ (~ In "UE_ID" (metric_names self) ->
      dict_get row "UE_ID" = Some (Int ue_id))
  /\ map fst row
     = first_seen String.eqb (["Timestamp"; "E2AgentID"; "UE_ID"] ++ metric_names self).
Proof.
  cbv zeta. split; [|split; [|split; [|split]]].
  - intros m Hm.
    rewrite (make_row_metric self timestamp e2_agent_id ue_id meas_values m Hm).
    rewrite <- extract_value_reading.
    destruct (find (fun kv => String.eqb (fst kv) m) meas_values); reflexivity.
  - intros H. rewrite make_row_identifier by exact H. reflexivity.
  - intros H. rewrite make_row_identifier by exact H. reflexivity.
  - intros H. rewrite make_row_identifier by exact H. reflexivity.
  - apply make_row_keys.
Qed.

(** ** The matrix handed to the models *)

Lemma feature_matrix_width (self : @KpmStyle5Xapp num) (feature_data : DataFrame num) :
  List.length (feature_matrix self feature_data) = List.length (rows feature_data)
  /\ (selected_features self = None ->
      columns feature_data
      = rolled_columns ++ ["E2AgentID"; "UE_ID"; "Timestamp"; "Timestamp_epoch"] ->
      Forall (fun x => List.length x = 53%nat) (feature_matrix self feature_data))
  /\ (forall f fs,
        selected_features self = Some (f :: fs) ->
        Forall (fun x =>
                  List.length x
                  = List.length (filter (fun c => negb (existsb (String.eqb c) identifiers))
                                        (f :: fs)))
               (feature_matrix self feature_data))
  /\ (isnan (@zero num NUM) = false ->
      Forall (Forall (fun v => isnan v = false)) (feature_matrix self feature_data)).
Proof.
  split; [apply length_feature_matrix|]. split; [|split].
  - intros Hsel Hco. unfold feature_matrix, drop. rewrite Hsel, Hco.
    cbn [reindex rows]. rewrite !Forall_map. apply Forall_forall. intros r _.
    rewrite !length_map. reflexivity.
  - intros f fs Hsel. unfold feature_matrix. rewrite Hsel.
    cbn [reindex rows]. rewrite !Forall_map. apply Forall_forall. intros r _.
    rewrite !length_map. reflexivity.
  - intros Hz. apply Forall_forall. intros row Hrow. apply Forall_forall. intros x Hx.
    exact (feature_matrix_no_nan Hz self feature_data row x Hrow Hx).
Qed.

End BufferRows.

(** X20. A buffered row is the dict the callback builds by assignment:
    its keys are [Timestamp], [E2AgentID], [UE_ID] and then the subscribed
    metrics, each key once, in the order they are first assigned. Every
    subscribed metric holds a float: the measurement when it is a number
    or a list that starts with a number, and 0.0 in every other case (the
    metric is missing from the indication, is [None], an empty list, text
    that is not a number, or a nested list), so a missing measurement is
    never NaN and never an exception. An identifier holds the clock
    reading, the agent or the UE id as long as no metric has its name; a
    metric named like an identifier overwrites it with its float. *)
Theorem buffered_row_cells (num : Type) (NUM : Numeric num)
        (self : @KpmStyle5Xapp num) (timestamp : Z) (e2_agent_id : string)
        (ue_id : Z) (meas_values : list (string * @raw num)) :
  let row := make_row self timestamp e2_agent_id ue_id meas_values in
  (forall m,
      In m (metric_names self) ->
      dict_get row m
      = Some (Num match reading (option_map snd
                                   (find (fun kv => String.eqb (fst kv) m) meas_values)) with
                  | Some x => x
                  | None => zero
                  end))
  /\ (~ In "Timestamp" (metric_names self) ->
      dict_get row "Timestamp" = Some (Time timestamp))
  /\ (~ In "E2AgentID" (metric_names self) ->
      dict_get row "E2AgentID" = Some (Str e2_agent_id))
  /\ (~ In "UE_ID" (metric_names self) ->
      dict_get row "UE_ID" = Some (Int ue_id))
  /\ map fst row
     = first_seen String.eqb (["Timestamp"; "E2AgentID"; "UE_ID"] ++ metric_names self).
Proof. exact (make_row_cells self timestamp e2_agent_id ue_id meas_values). Qed.

(** With the metrics [UE_ID] and [CQI] subscribed the row has four keys,
    and [UE_ID] holds the float read for the metric of that name (0.0, as
    the indication has none), not the UE id. *)
Example metric_named_like_identifier :
  make_row (set_metric_names (Scenario.loaded 1) ["UE_ID"; "CQI"]) 1000000000 "gnb1" 7
           [("CQI", RawList [SFloat 9%float])]
  = [ ("Timestamp", Time 1000000000); ("E2AgentID", Str "gnb1");
      ("UE_ID", Num 0%float); ("CQI", Num 9%float) ].
Proof. vm_compute. reflexivity. Qed.

(** X21. The matrix handed to the models has one row per row of the feature
    table. With no feature list selected and the table of the transform,
    every row has 53 entries: the 52 rolling statistics and
    [Timestamp_epoch], which is not among the identifiers that are dropped.
    With a feature list selected every row has exactly the listed features
    that are not identifiers. No entry is NaN. *)
Theorem model_input_shape (num : Type) (NUM : Numeric num)
        (self : @KpmStyle5Xapp num) (feature_data : DataFrame num) :
  List.length (feature_matrix self feature_data) = List.length (rows feature_data)
  /\ (selected_features self = None ->
      columns feature_data
      = rolled_columns ++ ["E2AgentID"; "UE_ID"; "Timestamp"; "Timestamp_epoch"] ->
      Forall (fun x => List.length x = 53%nat) (feature_matrix self feature_data))
  /\ (forall f fs,
        selected_features self = Some (f :: fs) ->
        Forall (fun x =>
                  List.length x
                  = List.length (filter (fun c => negb (existsb (String.eqb c) identifiers))
                                        (f :: fs)))
               (feature_matrix self feature_data))
  /\ (isnan (@zero num NUM) = false ->
      Forall (Forall (fun v => isnan v = false)) (feature_matrix self feature_data)).
Proof. exact (feature_matrix_width self feature_data). Qed.
